(** * Cube quadruplets: a shallow embedding of the search core

    The programs embedded here look for integer quadruplets (a, b, c, d)
    with a^3 + b^3 + c^3 = d^3 and d > a > b > c > 0:

    - [quadrapulets.py]: [find_cube_quadruplets], the brute-force search;
    - [app.py]: [find_cube_quadruplets_improved] and
      [verify_equation_step_by_step];
    - [app-p.py]: [find_gcd_multiple], [is_primitive_solution],
      [get_primitive_form], [find_cube_quadruplets_with_factors] and
      [find_cube_quadruplets_range_with_factors].

    Python integers are unbounded, so they are [Z].  The text the
    functions build for the user interface is not modelled; what the text
    depends on (the iteration counter, whether the stop notice was written,
    the results of the checks) is kept as data. *)

From Stdlib Require Import ZArith List Bool Lia QArith String.
From Stdlib Require Import Sorted.
Import ListNotations.
Local Open Scope Z_scope.

(** ** Python values, exceptions and results *)

Module Py.

(** The values that reach the entry points: an integer, or [None] (what
    the interface hands over for an empty number field). *)
Inductive value : Type :=
| Int (z : Z)
| None.

Inductive exn : Type :=
| ValueError
| TypeError
| OverflowError
| ZeroDivisionError.

(** A computation either returns or raises. *)
Inductive result (A : Type) : Type :=
| Return (x : A)
| Raise (e : exn).
Arguments Return {A} x.
Arguments Raise {A} e.

(** [int(v)] *)
Definition int (v : value) : result Z :=
  match v with
  | Int z => Return z
  | None => Raise TypeError
  end.

(** [v > 0] *)
Definition gt0 (v : value) : result bool :=
  match v with
  | Int z => Return (z >? 0)
  | None => Raise TypeError
  end.

(** [except (ValueError, TypeError)] *)
Definition is_value_or_type_error (e : exn) : bool :=
  match e with
  | ValueError | TypeError => true
  | OverflowError | ZeroDivisionError => false
  end.

(** [range(start, stop)] *)
Definition range (start stop : Z) : list Z :=
  map (fun i => start + Z.of_nat i) (seq 0 (Z.to_nat (stop - start))).

(** [range(start, stop, -1)] *)
Definition range_down (start stop : Z) : list Z :=
  map (fun i => start - Z.of_nat i) (seq 0 (Z.to_nat (start - stop))).

(** A double is a dyadic rational; [1e-10] is the double
    0x1.b7cdfd9d7bdbbp-34. *)
Definition float_1e_10 : Q := 7737125245533627 # 77371252455336267181195264.

(** [z < f] for an integer [z] and a float [f]: Python compares the two
    exactly, without converting the integer. *)
Definition int_lt_float (z : Z) (f : Q) : bool :=
  negb (Qle_bool f (inject_Z z)).

(** Converting an integer to a double raises [OverflowError] from
    2^1024 - 2^970 on (the first integer that rounds to 2^1024). *)
Definition float_overflow_bound : Z := 2 ^ 1024 - 2 ^ 970.

End Py.

Notation "x <- m ;; k" := (match m with
                           | Py.Return x => k
                           | Py.Raise e => Py.Raise e
                           end)
  (at level 61, m at next level, right associativity, only parsing).

Notation "' pat <- m ;; k" := (match m with
                               | Py.Return pat => k
                               | Py.Raise e => Py.Raise e
                               end)
  (at level 61, pat pattern, m at next level, right associativity, only parsing).

(** ** Quadruplets *)

Definition quadruplet : Type := Z * Z * Z * Z.

Definition quadruplet_eqb (p q : quadruplet) : bool :=
  let '(a, b, c, d) := p in
  let '(a', b', c', d') := q in
  (a =? a') && (b =? b') && (c =? c') && (d =? d').

(** [q in quadruplets] *)
Definition quadruplet_in (q : quadruplet) (quadruplets : list quadruplet) : bool :=
  existsb (quadruplet_eqb q) quadruplets.

(** [tuple(factor * x for x in q)] *)
Definition scale (factor : Z) (q : quadruplet) : quadruplet :=
  let '(a, b, c, d) := q in (factor * a, factor * b, factor * c, factor * d).

(** The equation of the data model. *)
Definition cube_equation (q : quadruplet) : Prop :=
  let '(a, b, c, d) := q in a ^ 3 + b ^ 3 + c ^ 3 = d ^ 3.

(** The ordering d > a > b > c > 0. *)
Definition ordered (q : quadruplet) : Prop :=
  let '(a, b, c, d) := q in d > a /\ a > b /\ b > c /\ c > 0.

Definition pairwise_distinct (q : quadruplet) : Prop :=
  let '(a, b, c, d) := q in
  a <> b /\ a <> c /\ a <> d /\ b <> c /\ b <> d /\ c <> d.

Definition valid_quadruplet (q : quadruplet) : Prop :=
  cube_equation q /\ ordered q /\ pairwise_distinct q.

(** ** quadrapulets.py *)

(** [find_cube_quadruplets(a, n)]: the two nested [for] loops append
    (a, b, c, d) for every b in [range(a - 1, 1, -1)] and every c in
    [range(b - 1, 0, -1)] with b^3 + c^3 = target. *)
Definition find_cube_quadruplets (a n : Z) : list quadruplet :=
  let d := a + n in
  let target := d ^ 3 - a ^ 3 in
  flat_map
    (fun b =>
       flat_map
         (fun c => if b ^ 3 + c ^ 3 =? target then [(a, b, c, d)] else [])
         (Py.range_down (b - 1) 0))
    (Py.range_down (a - 1) 1).

(** ** app-p.py: greatest common divisors *)

(** [find_gcd_multiple] takes a variable number of arguments and is
    [reduce(gcd, numbers)].  Every call in
    the program passes four numbers, so the argument tuple is given as its
    first number and the rest ([reduce] raises on an empty tuple). *)
Definition find_gcd_multiple (number : Z) (numbers : list Z) : Z :=
  fold_left Z.gcd numbers number.

Definition is_primitive_solution (a b c d : Z) : bool :=
  find_gcd_multiple a [b; c; d] =? 1.

(** [//] raises [ZeroDivisionError] on a zero divisor and is floor division
    otherwise. *)
Definition floordiv (x y : Z) : Py.result Z :=
  if y =? 0 then Py.Raise Py.ZeroDivisionError else Py.Return (x / y).

Definition get_primitive_form (a b c d : Z) : Py.result (Z * Z * Z * Z * Z) :=
  let common_factor := find_gcd_multiple a [b; c; d] in
  a' <- floordiv a common_factor ;;
  b' <- floordiv b common_factor ;;
  c' <- floordiv c common_factor ;;
  d' <- floordiv d common_factor ;;
  Py.Return (a', b', c', d', common_factor).

(** ** What the search functions return *)

(** The first component of the returned pair is text.  Its error messages
    are kept.  The text of a search is an f-string over the variables of
    the function; in its place stand the values of these variables at the
    [return]: the counter [iterations] of the loop, the list
    [primitive_solutions] and the dict [factor_families], and with them
    [stopped], whether the returned text holds the stop notice (see
    [stop_notice_shown]).  Which of the other values the text prints depends
    on the path taken: app.py prints the counter in both summaries,
    app-p.py prints the counts and the families when a quadruplet was found
    and factor analysis is on. *)
Inductive text : Type :=
| ErrorText (message : string)
| SearchText (iterations : Z) (stopped : bool)
| FactorText (iterations : Z) (stopped : bool)
             (primitive_solutions : list quadruplet)
             (factor_families : list (quadruplet * list (quadruplet * Z)))
| RangeText (primitive_solutions : list quadruplet).

Definition returned : Type := text * list quadruplet.

(** The stop notice is written to [search_details], and the summary
    ([if not quadruplets: ... else: result_text += search_details]) adds
    [search_details] to the returned text only when [quadruplets] is not
    empty: with an empty result the text holds no stop notice, whether or
    not the loop stopped at the cap. *)
Definition stop_notice_shown (quadruplets : list quadruplet) (stopped : bool)
  : bool :=
  match quadruplets with
  | [] => false
  | _ :: _ => stopped
  end.

(** The [try] block of the single-point searches:
    [a, n = int(a), int(n)] and
    [max_iterations = int(max_iterations) if max_iterations > 0 else 10000]. *)
Definition int_or_default (v : Py.value) (default : Z) : Py.result Z :=
  positive <- Py.gt0 v ;;
  if (positive : bool) then Py.int v else Py.Return default.

Definition convert_parameters (a n max_iterations : Py.value) : Py.result (Z * Z * Z) :=
  a <- Py.int a ;;
  n <- Py.int n ;;
  max_iterations <- int_or_default max_iterations 10000 ;;
  Py.Return (a, n, max_iterations).

(** The state of the [for b] loop of [find_cube_quadruplets_improved]:
    [stopped] records that the loop left through the [break] that writes
    the stop notice to [search_details]. *)
Record search_state : Type := {
  quadruplets : list quadruplet;
  iterations : Z;
  stopped : bool
}.

(** The state of the [for b] loop of [find_cube_quadruplets_with_factors]. *)
Record factor_state : Type := {
  f_quadruplets : list quadruplet;
  f_primitive_solutions : list quadruplet;
  f_factor_families : list (quadruplet * list (quadruplet * Z));
  f_iterations : Z;
  f_stopped : bool
}.

(** [if key not in families: families[key] = []] followed by
    [families[key].append(member)], on a dict in insertion order. *)
Fixpoint family_append (key : quadruplet) (member : quadruplet * Z)
    (families : list (quadruplet * list (quadruplet * Z)))
  : list (quadruplet * list (quadruplet * Z)) :=
  match families with
  | [] => [(key, [member])]
  | (k, members) :: rest =>
      if quadruplet_eqb key k then (k, members ++ [member]) :: rest
      else (k, members) :: family_append key member rest
  end.

(** The body of [for factor in range(2, max_factor + 1)] in
    [find_cube_quadruplets_with_factors]. *)
Definition scale_step (primitive : quadruplet) (acc : list quadruplet * Z)
    (factor : Z) : list quadruplet * Z :=
  let '(quadruplets, generated_count) := acc in
  let '(prim_a, prim_b, prim_c, prim_d) := primitive in
  let new_a := factor * prim_a in
  let new_b := factor * prim_b in
  let new_c := factor * prim_c in
  let new_d := factor * prim_d in
  if new_d =? new_a + factor * (prim_d - prim_a) then
    let scaled_solution := (new_a, new_b, new_c, new_d) in
    if negb (quadruplet_in scaled_solution quadruplets)
    then (quadruplets ++ [scaled_solution], generated_count + 1)
    else acc
  else acc.

(** [for primitive in primitive_solutions: for factor in ...]. *)
Definition generate_factor_families (max_factor : Z)
    (primitive_solutions quadruplets : list quadruplet) : list quadruplet * Z :=
  fold_left
    (fun acc primitive =>
       fold_left (scale_step primitive) (Py.range 2 (max_factor + 1)) acc)
    primitive_solutions (quadruplets, 0).

(** The body of [for factor in range(2, max_factor + 1)] in phase 2 of
    [find_cube_quadruplets_range_with_factors]. *)
Definition range_scale_step (a_start a_end n_start n_end : Z)
    (primitive : quadruplet) (all_quadruplets : list quadruplet) (factor : Z)
  : list quadruplet :=
  let scaled_quad := scale factor primitive in
  let '(scaled_a, scaled_b, scaled_c, scaled_d) := scaled_quad in
  let scaled_n := scaled_d - scaled_a in
  if (a_start <=? scaled_a) && (scaled_a <=? a_end)
     && ((n_start <=? scaled_n) && (scaled_n <=? n_end))
     && negb (quadruplet_in scaled_quad all_quadruplets)
  then all_quadruplets ++ [scaled_quad]
  else all_quadruplets.

Definition range_phase2 (a_start a_end n_start n_end max_factor : Z)
    (primitive_solutions all_quadruplets : list quadruplet) : list quadruplet :=
  fold_left
    (fun all_quadruplets primitive =>
       fold_left (range_scale_step a_start a_end n_start n_end primitive)
                 (Py.range 2 (max_factor + 1)) all_quadruplets)
    primitive_solutions all_quadruplets.

(** [for quad in found_quadruplets] of phase 1: the accumulator is
    ([all_quadruplets], [primitive_solutions]). *)
Definition collect_primitive (acc : list quadruplet * list quadruplet)
    (quad : quadruplet) : list quadruplet * list quadruplet :=
  let '(all_quadruplets, primitive_solutions) := acc in
  let '(a, b, c, d) := quad in
  if is_primitive_solution a b c d && negb (quadruplet_in quad all_quadruplets)
  then (all_quadruplets ++ [quad], primitive_solutions ++ [quad])
  else acc.

Section Search.

(** [round(x ** (1/3))] for a positive integer [x] that converts to a
    double.  The double-precision power is not modelled: the searches are
    embedded for an arbitrary candidate generator. *)
Variable cbrt_round : Z -> Z.

(** [c_exact = x ** (1/3)] followed by [c = round(c_exact)]: the
    conversion of [x] to a double comes first and may raise. *)
Definition float_cbrt_round (x : Z) : Py.result Z :=
  if Py.float_overflow_bound <=? x then Py.Raise Py.OverflowError
  else Py.Return (cbrt_round x).

(** *** app.py: find_cube_quadruplets_improved *)

Fixpoint improved_loop (a d target_sum max_iterations : Z) (bs : list Z)
    (st : search_state) : Py.result search_state :=
  match bs with
  | [] => Py.Return st
  | b :: bs =>
      let iterations := st.(iterations) + 1 in
      if iterations >? max_iterations then
        Py.Return {| quadruplets := st.(quadruplets);
                     iterations := iterations;
                     stopped := true |}
      else
        let st := {| quadruplets := st.(quadruplets);
                     iterations := iterations;
                     stopped := st.(stopped) |} in
        if (b >=? a) || (b >=? d) then
          improved_loop a d target_sum max_iterations bs st
        else
          let b_cubed := b ^ 3 in
          let c_cubed_needed := target_sum - b_cubed in
          if c_cubed_needed <=? 0 then
            improved_loop a d target_sum max_iterations bs st
          else
            c <- float_cbrt_round c_cubed_needed ;;
            if Py.int_lt_float (Z.abs (c ^ 3 - c_cubed_needed)) Py.float_1e_10 then
              if (c >? 0) && (c <? b) && (c <? a) && (c <? d)
                 && negb (c =? a) && negb (c =? b) && negb (c =? d) then
                if Py.int_lt_float (Z.abs (a ^ 3 + b ^ 3 + c ^ 3 - d ^ 3))
                                   Py.float_1e_10 then
                  let quadruplet := (a, b, c, d) in
                  improved_loop a d target_sum max_iterations bs
                    {| quadruplets := st.(quadruplets) ++ [quadruplet];
                       iterations := iterations;
                       stopped := st.(stopped) |}
                else improved_loop a d target_sum max_iterations bs st
              else improved_loop a d target_sum max_iterations bs st
            else improved_loop a d target_sum max_iterations bs st
  end.

Definition find_cube_quadruplets_improved (a n max_iterations : Py.value)
  : Py.result returned :=
  match convert_parameters a n max_iterations with
  | Py.Raise e =>
      if Py.is_value_or_type_error e
      then Py.Return (ErrorText "Error: Please enter valid integers", [])
      else Py.Raise e
  | Py.Return (a, n, max_iterations) =>
      if (a <=? 0) || (n <=? 0) then
        Py.Return
          (ErrorText "Error: Both 'a' and 'n' must be positive integers", [])
      else
        let d := a + n in
        let target_sum := d ^ 3 - a ^ 3 in
        let max_b := a - 1 in
        st <- improved_loop a d target_sum max_iterations
                (Py.range_down max_b 0)
                {| quadruplets := []; iterations := 0; stopped := false |} ;;
        Py.Return (SearchText st.(iterations)
                              (stop_notice_shown st.(quadruplets) st.(stopped)),
                   st.(quadruplets))
  end.

(** *** app-p.py: find_cube_quadruplets_with_factors *)

Fixpoint factors_loop (a d target_sum max_iterations : Z)
    (include_factors : bool) (bs : list Z) (st : factor_state)
  : Py.result factor_state :=
  match bs with
  | [] => Py.Return st
  | b :: bs =>
      let iterations := st.(f_iterations) + 1 in
      if iterations >? max_iterations then
        Py.Return {| f_quadruplets := st.(f_quadruplets);
                     f_primitive_solutions := st.(f_primitive_solutions);
                     f_factor_families := st.(f_factor_families);
                     f_iterations := iterations;
                     f_stopped := true |}
      else
        let st := {| f_quadruplets := st.(f_quadruplets);
                     f_primitive_solutions := st.(f_primitive_solutions);
                     f_factor_families := st.(f_factor_families);
                     f_iterations := iterations;
                     f_stopped := st.(f_stopped) |} in
        if (b >=? a) || (b >=? d) then
          factors_loop a d target_sum max_iterations include_factors bs st
        else
          let b_cubed := b ^ 3 in
          let c_cubed_needed := target_sum - b_cubed in
          if c_cubed_needed <=? 0 then
            factors_loop a d target_sum max_iterations include_factors bs st
          else
            c <- float_cbrt_round c_cubed_needed ;;
            if Py.int_lt_float (Z.abs (c ^ 3 - c_cubed_needed)) Py.float_1e_10 then
              if (c >? 0) && (c <? b) && (c <? a) && (c <? d)
                 && negb (c =? a) && negb (c =? b) && negb (c =? d) then
                if Py.int_lt_float (Z.abs (a ^ 3 + b ^ 3 + c ^ 3 - d ^ 3))
                                   Py.float_1e_10 then
                  let quadruplet := (a, b, c, d) in
                  let quadruplets := st.(f_quadruplets) ++ [quadruplet] in
                  if include_factors then
                    let common_factor := find_gcd_multiple a [b; c; d] in
                    let is_primitive := common_factor =? 1 in
                    if is_primitive then
                      let primitive_key := (a, b, c, d) in
                      factors_loop a d target_sum max_iterations include_factors bs
                        {| f_quadruplets := quadruplets;
                           f_primitive_solutions :=
                             st.(f_primitive_solutions) ++ [quadruplet];
                           f_factor_families :=
                             family_append primitive_key (quadruplet, common_factor)
                                           st.(f_factor_families);
                           f_iterations := iterations;
                           f_stopped := st.(f_stopped) |}
                    else
                      '(primitive_a, primitive_b, primitive_c, primitive_d, _) <-
                        get_primitive_form a b c d ;;
                      let primitive_key :=
                        (primitive_a, primitive_b, primitive_c, primitive_d) in
                      factors_loop a d target_sum max_iterations include_factors bs
                        {| f_quadruplets := quadruplets;
                           f_primitive_solutions := st.(f_primitive_solutions);
                           f_factor_families :=
                             family_append primitive_key (quadruplet, common_factor)
                                           st.(f_factor_families);
                           f_iterations := iterations;
                           f_stopped := st.(f_stopped) |}
                  else
                    factors_loop a d target_sum max_iterations include_factors bs
                      {| f_quadruplets := quadruplets;
                         f_primitive_solutions := st.(f_primitive_solutions);
                         f_factor_families := st.(f_factor_families);
                         f_iterations := iterations;
                         f_stopped := st.(f_stopped) |}
                else factors_loop a d target_sum max_iterations include_factors bs st
              else factors_loop a d target_sum max_iterations include_factors bs st
            else factors_loop a d target_sum max_iterations include_factors bs st
  end.

(** The [try] block: as [convert_parameters], then
    [max_factor = int(max_factor) if max_factor > 0 else 5]. *)
Definition convert_factor_parameters (a n max_iterations max_factor : Py.value)
  : Py.result (Z * Z * Z * Z) :=
  '(a, n, max_iterations) <- convert_parameters a n max_iterations ;;
  max_factor <- int_or_default max_factor 5 ;;
  Py.Return (a, n, max_iterations, max_factor).

Definition find_cube_quadruplets_with_factors
    (a n max_iterations : Py.value) (include_factors : bool)
    (max_factor : Py.value) : Py.result returned :=
  match convert_factor_parameters a n max_iterations max_factor with
  | Py.Raise e =>
      if Py.is_value_or_type_error e
      then Py.Return (ErrorText "Error: Please enter valid integers", [])
      else Py.Raise e
  | Py.Return (a, n, max_iterations, max_factor) =>
      if (a <=? 0) || (n <=? 0) then
        Py.Return
          (ErrorText "Error: Both 'a' and 'n' must be positive integers", [])
      else
        let d := a + n in
        let target_sum := d ^ 3 - a ^ 3 in
        let max_b := a - 1 in
        st <- factors_loop a d target_sum max_iterations include_factors
                (Py.range_down max_b 0)
                {| f_quadruplets := [];
                   f_primitive_solutions := [];
                   f_factor_families := [];
                   f_iterations := 0;
                   f_stopped := false |} ;;
        let quadruplets :=
          match include_factors, st.(f_primitive_solutions) with
          | true, _ :: _ =>
              fst (generate_factor_families max_factor
                     st.(f_primitive_solutions) st.(f_quadruplets))
          | _, _ => st.(f_quadruplets)
          end in
        Py.Return (FactorText st.(f_iterations)
                              (stop_notice_shown quadruplets st.(f_stopped))
                              st.(f_primitive_solutions) st.(f_factor_families),
                   quadruplets)
  end.

(** *** app-p.py: find_cube_quadruplets_range_with_factors *)

(** A [for] loop whose body may raise. *)
Fixpoint for_each {A S : Type} (xs : list A) (body : S -> A -> Py.result S)
    (s : S) : Py.result S :=
  match xs with
  | [] => Py.Return s
  | x :: xs => s <- body s x ;; for_each xs body s
  end.

Definition convert_range_parameters
    (a_start a_end n_start n_end max_iterations_per_combo max_factor : Py.value)
  : Py.result (Z * Z * Z * Z * Z * Z) :=
  a_start <- Py.int a_start ;;
  a_end <- Py.int a_end ;;
  n_start <- Py.int n_start ;;
  n_end <- Py.int n_end ;;
  max_iterations_per_combo <- int_or_default max_iterations_per_combo 5000 ;;
  max_factor <- int_or_default max_factor 3 ;;
  Py.Return (a_start, a_end, n_start, n_end, max_iterations_per_combo, max_factor).

(** Phase 1: the accumulator is ([all_quadruplets], [primitive_solutions]). *)
Definition range_phase1 (a_start a_end n_start n_end max_iterations_per_combo : Z)
  : Py.result (list quadruplet * list quadruplet) :=
  for_each (Py.range a_start (a_end + 1))
    (fun acc a =>
       for_each (Py.range n_start (n_end + 1))
         (fun acc n =>
            '(_, found_quadruplets) <-
              find_cube_quadruplets_with_factors
                (Py.Int a) (Py.Int n) (Py.Int max_iterations_per_combo)
                true (Py.Int 1) ;;
            Py.Return (fold_left collect_primitive found_quadruplets acc))
         acc)
    ([], []).

(** The search without primitive focus: [all_quadruplets.extend(...)]. *)
Definition range_standard
    (a_start a_end n_start n_end max_iterations_per_combo max_factor : Z)
  : Py.result (list quadruplet) :=
  for_each (Py.range a_start (a_end + 1))
    (fun all_quadruplets a =>
       for_each (Py.range n_start (n_end + 1))
         (fun all_quadruplets n =>
            '(_, found_quadruplets) <-
              find_cube_quadruplets_with_factors
                (Py.Int a) (Py.Int n) (Py.Int max_iterations_per_combo)
                true (Py.Int max_factor) ;;
            Py.Return (all_quadruplets ++ found_quadruplets))
         all_quadruplets)
    [].

Definition find_cube_quadruplets_range_with_factors
    (a_start a_end n_start n_end max_iterations_per_combo : Py.value)
    (focus_on_primitives : bool) (max_factor : Py.value)
  : Py.result returned :=
  match convert_range_parameters a_start a_end n_start n_end
                                 max_iterations_per_combo max_factor with
  | Py.Raise e =>
      if Py.is_value_or_type_error e
      then Py.Return (ErrorText "Error: Please enter valid integers", [])
      else Py.Raise e
  | Py.Return (a_start, a_end, n_start, n_end,
               max_iterations_per_combo, max_factor) =>
      if (a_start <=? 0) || (a_end <=? 0) || (n_start <=? 0) || (n_end <=? 0)
      then Py.Return (ErrorText "Error: All values must be positive integers", [])
      else
        let '(a_start, a_end) :=
          if a_start >? a_end then (a_end, a_start) else (a_start, a_end) in
        let '(n_start, n_end) :=
          if n_start >? n_end then (n_end, n_start) else (n_start, n_end) in
        if focus_on_primitives then
          '(all_quadruplets, primitive_solutions) <-
            range_phase1 a_start a_end n_start n_end max_iterations_per_combo ;;
          Py.Return
            (RangeText primitive_solutions,
             range_phase2 a_start a_end n_start n_end max_factor
                          primitive_solutions all_quadruplets)
        else
          all_quadruplets <-
            range_standard a_start a_end n_start n_end
                           max_iterations_per_combo max_factor ;;
          Py.Return (RangeText [], all_quadruplets)
  end.

End Search.

(** ** app.py: verify_equation_step_by_step *)

(** The function returns text; the report holds what the text shows.  The
    ordering checks are written only under "EQUATION SATISFIED". *)
Record constraint_checks : Type := {
  d_gt_a : bool;
  a_gt_b : bool;
  b_gt_c : bool;
  c_gt_0 : bool
}.

Inductive verification : Type :=
| InvalidIntegers
| NotPositive
| EquationSatisfied (alt_match : bool) (constraints : constraint_checks)
                    (all_satisfied : bool)
| EquationNotSatisfied (difference : Z).

Definition verify_equation_step_by_step (a b c d : Py.value) : verification :=
  match (a <- Py.int a ;; b <- Py.int b ;; c <- Py.int c ;; d <- Py.int d ;;
         Py.Return (a, b, c, d)) with
  | Py.Raise _ => InvalidIntegers
  | Py.Return (a, b, c, d) =>
      if existsb (fun x => x <=? 0) [a; b; c; d] then NotPositive
      else
        let a_cubed := a ^ 3 in
        let b_cubed := b ^ 3 in
        let c_cubed := c ^ 3 in
        let d_cubed := d ^ 3 in
        let left_side := d_cubed - a_cubed in
        let right_side := b_cubed + c_cubed in
        if left_side =? right_side then
          let alt_check := a_cubed + b_cubed + c_cubed in
          let constraints := [d >? a; a >? b; b >? c; c >? 0] in
          let all_satisfied :=
            fold_left (fun all satisfied => if negb satisfied then false else all)
                      constraints true in
          EquationSatisfied (alt_check =? d_cubed)
            {| d_gt_a := d >? a; a_gt_b := a >? b; b_gt_c := b >? c; c_gt_0 := c >? 0 |}
            all_satisfied
        else EquationNotSatisfied (Z.abs (left_side - right_side))
  end.

(** ** A reference candidate generator *)

(** The integer nearest to the real cube root, by exact integer
    arithmetic.  It serves to run the searches on concrete small inputs,
    where the double-precision [round(x ** (1/3))] gives the same integer. *)
Fixpoint cbrt_floor_bits (bits : nat) (r x : Z) : Z :=
  match bits with
  | O => r
  | S k =>
      let r' := r + 2 ^ Z.of_nat k in
      if r' ^ 3 <=? x then cbrt_floor_bits k r' x else cbrt_floor_bits k r x
  end.

Definition cbrt_floor (x : Z) : Z :=
  cbrt_floor_bits (Z.to_nat (Z.log2 x / 3 + 1)) 0 x.

Definition nearest_cbrt (x : Z) : Z :=
  let r := cbrt_floor x in
  if (2 * r + 1) ^ 3 <=? 8 * x then r + 1 else r.

(** ** The search as the specification words it *)

Section Specification.

Variable cbrt_round : Z -> Z.

(** Steps 4 and 5 of the specified search: the candidate is accepted only
    if c^3 == needed exactly, 0 < c < b < a < d, the four values are
    pairwise distinct and a^3 + b^3 + c^3 == d^3, all in exact integer
    arithmetic. *)
Definition exact_acceptance (a b c d needed : Z) : bool :=
  (c ^ 3 =? needed)
  && ((0 <? c) && (c <? b) && (b <? a) && (a <? d))
  && (negb (a =? b) && negb (a =? c) && negb (a =? d)
      && negb (b =? c) && negb (b =? d) && negb (c =? d))
  && (a ^ 3 + b ^ 3 + c ^ 3 =? d ^ 3).

(** Steps 2 to 6 of the specified search: b runs over [bs], each b uses
    one unit of the budget, and the loop stops with the cap marked once
    the count exceeds [max_iterations]. *)
Fixpoint exact_search_loop (a d target max_iterations : Z) (bs : list Z)
    (st : search_state) : Py.result search_state :=
  match bs with
  | [] => Py.Return st
  | b :: bs =>
      let count := st.(iterations) + 1 in
      if count >? max_iterations then
        Py.Return {| quadruplets := st.(quadruplets);
                     iterations := count;
                     stopped := true |}
      else
        let st := {| quadruplets := st.(quadruplets);
                     iterations := count;
                     stopped := st.(stopped) |} in
        if (b >=? a) || (b >=? d) then
          exact_search_loop a d target max_iterations bs st
        else
          let needed := target - b ^ 3 in
          if needed <=? 0 then
            exact_search_loop a d target max_iterations bs st
          else
            c <- float_cbrt_round cbrt_round needed ;;
            if exact_acceptance a b c d needed then
              exact_search_loop a d target max_iterations bs
                {| quadruplets := st.(quadruplets) ++ [(a, b, c, d)];
                   iterations := count;
                   stopped := st.(stopped) |}
            else exact_search_loop a d target max_iterations bs st
  end.

(** What one value of b contributes to the result: the quadruplet
    (a, b, c, d) when the candidate c for needed = d^3 - a^3 - b^3 is its
    exact cube root and 0 < c < b, with b below a and d. *)
Definition candidate (a d b : Z) : list quadruplet :=
  let needed := d ^ 3 - a ^ 3 - b ^ 3 in
  let c := cbrt_round needed in
  if (b <? a) && (b <? d) && (0 <? needed)
     && (c ^ 3 =? needed) && (0 <? c) && (c <? b)
  then [(a, b, c, d)]
  else [].

(** The quadruplets accepted for the values [bs] of b, in that order. *)
Definition accepted (a d : Z) (bs : list Z) : list quadruplet :=
  flat_map (candidate a d) bs.

End Specification.

(** The view of a [factor_state] that [find_cube_quadruplets_improved]
    keeps. *)
Definition search_view (st : factor_state) : search_state :=
  {| quadruplets := st.(f_quadruplets);
     iterations := st.(f_iterations);
     stopped := st.(f_stopped) |}.

Definition result_map {A B : Type} (f : A -> B) (r : Py.result A) : Py.result B :=
  match r with
  | Py.Return x => Py.Return (f x)
  | Py.Raise e => Py.Raise e
  end.

(** [is_primitive_solution] applied to the components of a tuple. *)
Definition primitive (q : quadruplet) : bool :=
  let '(a, b, c, d) := q in is_primitive_solution a b c d.

(** The loop invariant on [primitive_solutions]: with factor analysis on it
    holds the primitive members of [quadruplets], in order; with it off it
    stays empty. *)
Definition primitives_recorded (include_factors : bool) (st : factor_state) : Prop :=
  st.(f_primitive_solutions)
  = if include_factors then filter primitive st.(f_quadruplets) else [].

(** A parameter value that is a positive integer. *)
Definition positive_integer (v : Py.value) : bool :=
  match v with
  | Py.Int z => 0 <? z
  | Py.None => false
  end.

(** The returned pair is a rejection: an error message and no quadruplet. *)
Definition rejected (r : Py.result returned) : Prop :=
  exists message, r = Py.Return (ErrorText message, []).

(** ** Order of discovery *)

(** The second component of a tuple. *)
Definition component_b (q : quadruplet) : Z :=
  let '(_, b, _, _) := q in b.

(** A list of quadruplets in strictly descending b: the order in which the
    [for b] loops find them. *)
Definition descending_b (quads : list quadruplet) : Prop :=
  StronglySorted (fun p q => component_b p > component_b q) quads.

(** The quadruplet is anchored at a and n: its first component is a and
    its last is a + n. *)
Definition anchored (a n : Z) (q : quadruplet) : Prop :=
  let '(a', _, _, d') := q in a' = a /\ d' = a + n.

(** The window of a range search: a' within the a range and d' - a' within
    the n range. *)
Definition in_window (a_start a_end n_start n_end : Z) (q : quadruplet) : Prop :=
  let '(a', _, _, d') := q in
  a_start <= a' <= a_end /\ n_start <= d' - a' <= n_end.

(** ** app.py: find_cube_quadruplets_range *)

(** The text of the range search: an error message, or the counters of the
    final summary. *)
Inductive range_text : Type :=
| RangeErrorText (message : string)
| RangeSummary (combinations_tested combinations_with_solutions : Z).

(** The state of the [for b] loop of one (a, n) combination. *)
Record combo_state : Type := {
  c_found_for_this_combo : list quadruplet;
  c_all_quadruplets : list quadruplet;
  c_iterations : Z
}.

Section RangeSearchApp.

Variable cbrt_round : Z -> Z.

Fixpoint combo_loop (a d target_sum max_iterations_per_combo : Z) (bs : list Z)
    (st : combo_state) : Py.result combo_state :=
  match bs with
  | [] => Py.Return st
  | b :: bs =>
      let iterations := st.(c_iterations) + 1 in
      let st := {| c_found_for_this_combo := st.(c_found_for_this_combo);
                   c_all_quadruplets := st.(c_all_quadruplets);
                   c_iterations := iterations |} in
      if iterations >? max_iterations_per_combo then Py.Return st
      else if (b >=? a) || (b >=? d) then
        combo_loop a d target_sum max_iterations_per_combo bs st
      else
        let b_cubed := b ^ 3 in
        let c_cubed_needed := target_sum - b_cubed in
        if c_cubed_needed <=? 0 then
          combo_loop a d target_sum max_iterations_per_combo bs st
        else
          c <- float_cbrt_round cbrt_round c_cubed_needed ;;
          if Py.int_lt_float (Z.abs (c ^ 3 - c_cubed_needed)) Py.float_1e_10 then
            if (c >? 0) && (c <? b) && (c <? a) && (c <? d)
               && negb (c =? a) && negb (c =? b) && negb (c =? d) then
              if Py.int_lt_float (Z.abs (a ^ 3 + b ^ 3 + c ^ 3 - d ^ 3))
                                 Py.float_1e_10 then
                let quadruplet := (a, b, c, d) in
                combo_loop a d target_sum max_iterations_per_combo bs
                  {| c_found_for_this_combo :=
                       st.(c_found_for_this_combo) ++ [quadruplet];
                     c_all_quadruplets := st.(c_all_quadruplets) ++ [quadruplet];
                     c_iterations := iterations |}
              else combo_loop a d target_sum max_iterations_per_combo bs st
            else combo_loop a d target_sum max_iterations_per_combo bs st
          else combo_loop a d target_sum max_iterations_per_combo bs st
  end.

Definition convert_app_range_parameters
    (a_start a_end n_start n_end max_iterations_per_combo : Py.value)
  : Py.result (Z * Z * Z * Z * Z) :=
  a_start <- Py.int a_start ;;
  a_end <- Py.int a_end ;;
  n_start <- Py.int n_start ;;
  n_end <- Py.int n_end ;;
  max_iterations_per_combo <- int_or_default max_iterations_per_combo 5000 ;;
  Py.Return (a_start, a_end, n_start, n_end, max_iterations_per_combo).

(** The body of [for n in range(n_start, n_end + 1)]; the accumulator is
    ([all_quadruplets], [combinations_tested], [combinations_with_solutions]).
    The progress line divides by [total_combinations]. *)
Definition combo_body (max_iterations_per_combo total_combinations a : Z)
    (acc : list quadruplet * Z * Z) (n : Z) : Py.result (list quadruplet * Z * Z) :=
  let '(all_quadruplets, combinations_tested, combinations_with_solutions) := acc in
  let combinations_tested := combinations_tested + 1 in
  let d := a + n in
  let target_sum := d ^ 3 - a ^ 3 in
  if (combinations_tested mod 10 =? 0) && (total_combinations =? 0)
  then Py.Raise Py.ZeroDivisionError
  else
    let max_b := a - 1 in
    st <- combo_loop a d target_sum max_iterations_per_combo
            (Py.range_down max_b 0)
            {| c_found_for_this_combo := [];
               c_all_quadruplets := all_quadruplets;
               c_iterations := 0 |} ;;
    let combinations_with_solutions :=
      match st.(c_found_for_this_combo) with
      | [] => combinations_with_solutions
      | _ :: _ => combinations_with_solutions + 1
      end in
    Py.Return (st.(c_all_quadruplets), combinations_tested,
               combinations_with_solutions).

Definition find_cube_quadruplets_range
    (a_start a_end n_start n_end max_iterations_per_combo : Py.value)
  : Py.result (range_text * list quadruplet) :=
  match convert_app_range_parameters a_start a_end n_start n_end
                                     max_iterations_per_combo with
  | Py.Raise e =>
      if Py.is_value_or_type_error e
      then Py.Return (RangeErrorText "Error: Please enter valid integers", [])
      else Py.Raise e
  | Py.Return (a_start, a_end, n_start, n_end, max_iterations_per_combo) =>
      if (a_start <=? 0) || (a_end <=? 0) || (n_start <=? 0) || (n_end <=? 0)
      then Py.Return
             (RangeErrorText "Error: All values must be positive integers", [])
      else
        let '(a_start, a_end) :=
          if a_start >? a_end then (a_end, a_start) else (a_start, a_end) in
        let '(n_start, n_end) :=
          if n_start >? n_end then (n_end, n_start) else (n_start, n_end) in
        let total_combinations :=
          (a_end - a_start + 1) * (n_end - n_start + 1) in
        '(all_quadruplets, combinations_tested, combinations_with_solutions) <-
          for_each (Py.range a_start (a_end + 1))
            (fun acc a =>
               for_each (Py.range n_start (n_end + 1))
                 (combo_body max_iterations_per_combo total_combinations a)
                 acc)
            ([], 0, 0) ;;
        (* the success rate of the summary divides by combinations_tested *)
        if combinations_tested =? 0 then Py.Raise Py.ZeroDivisionError
        else Py.Return (RangeSummary combinations_tested
                                     combinations_with_solutions,
                        all_quadruplets)
  end.

(** The single-point search run over the grid, a ascending and n ascending
    within a, its lists concatenated. *)
Definition grid_of_searches (a_start a_end n_start n_end max_iterations : Z)
  : Py.result (list quadruplet) :=
  for_each (Py.range a_start (a_end + 1))
    (fun all a =>
       for_each (Py.range n_start (n_end + 1))
         (fun all n =>
            '(_, found) <-
              find_cube_quadruplets_improved cbrt_round
                (Py.Int a) (Py.Int n) (Py.Int max_iterations) ;;
            Py.Return (all ++ found))
         all)
    [].

End RangeSearchApp.

(** ** app-p.py: the results table and the data frame *)

(** A row of [update_results_table]:
    [i, a, b, c, d, d - a, common_factor, type, primitive_form].  The type
    is 'Primitive' or 'Scaled', kept as the test it prints; the primitive
    form is kept as the tuple its text shows. *)
Record table_row : Type := {
  row_no : Z;
  row_a : Z;
  row_b : Z;
  row_c : Z;
  row_d : Z;
  row_n : Z;
  row_factor : Z;
  row_is_primitive : bool;
  row_primitive_form : quadruplet
}.

(** The loop of [update_results_table], from the index [i] on. *)
Fixpoint table_rows (i : Z) (quadruplets : list quadruplet)
  : Py.result (list table_row) :=
  match quadruplets with
  | [] => Py.Return []
  | (a, b, c, d) :: quadruplets =>
      let common_factor := find_gcd_multiple a [b; c; d] in
      let is_primitive := common_factor =? 1 in
      primitive_form <-
        (if is_primitive then Py.Return (a, b, c, d)
         else
           '(prim_a, prim_b, prim_c, prim_d, _) <- get_primitive_form a b c d ;;
           Py.Return (prim_a, prim_b, prim_c, prim_d)) ;;
      table_data <- table_rows (i + 1) quadruplets ;;
      Py.Return ({| row_no := i; row_a := a; row_b := b; row_c := c; row_d := d;
                    row_n := d - a; row_factor := common_factor;
                    row_is_primitive := is_primitive;
                    row_primitive_form := primitive_form |} :: table_data)
  end.

Definition update_results_table (quadruplets : list quadruplet)
  : Py.result (list table_row) :=
  match quadruplets with
  | [] => Py.Return []
  | _ :: _ => table_rows 1 quadruplets
  end.

(** A row of the frame of [create_results_dataframe], column by column;
    'Valid' / 'Invalid' is kept as the test it prints. *)
Record frame_row : Type := {
  Solution_No : Z;
  col_a : Z;
  col_b : Z;
  col_c : Z;
  col_d : Z;
  col_n : Z;
  Common_Factor : Z;
  Type_is_primitive : bool;
  Primitive_Form : quadruplet;
  a_cubed : Z;
  b_cubed : Z;
  c_cubed : Z;
  d_cubed : Z;
  d_cubed_minus_a_cubed : Z;
  b_cubed_plus_c_cubed : Z;
  Equation_Check_valid : bool
}.

(** The loop of [create_results_dataframe], from the index [i] on. *)
Fixpoint frame_rows (i : Z) (quadruplets : list quadruplet)
  : Py.result (list frame_row) :=
  match quadruplets with
  | [] => Py.Return []
  | (a, b, c, d) :: quadruplets =>
      let common_factor := find_gcd_multiple a [b; c; d] in
      let is_primitive := common_factor =? 1 in
      primitive_form <-
        (if is_primitive then Py.Return (a, b, c, d)
         else
           '(prim_a, prim_b, prim_c, prim_d, _) <- get_primitive_form a b c d ;;
           Py.Return (prim_a, prim_b, prim_c, prim_d)) ;;
      let left_side := d ^ 3 - a ^ 3 in
      let right_side := b ^ 3 + c ^ 3 in
      data <- frame_rows (i + 1) quadruplets ;;
      Py.Return ({| Solution_No := i;
                    col_a := a; col_b := b; col_c := c; col_d := d;
                    col_n := d - a;
                    Common_Factor := common_factor;
                    Type_is_primitive := is_primitive;
                    Primitive_Form := primitive_form;
                    a_cubed := a ^ 3; b_cubed := b ^ 3;
                    c_cubed := c ^ 3; d_cubed := d ^ 3;
                    d_cubed_minus_a_cubed := left_side;
                    b_cubed_plus_c_cubed := right_side;
                    Equation_Check_valid := left_side =? right_side |} :: data)
  end.

(** The frame is the list of its rows; the empty frame is the empty
    list. *)
Definition create_results_dataframe (quadruplets : list quadruplet)
  : Py.result (list frame_row) :=
  match quadruplets with
  | [] => Py.Return []
  | _ :: _ => frame_rows 1 quadruplets
  end.

(** The columns of the frame that the table shows. *)
Definition table_of_frame (r : frame_row) : table_row :=
  {| row_no := r.(Solution_No);
     row_a := r.(col_a); row_b := r.(col_b);
     row_c := r.(col_c); row_d := r.(col_d);
     row_n := r.(col_n);
     row_factor := r.(Common_Factor);
     row_is_primitive := r.(Type_is_primitive);
     row_primitive_form := r.(Primitive_Form) |}.

(** What a row of the frame says of a valid quadruplet. *)
Definition row_describes (q : quadruplet) (r : frame_row) : Prop :=
  (r.(col_a), r.(col_b), r.(col_c), r.(col_d)) = q
  /\ 0 < r.(col_n)
  /\ r.(col_a) + r.(col_n) = r.(col_d)
  /\ 1 <= r.(Common_Factor)
  /\ r.(Type_is_primitive) = primitive q
  /\ scale r.(Common_Factor) r.(Primitive_Form) = q
  /\ primitive r.(Primitive_Form) = true
  /\ valid_quadruplet r.(Primitive_Form)
  /\ r.(Equation_Check_valid) = true.

(** ** The families dict *)

(** The greatest common divisor of a tuple, and the tuple divided by it:
    the common factor and the family key that
    [find_cube_quadruplets_with_factors] records for a quadruplet. *)
Definition common_factor_of (q : quadruplet) : Z :=
  let '(a, b, c, d) := q in find_gcd_multiple a [b; c; d].

Definition primitive_key (q : quadruplet) : quadruplet :=
  let '(a, b, c, d) := q in
  let g := find_gcd_multiple a [b; c; d] in
  (a / g, b / g, c / g, d / g).

(** The dict after recording the quadruplets of a list in turn. *)
Definition families_of (quads : list quadruplet)
  : list (quadruplet * list (quadruplet * Z)) :=
  fold_left
    (fun families q =>
       family_append (primitive_key q) (q, common_factor_of q) families)
    quads [].

(** * Properties *)

(** ** Ranges *)

Lemma in_range_down (start stop b : Z) :
  In b (Py.range_down start stop) <-> stop < b <= start.
Proof.
  unfold Py.range_down. rewrite in_map_iff. split.
  - intros (i & <- & Hi). apply in_seq in Hi. lia.
  - intros H. exists (Z.to_nat (start - b)). split; [lia|].
    apply in_seq. lia.
Qed.

Lemma in_range (start stop x : Z) :
  In x (Py.range start stop) <-> start <= x < stop.
Proof.
  unfold Py.range. rewrite in_map_iff. split.
  - intros (i & <- & Hi). apply in_seq in Hi. lia.
  - intros H. exists (Z.to_nat (x - start)). split; [lia|].
    apply in_seq. lia.
Qed.

Lemma range_down_length (start stop : Z) :
  Z.of_nat (List.length (Py.range_down start stop)) = Z.max 0 (start - stop).
Proof.
  unfold Py.range_down. rewrite List.length_map, List.length_seq. lia.
Qed.

Lemma range_down_nil (start stop : Z) :
  start <= stop -> Py.range_down start stop = [].
Proof.
  intros H. unfold Py.range_down.
  replace (Z.to_nat (start - stop)) with O by lia. reflexivity.
Qed.

Lemma range_down_cons (start stop : Z) :
  stop < start ->
  Py.range_down start stop = start :: Py.range_down (start - 1) stop.
Proof.
  intros H. unfold Py.range_down.
  replace (Z.to_nat (start - stop)) with (S (Z.to_nat (start - 1 - stop))) by lia.
  rewrite <- cons_seq, <- seq_shift, map_cons, map_map.
  f_equal; [simpl; lia|].
  apply map_ext. intros i. lia.
Qed.

(** [range(start, stop, -1)] read in two parts. *)
Lemma range_down_split (start mid stop : Z) :
  stop <= mid <= start ->
  Py.range_down start stop = Py.range_down start mid ++ Py.range_down mid stop.
Proof.
  intros H.
  remember (Z.to_nat (start - mid)) as k eqn:Hk.
  revert start H Hk. induction k as [|k IH]; intros start H Hk.
  - assert (start = mid) by lia. subst start.
    rewrite (range_down_nil mid mid) by lia. reflexivity.
  - rewrite (range_down_cons start stop) by lia.
    rewrite (range_down_cons start mid) by lia.
    simpl. f_equal. apply IH; lia.
Qed.

(** ** The tolerance comparison on integers *)

Lemma int_lt_float_abs (z : Z) :
  Py.int_lt_float (Z.abs z) Py.float_1e_10 = (z =? 0).
Proof.
  unfold Py.int_lt_float, Qle_bool, Py.float_1e_10, inject_Z. cbn [Qnum Qden].
  destruct (Z.eqb_spec z 0) as [->|Hz].
  - reflexivity.
  - apply negb_false_iff, Z.leb_le. lia.
Qed.

Lemma tolerance_cube (c needed : Z) :
  Py.int_lt_float (Z.abs (c ^ 3 - needed)) Py.float_1e_10 = (c ^ 3 =? needed).
Proof.
  rewrite int_lt_float_abs.
  destruct (Z.eqb_spec (c ^ 3) needed), (Z.eqb_spec (c ^ 3 - needed) 0);
    try reflexivity; lia.
Qed.

Lemma tolerance_equation (a b c d : Z) :
  Py.int_lt_float (Z.abs (a ^ 3 + b ^ 3 + c ^ 3 - d ^ 3)) Py.float_1e_10
  = (a ^ 3 + b ^ 3 + c ^ 3 =? d ^ 3).
Proof.
  rewrite int_lt_float_abs.
  destruct (Z.eqb_spec (a ^ 3 + b ^ 3 + c ^ 3) (d ^ 3)),
           (Z.eqb_spec (a ^ 3 + b ^ 3 + c ^ 3 - d ^ 3) 0);
    try reflexivity; lia.
Qed.

(** ** The loop of find_cube_quadruplets_improved *)

Section ImprovedLoop.

Variable cbrt_round : Z -> Z.
Variables a d max_iterations : Z.

(** One value of b within the budget and without overflow. *)
Lemma improved_loop_step (b : Z) (bs : list Z) (st : search_state) :
  st.(iterations) + 1 <= max_iterations ->
  d ^ 3 - a ^ 3 - b ^ 3 < Py.float_overflow_bound ->
  improved_loop cbrt_round a d (d ^ 3 - a ^ 3) max_iterations (b :: bs) st
  = improved_loop cbrt_round a d (d ^ 3 - a ^ 3) max_iterations bs
      {| quadruplets := st.(quadruplets) ++ candidate cbrt_round a d b;
         iterations := st.(iterations) + 1;
         stopped := st.(stopped) |}.
Proof.
  intros Hbudget Hfloat. cbn [improved_loop].
  destruct (Z.gtb_spec (iterations st + 1) max_iterations) as [?|_]; [lia|].
  unfold candidate, float_cbrt_round.
  set (needed := d ^ 3 - a ^ 3 - b ^ 3) in *.
  set (c := cbrt_round needed).
  destruct (Z.leb_spec Py.float_overflow_bound needed) as [?|_]; [lia|].
  rewrite tolerance_cube, tolerance_equation.
  destruct (Z.geb_spec b a), (Z.geb_spec b d), (Z.ltb_spec b a), (Z.ltb_spec b d);
    try lia; cbn [orb andb]; rewrite ?app_nil_r; try reflexivity.
  destruct (Z.leb_spec needed 0), (Z.ltb_spec 0 needed);
    try lia; cbn [orb andb]; rewrite ?app_nil_r; try reflexivity.
  destruct (Z.eqb_spec (c ^ 3) needed) as [Hc|Hc];
    cbn [orb andb]; rewrite ?app_nil_r; try reflexivity.
  destruct (Z.gtb_spec c 0), (Z.ltb_spec 0 c);
    try lia; cbn [orb andb]; rewrite ?app_nil_r; try reflexivity.
  destruct (Z.ltb_spec c b);
    cbn [orb andb]; rewrite ?app_nil_r; try reflexivity.
  destruct (Z.ltb_spec c a), (Z.ltb_spec c d),
           (Z.eqb_spec c a), (Z.eqb_spec c b), (Z.eqb_spec c d);
    try lia; cbn [orb andb negb].
  destruct (Z.eqb_spec (a ^ 3 + b ^ 3 + c ^ 3) (d ^ 3)) as [_|Hne];
    [reflexivity|].
  exfalso. apply Hne. subst needed. lia.
Qed.

(** The budget covers every value of b: the loop runs to its end. *)
Lemma improved_loop_run (bs : list Z) :
  forall st : search_state,
    st.(iterations) + Z.of_nat (List.length bs) <= max_iterations ->
    (forall b, In b bs -> d ^ 3 - a ^ 3 - b ^ 3 < Py.float_overflow_bound) ->
    improved_loop cbrt_round a d (d ^ 3 - a ^ 3) max_iterations bs st
    = Py.Return {| quadruplets := st.(quadruplets) ++ accepted cbrt_round a d bs;
                   iterations := st.(iterations) + Z.of_nat (List.length bs);
                   stopped := st.(stopped) |}.
Proof.
  induction bs as [|b bs IH]; intros st Hbudget Hfloat.
  - cbn. rewrite app_nil_r, Z.add_0_r. destruct st; reflexivity.
  - cbn [List.length] in Hbudget.
    rewrite improved_loop_step by (try apply Hfloat; cbn; auto; lia).
    rewrite IH; cbn [quadruplets iterations stopped].
    + cbn [accepted flat_map List.length]. rewrite <- app_assoc.
      do 2 f_equal. lia.
    + lia.
    + intros b' Hb'. apply Hfloat. now right.
Qed.


(** A value of b within the budget whose [needed] does not convert to a
    double: the conversion raises and nothing is returned. *)
Lemma improved_loop_overflow (target_sum b : Z) (bs : list Z) (st : search_state) :
  st.(iterations) + 1 <= max_iterations ->
  b < a -> b < d ->
  Py.float_overflow_bound <= target_sum - b ^ 3 ->
  improved_loop cbrt_round a d target_sum max_iterations (b :: bs) st
  = Py.Raise Py.OverflowError.
Proof.
  intros Hbudget Hba Hbd Hbig. cbn [improved_loop].
  destruct (Z.gtb_spec (iterations st + 1) max_iterations) as [?|_]; [lia|].
  destruct (Z.geb_spec b a), (Z.geb_spec b d); try lia. cbn [orb].
  assert (0 < Py.float_overflow_bound) by reflexivity.
  destruct (Z.leb_spec (target_sum - b ^ 3) 0); [lia|].
  unfold float_cbrt_round.
  destruct (Z.leb_spec Py.float_overflow_bound (target_sum - b ^ 3)); [|lia].
  reflexivity.
Qed.

(** Whatever the candidate generator answers, only quadruplets that pass
    the exact tests enter the list. *)
Lemma improved_loop_sound (P : quadruplet -> Prop) (target_sum : Z) :
  (forall b c, b < a -> 0 < c < b -> a ^ 3 + b ^ 3 + c ^ 3 = d ^ 3 ->
               P (a, b, c, d)) ->
  forall (bs : list Z) (st st' : search_state),
    improved_loop cbrt_round a d target_sum max_iterations bs st = Py.Return st' ->
    Forall P st.(quadruplets) -> Forall P st'.(quadruplets).
Proof.
  intros HP. induction bs as [|b bs IH]; intros st st' Hrun Hst.
  - cbn in Hrun. now inversion Hrun; subst.
  - cbn [improved_loop] in Hrun.
    destruct (iterations st + 1 >? max_iterations).
    { inversion Hrun; subst. exact Hst. }
    destruct ((b >=? a) || (b >=? d)) eqn:Hguard.
    { eapply IH; [exact Hrun|exact Hst]. }
    destruct (target_sum - b ^ 3 <=? 0).
    { eapply IH; [exact Hrun|exact Hst]. }
    unfold float_cbrt_round in Hrun.
    destruct (Py.float_overflow_bound <=? target_sum - b ^ 3); [discriminate|].
    rewrite tolerance_cube, tolerance_equation in Hrun.
    set (c := cbrt_round (target_sum - b ^ 3)) in *.
    destruct (c ^ 3 =? target_sum - b ^ 3);
      [|eapply IH; [exact Hrun|exact Hst]].
    destruct ((c >? 0) && (c <? b) && (c <? a) && (c <? d) && negb (c =? a)
              && negb (c =? b) && negb (c =? d)) eqn:Hc;
      [|eapply IH; [exact Hrun|exact Hst]].
    destruct (Z.eqb_spec (a ^ 3 + b ^ 3 + c ^ 3) (d ^ 3)) as [Heq|_];
      [|eapply IH; [exact Hrun|exact Hst]].
    eapply IH; [exact Hrun|]. cbn [quadruplets].
    apply Forall_app. split; [exact Hst|]. constructor; [|constructor].
    apply orb_false_iff in Hguard. destruct Hguard as [Hba _].
    repeat (apply andb_true_iff in Hc; destruct Hc as [Hc ?]).
    apply HP; [|split|exact Heq]; lia.
Qed.

End ImprovedLoop.

(** ** Greatest common divisors *)

Lemma find_gcd_multiple_four (a b c d : Z) :
  find_gcd_multiple a [b; c; d] = Z.gcd (Z.gcd (Z.gcd a b) c) d.
Proof. reflexivity. Qed.

Lemma find_gcd_multiple_nonneg (a b c d : Z) :
  0 <= find_gcd_multiple a [b; c; d].
Proof. rewrite find_gcd_multiple_four. apply Z.gcd_nonneg. Qed.

Lemma find_gcd_multiple_divides (a b c d : Z) :
  let g := find_gcd_multiple a [b; c; d] in
  (g | a) /\ (g | b) /\ (g | c) /\ (g | d).
Proof.
  cbv zeta. rewrite find_gcd_multiple_four.
  set (g2 := Z.gcd a b). set (g3 := Z.gcd g2 c). set (g := Z.gcd g3 d).
  assert (H3 : (g | g3)) by apply Z.gcd_divide_l.
  assert (H2 : (g | g2)).
  { eapply Z.divide_trans; [exact H3|apply Z.gcd_divide_l]. }
  repeat split.
  - eapply Z.divide_trans; [exact H2|apply Z.gcd_divide_l].
  - eapply Z.divide_trans; [exact H2|apply Z.gcd_divide_r].
  - eapply Z.divide_trans; [exact H3|apply Z.gcd_divide_r].
  - apply Z.gcd_divide_r.
Qed.

Lemma find_gcd_multiple_greatest (a b c d k : Z) :
  (k | a) -> (k | b) -> (k | c) -> (k | d) ->
  (k | find_gcd_multiple a [b; c; d]).
Proof.
  intros Ha Hb Hc Hd. rewrite find_gcd_multiple_four.
  repeat apply Z.gcd_greatest; assumption.
Qed.

Lemma find_gcd_multiple_zero (a b c d : Z) :
  find_gcd_multiple a [b; c; d] = 0 -> a = 0 /\ b = 0 /\ c = 0 /\ d = 0.
Proof.
  intros H. pose proof (find_gcd_multiple_divides a b c d) as Hdiv.
  cbv zeta in Hdiv. rewrite H in Hdiv.
  destruct Hdiv as (Ha & Hb & Hc & Hd).
  repeat split; now apply Z.divide_0_l.
Qed.

(** Outside the all-zero tuple the division goes through. *)
Lemma get_primitive_form_returns (a b c d : Z) :
  find_gcd_multiple a [b; c; d] <> 0 ->
  get_primitive_form a b c d
  = let g := find_gcd_multiple a [b; c; d] in
    Py.Return (a / g, b / g, c / g, d / g, g).
Proof.
  intros Hg. unfold get_primitive_form, floordiv.
  destruct (Z.eqb_spec (find_gcd_multiple a [b; c; d]) 0); [contradiction|].
  reflexivity.
Qed.

(** ** The loop of find_cube_quadruplets_with_factors *)

Section FactorsLoop.

Variable cbrt_round : Z -> Z.
Variables a d target_sum max_iterations : Z.
Variable include_factors : bool.

Lemma filter_primitive_snoc (quads : list quadruplet) (b c : Z) :
  filter primitive (quads ++ [(a, b, c, d)])
  = if find_gcd_multiple a [b; c; d] =? 1
    then filter primitive quads ++ [(a, b, c, d)]
    else filter primitive quads.
Proof.
  rewrite filter_app. cbn [filter primitive]. unfold is_primitive_solution.
  destruct (find_gcd_multiple a [b; c; d] =? 1); [reflexivity|apply app_nil_r].
Qed.

(** The loop is the loop of [find_cube_quadruplets_improved] with the
    factor analysis on the side: same quadruplets, same counter, same
    stop, same exceptions; and it keeps [primitives_recorded]. *)
Lemma factors_loop_view (bs : list Z) :
  forall st : factor_state,
    match factors_loop cbrt_round a d target_sum max_iterations
                       include_factors bs st with
    | Py.Return st' =>
        improved_loop cbrt_round a d target_sum max_iterations bs (search_view st)
        = Py.Return (search_view st')
        /\ (primitives_recorded include_factors st ->
            primitives_recorded include_factors st')
    | Py.Raise e =>
        improved_loop cbrt_round a d target_sum max_iterations bs (search_view st)
        = Py.Raise e
    end.
Proof.
  induction bs as [|b bs IH]; intros st.
  - cbn. split; [reflexivity|auto].
  - cbn [factors_loop improved_loop search_view quadruplets iterations stopped].
    destruct (f_iterations st + 1 >? max_iterations).
    { split; [reflexivity|]. unfold primitives_recorded. auto. }
    (* every path that goes on does so from a state [st1] *)
    assert (Hnext : forall st1 : factor_state,
               (primitives_recorded include_factors st ->
                primitives_recorded include_factors st1) ->
               match factors_loop cbrt_round a d target_sum max_iterations
                                  include_factors bs st1 with
               | Py.Return st' =>
                   improved_loop cbrt_round a d target_sum max_iterations bs
                                 (search_view st1)
                   = Py.Return (search_view st')
                   /\ (primitives_recorded include_factors st ->
                       primitives_recorded include_factors st')
               | Py.Raise e =>
                   improved_loop cbrt_round a d target_sum max_iterations bs
                                 (search_view st1)
                   = Py.Raise e
               end).
    { intros st1 Hinv. specialize (IH st1).
      destruct (factors_loop cbrt_round a d target_sum max_iterations
                             include_factors bs st1); [|exact IH].
      destruct IH as [IH1 IH2]. split; [exact IH1|auto]. }
    assert (Hsame : forall st1 : factor_state,
               f_primitive_solutions st1 = f_primitive_solutions st ->
               f_quadruplets st1 = f_quadruplets st ->
               primitives_recorded include_factors st ->
               primitives_recorded include_factors st1).
    { unfold primitives_recorded. intros st1 -> ->. auto. }
    destruct ((b >=? a) || (b >=? d)).
    { apply Hnext. now apply Hsame. }
    destruct (target_sum - b ^ 3 <=? 0).
    { apply Hnext. now apply Hsame. }
    unfold float_cbrt_round.
    destruct (Py.float_overflow_bound <=? target_sum - b ^ 3); [reflexivity|].
    set (c := cbrt_round (target_sum - b ^ 3)).
    destruct (Py.int_lt_float (Z.abs (c ^ 3 - (target_sum - b ^ 3)))
                              Py.float_1e_10);
      [|apply Hnext; now apply Hsame].
    destruct ((c >? 0) && (c <? b) && (c <? a) && (c <? d) && negb (c =? a)
              && negb (c =? b) && negb (c =? d)) eqn:Hc;
      [|apply Hnext; now apply Hsame].
    destruct (Py.int_lt_float (Z.abs (a ^ 3 + b ^ 3 + c ^ 3 - d ^ 3))
                              Py.float_1e_10);
      [|apply Hnext; now apply Hsame].
    assert (Hcpos : 0 < c).
    { repeat (apply andb_true_iff in Hc; destruct Hc as [Hc ?]). lia. }
    destruct include_factors eqn:Hincl.
    + destruct (find_gcd_multiple a [b; c; d] =? 1) eqn:Hprim.
      * apply (Hnext (Build_factor_state _ _ _ _ _)).
        unfold primitives_recorded. cbn [f_primitive_solutions f_quadruplets].
        intros ->. now rewrite filter_primitive_snoc, Hprim.
      * rewrite get_primitive_form_returns.
        2:{ intros H0. apply find_gcd_multiple_zero in H0. lia. }
        cbv zeta. apply (Hnext (Build_factor_state _ _ _ _ _)).
        unfold primitives_recorded. cbn [f_primitive_solutions f_quadruplets].
        intros ->. now rewrite filter_primitive_snoc, Hprim.
    + apply (Hnext (Build_factor_state _ _ _ _ _)).
      unfold primitives_recorded. cbn [f_primitive_solutions]. auto.
Qed.

End FactorsLoop.

(** ** Tuples and membership *)

Lemma quadruplet_eqb_eq (p q : quadruplet) :
  quadruplet_eqb p q = true <-> p = q.
Proof.
  destruct p as [[[a b] c] d], q as [[[a' b'] c'] d']. cbn.
  rewrite !andb_true_iff, !Z.eqb_eq. split.
  - intros [[[-> ->] ->] ->]. reflexivity.
  - intros H. inversion H. auto.
Qed.

Lemma quadruplet_in_spec (q : quadruplet) (quads : list quadruplet) :
  quadruplet_in q quads = true <-> In q quads.
Proof.
  unfold quadruplet_in. rewrite existsb_exists. split.
  - intros (x & Hx & Heq). apply quadruplet_eqb_eq in Heq. now subst.
  - intros H. exists q. split; [exact H|]. now apply quadruplet_eqb_eq.
Qed.

(** ** Loops as folds *)

Lemma fold_left_invariant {A B : Type} (f : A -> B -> A) (P : A -> Prop)
    (xs : list B) :
  (forall acc x, In x xs -> P acc -> P (f acc x)) ->
  forall acc, P acc -> P (fold_left f xs acc).
Proof.
  induction xs as [|x xs IH]; intros Hstep acc Hacc; cbn.
  - exact Hacc.
  - apply IH.
    + intros acc' x' Hx'. apply Hstep. now right.
    + apply Hstep; [now left|exact Hacc].
Qed.

(** ** The family generator of find_cube_quadruplets_with_factors *)

(** The test [new_d == new_a + factor * (prim_d - prim_a)] holds for every
    factor and every primitive. *)
Lemma family_bounds_check_always (factor prim_a prim_d : Z) :
  (factor * prim_d =? factor * prim_a + factor * (prim_d - prim_a)) = true.
Proof. apply Z.eqb_eq. ring. Qed.

Lemma scale_step_eq (primitive : quadruplet) (quads : list quadruplet)
    (count factor : Z) :
  scale_step primitive (quads, count) factor
  = if quadruplet_in (scale factor primitive) quads
    then (quads, count)
    else (quads ++ [scale factor primitive], count + 1).
Proof.
  destruct primitive as [[[pa pb] pc] pd]. unfold scale_step, scale.
  rewrite family_bounds_check_always.
  destruct (quadruplet_in _ quads); reflexivity.
Qed.

Section Families.

Variable max_factor : Z.

Lemma scale_step_keeps (primitive : quadruplet) (acc : list quadruplet * Z)
    (factor : Z) (q : quadruplet) :
  In q (fst acc) -> In q (fst (scale_step primitive acc factor)).
Proof.
  destruct acc as [quads count]. rewrite scale_step_eq.
  destruct (quadruplet_in _ quads); cbn; [auto|].
  intros H. apply in_or_app. now left.
Qed.

Lemma scale_step_adds (primitive : quadruplet) (acc : list quadruplet * Z)
    (factor : Z) :
  In (scale factor primitive) (fst (scale_step primitive acc factor)).
Proof.
  destruct acc as [quads count]. rewrite scale_step_eq.
  destruct (quadruplet_in _ quads) eqn:Hin; cbn.
  - now apply quadruplet_in_spec.
  - apply in_or_app. right. now left.
Qed.

Lemma scale_step_origin (primitive : quadruplet) (acc : list quadruplet * Z)
    (factor : Z) (q : quadruplet) :
  In q (fst (scale_step primitive acc factor)) ->
  In q (fst acc) \/ q = scale factor primitive.
Proof.
  destruct acc as [quads count]. rewrite scale_step_eq.
  destruct (quadruplet_in _ quads); cbn; [auto|].
  intros H. apply in_app_or in H. destruct H as [H|[H|[]]]; auto.
Qed.

(** What was in the list stays in it. *)
Lemma generate_factor_families_keeps (primitives quads : list quadruplet)
    (q : quadruplet) :
  In q quads ->
  In q (fst (generate_factor_families max_factor primitives quads)).
Proof.
  intros Hq. unfold generate_factor_families.
  apply (fold_left_invariant _ (fun acc => In q (fst acc))); [|exact Hq].
  intros acc p _ Hacc.
  apply (fold_left_invariant _ (fun acc => In q (fst acc))); [|exact Hacc].
  intros acc' f _. apply scale_step_keeps.
Qed.

(** Every member of the final list was there or is a primitive scaled by
    a factor of [range(2, max_factor + 1)]. *)
Lemma generate_factor_families_origin (primitives quads : list quadruplet)
    (q : quadruplet) :
  In q (fst (generate_factor_families max_factor primitives quads)) ->
  In q quads
  \/ exists p f, In p primitives /\ 2 <= f <= max_factor /\ q = scale f p.
Proof.
  unfold generate_factor_families.
  apply (fold_left_invariant _
           (fun acc => In q (fst acc) ->
              In q quads
              \/ exists p f, In p primitives /\ 2 <= f <= max_factor
                             /\ q = scale f p)); [|cbn; auto].
  intros acc p Hp Hacc.
  apply (fold_left_invariant _
           (fun acc => In q (fst acc) ->
              In q quads
              \/ exists p f, In p primitives /\ 2 <= f <= max_factor
                             /\ q = scale f p)); [|exact Hacc].
  intros acc' f Hf Hacc' Hq.
  apply scale_step_origin in Hq. destruct Hq as [Hq| ->]; [auto|].
  right. exists p, f. apply in_range in Hf. repeat split; auto; lia.
Qed.

(** Every primitive scaled by every factor is in the final list. *)
Lemma generate_factor_families_adds (primitives quads : list quadruplet)
    (p : quadruplet) (f : Z) :
  In p primitives -> 2 <= f <= max_factor ->
  In (scale f p) (fst (generate_factor_families max_factor primitives quads)).
Proof.
  intros Hp Hf. unfold generate_factor_families.
  apply in_split in Hp. destruct Hp as (before & after & ->).
  rewrite fold_left_app. cbn [fold_left].
  apply (fold_left_invariant _ (fun acc => In (scale f p) (fst acc))).
  { intros acc p' _ Hacc.
    apply (fold_left_invariant _ (fun acc => In (scale f p) (fst acc)));
      [|exact Hacc].
    intros acc' f' _. apply scale_step_keeps. }
  assert (Hfin : In f (Py.range 2 (max_factor + 1))) by (apply in_range; lia).
  apply in_split in Hfin. destruct Hfin as (fs1 & fs2 & ->).
  rewrite fold_left_app. cbn [fold_left].
  apply (fold_left_invariant _ (fun acc => In (scale f p) (fst acc))).
  { intros acc' f' _. apply scale_step_keeps. }
  apply scale_step_adds.
Qed.

(** Phase 2 of the range search: every member of the final list was
    there or is a scaled primitive. *)
Lemma range_phase2_origin (a_start a_end n_start n_end : Z)
    (primitives quads : list quadruplet) (q : quadruplet) :
  In q (range_phase2 a_start a_end n_start n_end max_factor primitives quads) ->
  In q quads
  \/ exists p f, In p primitives /\ 2 <= f <= max_factor /\ q = scale f p.
Proof.
  unfold range_phase2.
  apply (fold_left_invariant _
           (fun acc => In q acc ->
              In q quads
              \/ exists p f, In p primitives /\ 2 <= f <= max_factor
                             /\ q = scale f p)); [|auto].
  intros acc p Hp Hacc.
  apply (fold_left_invariant _
           (fun acc => In q acc ->
              In q quads
              \/ exists p f, In p primitives /\ 2 <= f <= max_factor
                             /\ q = scale f p)); [|exact Hacc].
  intros acc' f Hf Hacc' Hq. unfold range_scale_step in Hq.
  destruct (scale f p) as [[[sa sb] sc] sd] eqn:Hscale.
  destruct (_ && _) in Hq; [|auto].
  apply in_app_or in Hq. destruct Hq as [Hq|[<-|[]]]; [auto|].
  right. exists p, f. apply in_range in Hf. repeat split; auto; lia.
Qed.

End Families.

(** ** Scaling *)

Lemma scale_cube_equation (f : Z) (q : quadruplet) :
  cube_equation q -> cube_equation (scale f q).
Proof.
  destruct q as [[[a b] c] d]. unfold cube_equation, scale. intros H.
  rewrite !Z.pow_mul_l, <- !Z.mul_add_distr_l. now rewrite H.
Qed.

Lemma scale_valid (f : Z) (q : quadruplet) :
  0 < f -> valid_quadruplet q -> valid_quadruplet (scale f q).
Proof.
  intros Hf (Heq & Hord & Hdis). split; [now apply scale_cube_equation|].
  destruct q as [[[a b] c] d]. unfold ordered, pairwise_distinct, scale in *.
  split; nia.
Qed.

(** ** The entry points *)

Lemma stop_notice_shown_nonempty (q : quadruplet) (quads quads' : list quadruplet)
    (stopped : bool) :
  In q quads -> In q quads' ->
  stop_notice_shown quads stopped = stop_notice_shown quads' stopped.
Proof.
  destruct quads, quads'; intros H H'; try reflexivity; contradiction.
Qed.

Lemma stop_notice_shown_false (quads : list quadruplet) :
  stop_notice_shown quads false = false.
Proof. now destruct quads. Qed.

Lemma ordered_valid (a b c d : Z) :
  a < d -> b < a -> 0 < c < b -> a ^ 3 + b ^ 3 + c ^ 3 = d ^ 3 ->
  valid_quadruplet (a, b, c, d).
Proof.
  intros Had Hba Hc Heq. unfold valid_quadruplet, cube_equation, ordered,
    pairwise_distinct. repeat split; lia.
Qed.

Section EntryPoints.

Variable cbrt_round : Z -> Z.

(** Past the parameter checks, [find_cube_quadruplets_improved] is its
    loop from the empty state, with 10000 for a non-positive
    [max_iterations]. *)
Lemma find_cube_quadruplets_improved_eq (a n m : Z) :
  0 < a -> 0 < n ->
  find_cube_quadruplets_improved cbrt_round (Py.Int a) (Py.Int n) (Py.Int m)
  = (st <- improved_loop cbrt_round a (a + n) ((a + n) ^ 3 - a ^ 3)
             (if m >? 0 then m else 10000) (Py.range_down (a - 1) 0)
             {| quadruplets := []; iterations := 0; stopped := false |} ;;
     Py.Return (SearchText st.(iterations)
                           (stop_notice_shown st.(quadruplets) st.(stopped)),
                st.(quadruplets))).
Proof.
  intros Ha Hn. unfold find_cube_quadruplets_improved, convert_parameters,
    int_or_default. cbn [Py.int Py.gt0].
  destruct (m >? 0); cbn [Py.int];
    destruct (Z.leb_spec a 0), (Z.leb_spec n 0); try lia; reflexivity.
Qed.

(** [find_cube_quadruplets_with_factors] runs the same loop; with factor
    analysis on, the primitive quadruplets found are scaled by the
    factors of [range(2, max_factor + 1)] (5 for a non-positive
    [max_factor]) and appended. *)
Lemma find_cube_quadruplets_with_factors_eq (a n m mf : Z)
    (include_factors : bool) :
  0 < a -> 0 < n ->
  match improved_loop cbrt_round a (a + n) ((a + n) ^ 3 - a ^ 3)
          (if m >? 0 then m else 10000) (Py.range_down (a - 1) 0)
          {| quadruplets := []; iterations := 0; stopped := false |} with
  | Py.Raise e =>
      find_cube_quadruplets_with_factors cbrt_round (Py.Int a) (Py.Int n)
        (Py.Int m) include_factors (Py.Int mf) = Py.Raise e
  | Py.Return st =>
      exists families,
        find_cube_quadruplets_with_factors cbrt_round (Py.Int a) (Py.Int n)
          (Py.Int m) include_factors (Py.Int mf)
        = Py.Return
            (FactorText st.(iterations)
               (stop_notice_shown st.(quadruplets) st.(stopped))
               (if include_factors then filter primitive st.(quadruplets) else [])
               families,
             if include_factors
             then fst (generate_factor_families (if mf >? 0 then mf else 5)
                         (filter primitive st.(quadruplets)) st.(quadruplets))
             else st.(quadruplets))
  end.
Proof.
  intros Ha Hn.
  pose proof (factors_loop_view cbrt_round a (a + n) ((a + n) ^ 3 - a ^ 3)
                (if m >? 0 then m else 10000) include_factors
                (Py.range_down (a - 1) 0)
                {| f_quadruplets := []; f_primitive_solutions := [];
                   f_factor_families := []; f_iterations := 0;
                   f_stopped := false |}) as Hview.
  change (search_view
            {| f_quadruplets := []; f_primitive_solutions := [];
               f_factor_families := []; f_iterations := 0;
               f_stopped := false |})
    with {| quadruplets := []; iterations := 0; stopped := false |} in Hview.
  unfold find_cube_quadruplets_with_factors, convert_factor_parameters,
    convert_parameters, int_or_default. cbn [Py.int Py.gt0].
  assert (Hconv : (if m >? 0 then Py.Return m else Py.Return 10000)
                  = Py.Return (if m >? 0 then m else 10000))
    by (destruct (m >? 0); reflexivity).
  assert (Hconv' : (if mf >? 0 then Py.Return mf else Py.Return 5)
                   = Py.Return (if mf >? 0 then mf else 5))
    by (destruct (mf >? 0); reflexivity).
  rewrite Hconv, Hconv'.
  destruct (Z.leb_spec a 0), (Z.leb_spec n 0); try lia. cbn [orb].
  destruct (factors_loop _ _ _ _ _ _ _ _) as [st'|e].
  - destruct Hview as [Hloop Hinv]. rewrite Hloop. exists (f_factor_families st').
    cbn [search_view quadruplets iterations stopped].
    assert (Hprims : primitives_recorded include_factors st').
    { apply Hinv. unfold primitives_recorded. cbn.
      now destruct include_factors. }
    unfold primitives_recorded in Hprims. rewrite Hprims.
    destruct include_factors; [|reflexivity].
    destruct (filter primitive (f_quadruplets st')) as [|p prims] eqn:Hfilter;
      [reflexivity|].
    assert (Hp : In p (f_quadruplets st')).
    { apply (proj1 (filter_In primitive p (f_quadruplets st'))).
      rewrite Hfilter. now left. }
    now rewrite (stop_notice_shown_nonempty p _ (f_quadruplets st') _
                   (generate_factor_families_keeps _ _ _ _ Hp) Hp).
  - now rewrite Hview.
Qed.

(** Soundness of the loop from the empty state. *)
Lemma improved_loop_valid (a n m : Z) (bs : list Z) (st : search_state) :
  0 < n ->
  improved_loop cbrt_round a (a + n) ((a + n) ^ 3 - a ^ 3) m bs
    {| quadruplets := []; iterations := 0; stopped := false |} = Py.Return st ->
  Forall valid_quadruplet st.(quadruplets).
Proof.
  intros Hn Hrun.
  eapply improved_loop_sound; [|exact Hrun|constructor].
  intros b c Hba Hc Heq. apply ordered_valid; auto. lia.
Qed.

Lemma find_cube_quadruplets_improved_valid (a n : Z) (max_iterations : Py.value)
    (txt : text) (quads : list quadruplet) :
  0 < a -> 0 < n ->
  find_cube_quadruplets_improved cbrt_round (Py.Int a) (Py.Int n) max_iterations
  = Py.Return (txt, quads) ->
  Forall valid_quadruplet quads.
Proof.
  intros Ha Hn. destruct max_iterations as [m|].
  - rewrite find_cube_quadruplets_improved_eq by assumption.
    destruct (improved_loop _ _ _ _ _ _ _) as [st|e] eqn:Hrun; [|discriminate].
    intros H. inversion H; subst. eapply improved_loop_valid; eauto.
  - cbn. intros H. inversion H. constructor.
Qed.

Lemma find_cube_quadruplets_with_factors_valid (a n : Z)
    (max_iterations : Py.value) (include_factors : bool) (max_factor : Py.value)
    (txt : text) (quads : list quadruplet) :
  0 < a -> 0 < n ->
  find_cube_quadruplets_with_factors cbrt_round (Py.Int a) (Py.Int n)
    max_iterations include_factors max_factor = Py.Return (txt, quads) ->
  Forall valid_quadruplet quads.
Proof.
  intros Ha Hn. destruct max_iterations as [m|].
  2:{ cbn. intros H. inversion H. constructor. }
  destruct max_factor as [mf|].
  2:{ unfold find_cube_quadruplets_with_factors, convert_factor_parameters,
        convert_parameters, int_or_default. cbn [Py.int Py.gt0].
      destruct (m >? 0); cbn; intros H; inversion H; constructor. }
  pose proof (find_cube_quadruplets_with_factors_eq a n m mf include_factors
                Ha Hn) as Heq.
  destruct (improved_loop _ _ _ _ _ _ _) as [st|e] eqn:Hrun.
  2:{ rewrite Heq. discriminate. }
  destruct Heq as [families ->]. intros H. inversion H; subst. clear H.
  pose proof (improved_loop_valid _ _ _ _ _ Hn Hrun) as Hvalid.
  destruct include_factors; [|exact Hvalid].
  rewrite Forall_forall in *. intros q Hq.
  apply generate_factor_families_origin in Hq.
  destruct Hq as [Hq|(p & f & Hp & Hf & ->)]; [auto|].
  apply scale_valid; [lia|]. apply Hvalid.
  apply filter_In in Hp. tauto.
Qed.

End EntryPoints.

(** ** The brute-force search *)

Lemma in_find_cube_quadruplets (a n : Z) (q : quadruplet) :
  In q (find_cube_quadruplets a n)
  <-> exists b c, q = (a, b, c, a + n) /\ 0 < c < b /\ b < a
                  /\ b ^ 3 + c ^ 3 = (a + n) ^ 3 - a ^ 3.
Proof.
  unfold find_cube_quadruplets. rewrite in_flat_map. split.
  - intros (b & Hb & Hq). apply in_flat_map in Hq. destruct Hq as (c & Hc & Hq).
    apply in_range_down in Hb, Hc.
    destruct (Z.eqb_spec (b ^ 3 + c ^ 3) ((a + n) ^ 3 - a ^ 3)) as [Heq|]; [|easy].
    destruct Hq as [<-|[]]. exists b, c. repeat split; auto; lia.
  - intros (b & c & -> & Hc & Hb & Heq). exists b. split.
    + apply in_range_down. lia.
    + apply in_flat_map. exists c. split; [apply in_range_down; lia|].
      destruct (Z.eqb_spec (b ^ 3 + c ^ 3) ((a + n) ^ 3 - a ^ 3)); [now left|easy].
Qed.

(** ** Soundness of the single-point search *)

(** C1.  For positive a and n, every quadruplet (a', b', c', d') in the list
    returned by the brute-force search, by [find_cube_quadruplets_improved]
    or by [find_cube_quadruplets_with_factors] satisfies
    a'^3 + b'^3 + c'^3 = d'^3 in exact integer arithmetic, d' > a' > b' > c' > 0,
    and its four components are pairwise distinct.  This holds for every
    candidate generator, for every value of the other parameters, and for
    the scaled family members as well. *)
Theorem search_sound (cbrt_round : Z -> Z) (a n : Z) :
  0 < a -> 0 < n ->
  Forall valid_quadruplet (find_cube_quadruplets a n)
  /\ (forall max_iterations txt quads,
         find_cube_quadruplets_improved cbrt_round (Py.Int a) (Py.Int n)
           max_iterations = Py.Return (txt, quads) ->
         Forall valid_quadruplet quads)
  /\ (forall max_iterations include_factors max_factor txt quads,
         find_cube_quadruplets_with_factors cbrt_round (Py.Int a) (Py.Int n)
           max_iterations include_factors max_factor = Py.Return (txt, quads) ->
         Forall valid_quadruplet quads).
Proof.
  intros Ha Hn. split; [|split].
  - apply Forall_forall. intros q Hq. apply in_find_cube_quadruplets in Hq.
    destruct Hq as (b & c & -> & Hc & Hb & Heq).
    apply ordered_valid; lia.
  - intros mi txt quads. now apply find_cube_quadruplets_improved_valid.
  - intros mi incl mf txt quads.
    now apply find_cube_quadruplets_with_factors_valid.
Qed.

Lemma search_sound_witness :
  Forall valid_quadruplet [(5, 4, 3, 6)]
  /\ Forall valid_quadruplet [(5, 4, 3, 6); (10, 8, 6, 12); (15, 12, 9, 18)].
Proof.
  destruct (search_sound nearest_cbrt 5 1) as (Hbrute & _ & Hfactors); [lia|lia|].
  split.
  - exact Hbrute.
  - apply (Hfactors (Py.Int 1) true (Py.Int 3)
             (FactorText 2 true [(5, 4, 3, 6)]
                         [((5, 4, 3, 6), [((5, 4, 3, 6), 1)])])).
    vm_compute. reflexivity.
Defined.

(** ** The tolerance tests are exact tests *)

Section Acceptance.

Variable cbrt_round : Z -> Z.
Variables a d : Z.
Hypothesis a_lt_d : a < d.

(** The three nested tests of the source, past the guard on b, are the
    acceptance of the specification. *)
Lemma source_tests_exact {A : Type} (b c needed : Z) (yes no : A) :
  (b >=? a) || (b >=? d) = false ->
  (if Py.int_lt_float (Z.abs (c ^ 3 - needed)) Py.float_1e_10 then
     if (c >? 0) && (c <? b) && (c <? a) && (c <? d)
        && negb (c =? a) && negb (c =? b) && negb (c =? d) then
       if Py.int_lt_float (Z.abs (a ^ 3 + b ^ 3 + c ^ 3 - d ^ 3)) Py.float_1e_10
       then yes else no
     else no
   else no)
  = if exact_acceptance a b c d needed then yes else no.
Proof.
  intros Hguard. apply orb_false_iff in Hguard. destruct Hguard as [Hba Hbd].
  rewrite tolerance_cube, tolerance_equation. unfold exact_acceptance.
  destruct (c ^ 3 =? needed); [|reflexivity]. cbn [andb].
  destruct (Z.gtb_spec c 0), (Z.ltb_spec 0 c); try lia; cbn [andb];
    [|reflexivity].
  destruct (Z.ltb_spec c b); cbn [andb]; [|reflexivity].
  destruct (Z.ltb_spec b a), (Z.ltb_spec a d); try lia.
  destruct (Z.ltb_spec c a), (Z.ltb_spec c d); try lia.
  destruct (Z.eqb_spec c a), (Z.eqb_spec c b), (Z.eqb_spec c d); try lia.
  destruct (Z.eqb_spec a b), (Z.eqb_spec a c), (Z.eqb_spec a d); try lia.
  destruct (Z.eqb_spec b c), (Z.eqb_spec b d); try lia.
  cbn [andb negb]. reflexivity.
Qed.

(** For a candidate within the ordering, the acceptance of the
    specification is the exact test c^3 = needed alone. *)
Lemma exact_acceptance_ordered (b c : Z) :
  b < a -> 0 < c < b ->
  exact_acceptance a b c d (d ^ 3 - a ^ 3 - b ^ 3) = true
  <-> c ^ 3 = d ^ 3 - a ^ 3 - b ^ 3.
Proof.
  intros Hb Hc. unfold exact_acceptance. lia.
Qed.

Lemma improved_loop_exact (target max_iterations : Z) (bs : list Z) :
  forall st : search_state,
    improved_loop cbrt_round a d target max_iterations bs st
    = exact_search_loop cbrt_round a d target max_iterations bs st.
Proof.
  induction bs as [|b bs IH]; intros st; [reflexivity|].
  cbn [improved_loop exact_search_loop].
  destruct (iterations st + 1 >? max_iterations); [reflexivity|].
  destruct ((b >=? a) || (b >=? d)) eqn:Hguard; [apply IH|].
  destruct (target - b ^ 3 <=? 0); [apply IH|].
  destruct (float_cbrt_round cbrt_round (target - b ^ 3)) as [c|e];
    [|reflexivity].
  rewrite source_tests_exact by exact Hguard.
  destruct (exact_acceptance a b c d (target - b ^ 3)); apply IH.
Qed.

End Acceptance.

(** C2.  In the single-point search the tolerance comparison
    abs(c^3 - needed) < 1e-10 holds exactly when c^3 = needed, and
    abs(a^3 + b^3 + c^3 - d^3) < 1e-10 exactly when a^3 + b^3 + c^3 = d^3;
    and the loops of [find_cube_quadruplets_improved] and of
    [find_cube_quadruplets_with_factors], which use the tolerance
    comparisons, accept the same candidates as the specified loop, which
    uses exact integer equality: from the same state they reach the same
    quadruplets, counter and stop, or raise the same exception. *)
Theorem tolerance_is_exact_equality (cbrt_round : Z -> Z) (a d : Z) :
  a < d ->
  (forall c needed,
      Py.int_lt_float (Z.abs (c ^ 3 - needed)) Py.float_1e_10 = true
      <-> c ^ 3 = needed)
  /\ (forall b c,
         Py.int_lt_float (Z.abs (a ^ 3 + b ^ 3 + c ^ 3 - d ^ 3)) Py.float_1e_10
         = true
         <-> a ^ 3 + b ^ 3 + c ^ 3 = d ^ 3)
  /\ (forall b c,
         b < a -> 0 < c < b ->
         exact_acceptance a b c d (d ^ 3 - a ^ 3 - b ^ 3) = true
         <-> c ^ 3 = d ^ 3 - a ^ 3 - b ^ 3)
  /\ (forall target max_iterations bs st,
         improved_loop cbrt_round a d target max_iterations bs st
         = exact_search_loop cbrt_round a d target max_iterations bs st)
  /\ (forall target max_iterations include_factors bs st,
         result_map search_view
           (factors_loop cbrt_round a d target max_iterations include_factors bs st)
         = exact_search_loop cbrt_round a d target max_iterations bs
             (search_view st)).
Proof.
  intros Had. split; [|split; [|split; [|split]]].
  - intros c needed. rewrite tolerance_cube. apply Z.eqb_eq.
  - intros b c. rewrite tolerance_equation. apply Z.eqb_eq.
  - intros b c Hb Hc. now apply exact_acceptance_ordered.
  - intros. now apply improved_loop_exact.
  - intros target m incl bs st.
    rewrite <- improved_loop_exact by exact Had.
    pose proof (factors_loop_view cbrt_round a d target m incl bs st) as Hview.
    destruct (factors_loop _ _ _ _ _ _ _ _); cbn [result_map].
    + symmetry. apply Hview.
    + symmetry. exact Hview.
Qed.

Lemma tolerance_is_exact_equality_witness :
  improved_loop nearest_cbrt 5 6 91 10 [4; 3; 2; 1]
    {| quadruplets := []; iterations := 0; stopped := false |}
  = exact_search_loop nearest_cbrt 5 6 91 10 [4; 3; 2; 1]
      {| quadruplets := []; iterations := 0; stopped := false |}.
Proof.
  apply (tolerance_is_exact_equality nearest_cbrt 5 6). lia.
Defined.

(** ** Verification of a literal quadruplet *)

(** The claim C3 as stated fails: on (3, 4, 5, 6) the report does not have
    all four ordering checks true. *)
Lemma verify_3_4_5_6_not_all_ordered :
  ~ (exists alt_match all_satisfied,
        verify_equation_step_by_step (Py.Int 3) (Py.Int 4) (Py.Int 5) (Py.Int 6)
        = EquationSatisfied alt_match
            {| d_gt_a := true; a_gt_b := true; b_gt_c := true; c_gt_0 := true |}
            all_satisfied).
Proof. intros (alt & all & H). vm_compute in H. discriminate H. Qed.

(** C3, amended.  The verification applied to (a = 3, b = 4, c = 5, d = 6)
    reports the equation as satisfied (d^3 - a^3 = b^3 + c^3 = 189, and
    a^3 + b^3 + c^3 = d^3), the checks d > a and c > 0 as true, and the
    checks a > b and b > c as false (3 > 4, 4 > 5): not all constraints
    are satisfied. *)
Theorem verify_3_4_5_6 :
  verify_equation_step_by_step (Py.Int 3) (Py.Int 4) (Py.Int 5) (Py.Int 6)
  = EquationSatisfied true
      {| d_gt_a := true; a_gt_b := false; b_gt_c := false; c_gt_0 := true |}
      false.
Proof. reflexivity. Qed.

(** The same numbers in the order of the data model pass every check. *)
Lemma verify_5_4_3_6 :
  verify_equation_step_by_step (Py.Int 5) (Py.Int 4) (Py.Int 3) (Py.Int 6)
  = EquationSatisfied true
      {| d_gt_a := true; a_gt_b := true; b_gt_c := true; c_gt_0 := true |}
      true.
Proof. reflexivity. Qed.

(** ** Parameter checks *)

Section ParameterChecks.

Variable cbrt_round : Z -> Z.

Lemma improved_rejects (a n max_iterations : Py.value) :
  positive_integer a = false \/ positive_integer n = false
  \/ max_iterations = Py.None ->
  rejected (find_cube_quadruplets_improved cbrt_round a n max_iterations).
Proof.
  unfold rejected, find_cube_quadruplets_improved, convert_parameters,
    int_or_default.
  intros H. destruct a as [a|]; [|eexists; reflexivity].
  destruct n as [n|]; [|eexists; reflexivity].
  destruct max_iterations as [m|]; [|eexists; reflexivity].
  cbn [Py.int Py.gt0 positive_integer] in *.
  assert (Hor : (a <=? 0) || (n <=? 0) = true).
  { apply orb_true_iff. destruct H as [H|[H|H]]; [left|right|discriminate];
      apply Z.leb_le; apply Z.ltb_ge in H; exact H. }
  destruct (m >? 0); cbn [Py.int]; rewrite Hor; eexists; reflexivity.
Qed.

Lemma with_factors_rejects (a n max_iterations max_factor : Py.value)
    (include_factors : bool) :
  positive_integer a = false \/ positive_integer n = false
  \/ max_iterations = Py.None \/ max_factor = Py.None ->
  rejected (find_cube_quadruplets_with_factors cbrt_round a n max_iterations
              include_factors max_factor).
Proof.
  unfold rejected, find_cube_quadruplets_with_factors,
    convert_factor_parameters, convert_parameters, int_or_default.
  intros H. destruct a as [a|]; [|eexists; reflexivity].
  destruct n as [n|]; [|eexists; reflexivity].
  destruct max_iterations as [m|]; [|eexists; reflexivity].
  cbn [Py.int Py.gt0 positive_integer] in *.
  destruct max_factor as [mf|];
    [|destruct (m >? 0); eexists; reflexivity].
  assert (Hor : (a <=? 0) || (n <=? 0) = true).
  { apply orb_true_iff.
    destruct H as [H|[H|[H|H]]]; [left|right|discriminate|discriminate];
      apply Z.leb_le; apply Z.ltb_ge in H; exact H. }
  cbn [Py.gt0].
  destruct (m >? 0), (mf >? 0); cbn [Py.int]; rewrite Hor; eexists; reflexivity.
Qed.

(** A non-positive [max_iterations] is replaced by 10000, a non-positive
    [max_factor] by 5. *)
Lemma improved_default (a n : Py.value) (m : Z) :
  m <= 0 ->
  find_cube_quadruplets_improved cbrt_round a n (Py.Int m)
  = find_cube_quadruplets_improved cbrt_round a n (Py.Int 10000).
Proof.
  intros Hm. unfold find_cube_quadruplets_improved, convert_parameters,
    int_or_default. cbn [Py.gt0].
  destruct (Z.gtb_spec m 0); [lia|]. reflexivity.
Qed.

Lemma with_factors_default (a n max_factor : Py.value) (m : Z)
    (include_factors : bool) :
  m <= 0 ->
  find_cube_quadruplets_with_factors cbrt_round a n (Py.Int m)
    include_factors max_factor
  = find_cube_quadruplets_with_factors cbrt_round a n (Py.Int 10000)
      include_factors max_factor.
Proof.
  intros Hm. unfold find_cube_quadruplets_with_factors,
    convert_factor_parameters, convert_parameters, int_or_default.
  cbn [Py.gt0]. destruct (Z.gtb_spec m 0); [lia|]. reflexivity.
Qed.

(** Positive a and n with an integer [max_iterations] are searched,
    never rejected. *)
Lemma improved_not_rejected (a n m : Z) :
  0 < a -> 0 < n ->
  ~ rejected (find_cube_quadruplets_improved cbrt_round
                (Py.Int a) (Py.Int n) (Py.Int m)).
Proof.
  intros Ha Hn [message H].
  rewrite find_cube_quadruplets_improved_eq in H by assumption.
  destruct (improved_loop _ _ _ _ _ _ _); discriminate H.
Qed.

End ParameterChecks.

(** The claim C4 as stated fails: with a = 5, n = 1 and max_iterations = 0,
    which is not positive, the search is not rejected, whatever the
    candidate generator; it runs with the default budget, and with the
    reference generator it takes 4 iterations and finds (5, 4, 3, 6). *)
Lemma max_iterations_zero_not_rejected :
  (forall cbrt_round,
      ~ rejected (find_cube_quadruplets_improved cbrt_round
                    (Py.Int 5) (Py.Int 1) (Py.Int 0)))
  /\ find_cube_quadruplets_improved nearest_cbrt (Py.Int 5) (Py.Int 1) (Py.Int 0)
     = Py.Return (SearchText 4 false, [(5, 4, 3, 6)]).
Proof.
  split.
  - intros gen. apply improved_not_rejected; lia.
  - vm_compute. reflexivity.
Qed.

(** C4, amended.  For every input where a or n is not a positive integer,
    or where max_iterations is not an integer, the single-point search
    ([find_cube_quadruplets_improved], [find_cube_quadruplets_with_factors])
    returns an error message and an empty quadruplet list, without
    searching.  An integer max_iterations that is not positive is not
    rejected: the search runs as with max_iterations = 10000. *)
Theorem invalid_parameters_rejected (cbrt_round : Z -> Z)
    (a n max_iterations max_factor : Py.value) (include_factors : bool) :
  (positive_integer a = false \/ positive_integer n = false
   \/ max_iterations = Py.None ->
   rejected (find_cube_quadruplets_improved cbrt_round a n max_iterations)
   /\ rejected (find_cube_quadruplets_with_factors cbrt_round a n max_iterations
                  include_factors max_factor))
  /\ (forall m, max_iterations = Py.Int m -> m <= 0 ->
         find_cube_quadruplets_improved cbrt_round a n max_iterations
         = find_cube_quadruplets_improved cbrt_round a n (Py.Int 10000)
         /\ find_cube_quadruplets_with_factors cbrt_round a n max_iterations
              include_factors max_factor
            = find_cube_quadruplets_with_factors cbrt_round a n (Py.Int 10000)
                include_factors max_factor).
Proof.
  split.
  - intros H. split; [now apply improved_rejects|].
    apply with_factors_rejects. tauto.
  - intros m -> Hm. split; [now apply improved_default|].
    now apply with_factors_default.
Qed.

Lemma invalid_parameters_rejected_witness :
  rejected (find_cube_quadruplets_improved nearest_cbrt
              (Py.Int 0) (Py.Int 1) (Py.Int 20))
  /\ find_cube_quadruplets_improved nearest_cbrt (Py.Int 5) (Py.Int 1) (Py.Int 0)
     = find_cube_quadruplets_improved nearest_cbrt (Py.Int 5) (Py.Int 1)
         (Py.Int 10000).
Proof.
  split.
  - apply (proj1 (invalid_parameters_rejected nearest_cbrt (Py.Int 0) (Py.Int 1)
                    (Py.Int 20) (Py.Int 5) true)).
    left. reflexivity.
  - apply (proj2 (invalid_parameters_rejected nearest_cbrt (Py.Int 5) (Py.Int 1)
                    (Py.Int 0) (Py.Int 5) true) 0); [reflexivity|lia].
Defined.

(** ** The iteration cap *)

Section IterationCap.

Variable cbrt_round : Z -> Z.


End IterationCap.



(** ** The test point a = 6, n = 3 *)

Section TestPoint.

Variable cbrt_round : Z -> Z.

(** No value of b below 6 has a candidate: 9^3 - 6^3 - b^3 is 388, 449,
    486, 505, 512 for b = 5, ..., 1, and none is the cube of a positive
    integer below b. *)
Lemma no_candidate_6_9 (b : Z) :
  1 <= b <= 5 -> candidate cbrt_round 6 9 b = [].
Proof.
  intros Hb. unfold candidate.
  set (c := cbrt_round (9 ^ 3 - 6 ^ 3 - b ^ 3)).
  destruct (Z.eqb_spec (c ^ 3) (9 ^ 3 - 6 ^ 3 - b ^ 3)) as [Hcube|_];
    [|now rewrite !andb_false_r, ?andb_false_l].
  destruct (Z.ltb_spec 0 c) as [Hc0|_];
    [|now rewrite !andb_false_r, ?andb_false_l].
  destruct (Z.ltb_spec c b) as [Hcb|_]; [|now rewrite !andb_false_r].
  exfalso.
  assert (Hbs : b = 1 \/ b = 2 \/ b = 3 \/ b = 4 \/ b = 5) by lia.
  assert (Hcs : c = 1 \/ c = 2 \/ c = 3 \/ c = 4) by lia.
  clearbody c.
  destruct Hbs as [->|[->|[->|[->| ->]]]];
    destruct Hcs as [->|[->|[->| ->]]]; discriminate Hcube.
Qed.

Lemma accepted_6_9 : accepted cbrt_round 6 9 (Py.range_down 5 0) = [].
Proof.
  change (Py.range_down 5 0) with [5; 4; 3; 2; 1]. unfold accepted.
  cbn [flat_map]. rewrite !no_candidate_6_9 by lia. reflexivity.
Qed.

Lemma improved_loop_6_3 (m : Z) :
  5 <= m ->
  improved_loop cbrt_round 6 9 (9 ^ 3 - 6 ^ 3) m (Py.range_down 5 0)
    {| quadruplets := []; iterations := 0; stopped := false |}
  = Py.Return {| quadruplets := []; iterations := 5; stopped := false |}.
Proof.
  intros Hm. rewrite improved_loop_run.
  - rewrite accepted_6_9. reflexivity.
  - rewrite range_down_length. cbn [iterations]. lia.
  - intros b Hb. apply in_range_down in Hb.
    assert (0 <= b ^ 3) by (apply Z.pow_nonneg; lia).
    assert (513 < Py.float_overflow_bound) by reflexivity.
    change (9 ^ 3 - 6 ^ 3) with 513. lia.
Qed.

Lemma find_cube_quadruplets_improved_6_3 :
  find_cube_quadruplets_improved cbrt_round (Py.Int 6) (Py.Int 3) (Py.Int 20000)
  = Py.Return (SearchText 5 false, []).
Proof.
  rewrite find_cube_quadruplets_improved_eq by lia.
  change (6 + 3) with 9. change (6 - 1) with 5.
  change (20000 >? 0) with true. cbv iota.
  rewrite improved_loop_6_3 by lia. reflexivity.
Qed.

Lemma find_cube_quadruplets_with_factors_6_3 (include_factors : bool) (mf : Z) :
  exists families,
    find_cube_quadruplets_with_factors cbrt_round (Py.Int 6) (Py.Int 3)
      (Py.Int 20000) include_factors (Py.Int mf)
    = Py.Return (FactorText 5 false [] families, []).
Proof.
  assert (H6 : 0 < 6) by lia. assert (H3 : 0 < 3) by lia.
  pose proof (find_cube_quadruplets_with_factors_eq cbrt_round 6 3 20000 mf
                include_factors H6 H3) as Heq.
  change (6 + 3) with 9 in Heq. change (6 - 1) with 5 in Heq.
  change (20000 >? 0) with true in Heq. cbv iota in Heq.
  rewrite improved_loop_6_3 in Heq by lia.
  destruct Heq as [families Heq]. exists families. rewrite Heq.
  cbn [quadruplets iterations stopped filter].
  destruct include_factors; reflexivity.
Qed.

End TestPoint.


(** The claim C6 as stated fails: with a = 6, n = 3 and
    max_iterations = 20000 no candidate generator makes either search
    return a quadruplet, and the brute-force search finds none. *)
Lemma test_point_6_3_finds_nothing :
  ~ (exists cbrt_round txt quads,
        find_cube_quadruplets_improved cbrt_round
          (Py.Int 6) (Py.Int 3) (Py.Int 20000) = Py.Return (txt, quads)
        /\ quads <> [])
  /\ ~ (exists cbrt_round include_factors mf txt quads,
           find_cube_quadruplets_with_factors cbrt_round
             (Py.Int 6) (Py.Int 3) (Py.Int 20000) include_factors (Py.Int mf)
           = Py.Return (txt, quads)
           /\ quads <> [])
  /\ find_cube_quadruplets 6 3 = [].
Proof.
  split; [|split].
  - intros (gen & txt & quads & Hrun & Hne).
    rewrite find_cube_quadruplets_improved_6_3 in Hrun.
    inversion Hrun; subst. now apply Hne.
  - intros (gen & incl & mf & txt & quads & Hrun & Hne).
    destruct (find_cube_quadruplets_with_factors_6_3 gen incl mf) as [fams Heq].
    rewrite Heq in Hrun. inversion Hrun; subst. now apply Hne.
  - reflexivity.
Qed.

(** C6, amended.  The single-point search invoked with a = 6, n = 3 and
    max_iterations = 20000 examines b = 5, ..., 1 in 5 iterations, does not
    hit the cap, and returns an empty quadruplet list: no b and c with
    6 > b > c > 0 satisfy b^3 + c^3 = 9^3 - 6^3 = 513. *)
Theorem test_point_6_3 (cbrt_round : Z -> Z) (include_factors : bool) (mf : Z) :
  find_cube_quadruplets_improved cbrt_round (Py.Int 6) (Py.Int 3) (Py.Int 20000)
  = Py.Return (SearchText 5 false, [])
  /\ (exists families,
         find_cube_quadruplets_with_factors cbrt_round (Py.Int 6) (Py.Int 3)
           (Py.Int 20000) include_factors (Py.Int mf)
         = Py.Return (FactorText 5 false [] families, []))
  /\ (forall b c, 6 > b -> b > c -> c > 0 -> b ^ 3 + c ^ 3 <> 9 ^ 3 - 6 ^ 3).
Proof.
  split; [apply find_cube_quadruplets_improved_6_3|].
  split; [apply find_cube_quadruplets_with_factors_6_3|].
  intros b c Hb Hbc Hc Heq.
  assert (Hbs : b = 2 \/ b = 3 \/ b = 4 \/ b = 5) by lia.
  assert (Hcs : c = 1 \/ c = 2 \/ c = 3 \/ c = 4) by lia.
  destruct Hbs as [->|[->|[->| ->]]];
    destruct Hcs as [->|[->|[->| ->]]]; discriminate Heq.
Qed.

(** ** Completeness *)

Section Completeness.

Variable cbrt_round : Z -> Z.

(** Where the generator rounds to the true cube root, the solution is
    the candidate of its b. *)
Lemma candidate_of_solution (a d b c : Z) :
  cbrt_round (c ^ 3) = c ->
  0 < c < b -> b < a -> a < d ->
  b ^ 3 + c ^ 3 = d ^ 3 - a ^ 3 ->
  candidate cbrt_round a d b = [(a, b, c, d)].
Proof.
  intros Hround Hc Hb Hd Heq. unfold candidate.
  replace (d ^ 3 - a ^ 3 - b ^ 3) with (c ^ 3) by lia.
  rewrite Hround, Z.eqb_refl.
  assert (0 < c ^ 3) by (apply Z.pow_pos_nonneg; lia).
  destruct (Z.ltb_spec b a), (Z.ltb_spec b d), (Z.ltb_spec 0 (c ^ 3)),
           (Z.ltb_spec 0 c), (Z.ltb_spec c b); try lia.
  reflexivity.
Qed.


End Completeness.




(** ** Primitive form *)

(** C8.  For positive a, b, c, d, [get_primitive_form] returns
    (a', b', c', d', g) where g is the greatest common divisor of a, b, c
    and d; multiplying a', b', c', d' by g gives back a, b, c, d; the
    greatest common divisor of a', b', c', d' is 1; and g >= 1. *)
Theorem primitive_form_round_trip (a b c d : Z) :
  0 < a -> 0 < b -> 0 < c -> 0 < d ->
  exists a' b' c' d' g,
    get_primitive_form a b c d = Py.Return (a', b', c', d', g)
    /\ g = find_gcd_multiple a [b; c; d]
    /\ ((g | a) /\ (g | b) /\ (g | c) /\ (g | d))
    /\ (forall k, (k | a) -> (k | b) -> (k | c) -> (k | d) -> (k | g))
    /\ scale g (a', b', c', d') = (a, b, c, d)
    /\ find_gcd_multiple a' [b'; c'; d'] = 1
    /\ g >= 1.
Proof.
  intros Ha Hb Hc Hd.
  set (g := find_gcd_multiple a [b; c; d]).
  assert (Hg0 : g <> 0).
  { intros H0. apply find_gcd_multiple_zero in H0. lia. }
  assert (Hgpos : 0 < g).
  { pose proof (find_gcd_multiple_nonneg a b c d). fold g in H. lia. }
  destruct (find_gcd_multiple_divides a b c d) as (Hga & Hgb & Hgc & Hgd).
  fold g in Hga, Hgb, Hgc, Hgd.
  assert (Hexact : forall x, (g | x) -> g * (x / g) = x).
  { intros x [k ->]. rewrite Z.div_mul by exact Hg0. ring. }
  exists (a / g), (b / g), (c / g), (d / g), g.
  split; [now apply get_primitive_form_returns|].
  split; [reflexivity|].
  split; [auto|].
  split; [intros k; apply find_gcd_multiple_greatest|].
  split; [unfold scale; now rewrite !Hexact|].
  split; [|lia].
  set (h := find_gcd_multiple (a / g) [b / g; c / g; d / g]).
  destruct (find_gcd_multiple_divides (a / g) (b / g) (c / g) (d / g))
    as (Hha & Hhb & Hhc & Hhd).
  fold h in Hha, Hhb, Hhc, Hhd.
  assert (Hlift : forall x, (g | x) -> (h | x / g) -> (g * h | x)).
  { intros x Hgx Hhx. rewrite <- (Hexact x Hgx) at 1.
    now apply Z.mul_divide_mono_l. }
  assert (Hgh : (g * h | g)).
  { apply find_gcd_multiple_greatest; auto. }
  assert (Hh1 : (h | 1)).
  { apply (Z.mul_divide_cancel_l h 1 g Hg0). now rewrite Z.mul_1_r. }
  apply Z.divide_1_r_nonneg; [apply find_gcd_multiple_nonneg|exact Hh1].
Qed.

Lemma primitive_form_round_trip_witness :
  exists a' b' c' d' g,
    get_primitive_form 10 8 6 12 = Py.Return (a', b', c', d', g)
    /\ g = find_gcd_multiple 10 [8; 6; 12]
    /\ ((g | 10) /\ (g | 8) /\ (g | 6) /\ (g | 12))
    /\ (forall k, (k | 10) -> (k | 8) -> (k | 6) -> (k | 12) -> (k | g))
    /\ scale g (a', b', c', d') = (10, 8, 6, 12)
    /\ find_gcd_multiple a' [b'; c'; d'] = 1
    /\ g >= 1.
Proof.
  apply (primitive_form_round_trip 10 8 6 12); lia.
Defined.

(** ** Homogeneity *)

Lemma generate_factor_families_preserves (P : quadruplet -> Prop)
    (max_factor : Z) (primitives quads : list quadruplet) :
  (forall f q, 2 <= f -> P q -> P (scale f q)) ->
  Forall P primitives -> Forall P quads ->
  Forall P (fst (generate_factor_families max_factor primitives quads)).
Proof.
  intros Hscale Hprims Hquads. rewrite Forall_forall in *.
  intros q Hq. apply generate_factor_families_origin in Hq.
  destruct Hq as [Hq|(p & f & Hp & Hf & ->)]; [auto|].
  apply Hscale; [lia|auto].
Qed.

Lemma range_phase2_preserves (P : quadruplet -> Prop)
    (a_start a_end n_start n_end max_factor : Z)
    (primitives quads : list quadruplet) :
  (forall f q, 2 <= f -> P q -> P (scale f q)) ->
  Forall P primitives -> Forall P quads ->
  Forall P (range_phase2 a_start a_end n_start n_end max_factor primitives quads).
Proof.
  intros Hscale Hprims Hquads. rewrite Forall_forall in *.
  intros q Hq. apply range_phase2_origin in Hq.
  destruct Hq as [Hq|(p & f & Hp & Hf & ->)]; [auto|].
  apply Hscale; [lia|auto].
Qed.

Lemma scale_valid_from_2 (f : Z) (q : quadruplet) :
  2 <= f -> valid_quadruplet q -> valid_quadruplet (scale f q).
Proof. intros Hf. apply scale_valid. lia. Qed.

(** C9.  If a^3 + b^3 + c^3 = d^3 then, for every positive integer f,
    (f*a)^3 + (f*b)^3 + (f*c)^3 = (f*d)^3.  Hence the family members are
    valid without being verified again: if the primitives and the
    quadruplets already collected satisfy the equation (are valid
    quadruplets), so does every member of the list after the family loop of
    [find_cube_quadruplets_with_factors] and after phase 2 of
    [find_cube_quadruplets_range_with_factors], for every [max_factor] and
    every search window. *)
Theorem scaling_law :
  (forall a b c d f,
      a ^ 3 + b ^ 3 + c ^ 3 = d ^ 3 -> 0 < f ->
      (f * a) ^ 3 + (f * b) ^ 3 + (f * c) ^ 3 = (f * d) ^ 3
      /\ cube_equation (scale f (a, b, c, d)))
  /\ (forall max_factor primitives quads,
         Forall cube_equation primitives -> Forall cube_equation quads ->
         Forall cube_equation
           (fst (generate_factor_families max_factor primitives quads)))
  /\ (forall max_factor primitives quads,
         Forall valid_quadruplet primitives -> Forall valid_quadruplet quads ->
         Forall valid_quadruplet
           (fst (generate_factor_families max_factor primitives quads)))
  /\ (forall a_start a_end n_start n_end max_factor primitives quads,
         Forall cube_equation primitives -> Forall cube_equation quads ->
         Forall cube_equation
           (range_phase2 a_start a_end n_start n_end max_factor primitives quads))
  /\ (forall a_start a_end n_start n_end max_factor primitives quads,
         Forall valid_quadruplet primitives -> Forall valid_quadruplet quads ->
         Forall valid_quadruplet
           (range_phase2 a_start a_end n_start n_end max_factor primitives quads)).
Proof.
  split; [|split; [|split; [|split]]].
  - intros a b c d f Heq _.
    pose proof (scale_cube_equation f (a, b, c, d) Heq) as H. now split.
  - intros mf prims quads. apply generate_factor_families_preserves.
    intros f q _. apply scale_cube_equation.
  - intros mf prims quads. apply generate_factor_families_preserves.
    exact scale_valid_from_2.
  - intros a0 a1 n0 n1 mf prims quads. apply range_phase2_preserves.
    intros f q _. apply scale_cube_equation.
  - intros a0 a1 n0 n1 mf prims quads. apply range_phase2_preserves.
    exact scale_valid_from_2.
Qed.

Lemma scaling_law_witness :
  (2 * 5) ^ 3 + (2 * 4) ^ 3 + (2 * 3) ^ 3 = (2 * 6) ^ 3
  /\ Forall cube_equation
       (fst (generate_factor_families 3 [(5, 4, 3, 6)] [(5, 4, 3, 6)])).
Proof.
  split.
  - apply (proj1 scaling_law 5 4 3 6 2); [reflexivity|lia].
  - apply (proj1 (proj2 scaling_law) 3 [(5, 4, 3, 6)] [(5, 4, 3, 6)]);
      repeat constructor.
Defined.

(** ** The factor search is not anchored *)

(** C10.  [find_cube_quadruplets_with_factors] is not anchored to its
    input.  With a = 5, n = 1, factor analysis on, a budget of at least 4
    and max_factor >= 2, and a candidate generator that rounds the cube
    root of 27 to 3, it returns (10, 8, 6, 12), whose first component is
    not 5 and whose d - a is not 1.  The check that guards the scaled
    members, new_d == new_a + factor * (prim_d - prim_a), holds for all
    values: it filters nothing. *)
Theorem with_factors_not_anchored (cbrt_round : Z -> Z) (m mf : Z) :
  cbrt_round 27 = 3 -> 4 <= m -> 2 <= mf ->
  (exists txt quads,
      find_cube_quadruplets_with_factors cbrt_round (Py.Int 5) (Py.Int 1)
        (Py.Int m) true (Py.Int mf) = Py.Return (txt, quads)
      /\ In (10, 8, 6, 12) quads
      /\ 10 <> 5 /\ 12 - 10 <> 1)
  /\ (forall factor prim_a prim_d,
         (factor * prim_d =? factor * prim_a + factor * (prim_d - prim_a))
         = true).
Proof.
  intros Hround Hm Hmf. split; [|apply family_bounds_check_always].
  assert (H5 : 0 < 5) by lia. assert (H1 : 0 < 1) by lia.
  pose proof (find_cube_quadruplets_with_factors_eq cbrt_round 5 1 m mf true
                H5 H1) as Heq.
  destruct (Z.gtb_spec m 0); [|lia]. destruct (Z.gtb_spec mf 0); [|lia].
  rewrite improved_loop_run in Heq.
  - destruct Heq as [families Heq]. rewrite Heq.
    eexists. eexists. split; [reflexivity|]. split; [|lia].
    cbn [quadruplets app].
    change (10, 8, 6, 12) with (scale 2 (5, 4, 3, 6)).
    apply generate_factor_families_adds; [|lia].
    apply filter_In. split; [|reflexivity].
    apply in_flat_map. exists 4. split; [apply in_range_down; lia|].
    rewrite (candidate_of_solution cbrt_round 5 (5 + 1) 4 3);
      [now left|exact Hround|lia|lia|lia|reflexivity].
  - rewrite range_down_length. cbn [iterations]. lia.
  - intros b Hb. apply in_range_down in Hb.
    assert (0 < b ^ 3) by (apply Z.pow_pos_nonneg; lia).
    assert (Hbound : 91 < Py.float_overflow_bound) by reflexivity.
    change ((5 + 1) ^ 3 - 5 ^ 3) with 91. lia.
Qed.

Lemma with_factors_not_anchored_witness :
  exists txt quads,
    find_cube_quadruplets_with_factors nearest_cbrt (Py.Int 5) (Py.Int 1)
      (Py.Int 10000) true (Py.Int 2) = Py.Return (txt, quads)
    /\ In (10, 8, 6, 12) quads
    /\ 10 <> 5 /\ 12 - 10 <> 1.
Proof.
  apply (with_factors_not_anchored nearest_cbrt 10000 2); [reflexivity|lia|lia].
Defined.

(** ** The range search *)

Lemma for_each_invariant {A S : Type} (P : S -> Prop) (xs : list A)
    (body : S -> A -> Py.result S) :
  (forall s x s', In x xs -> P s -> body s x = Py.Return s' -> P s') ->
  forall s s', P s -> for_each xs body s = Py.Return s' -> P s'.
Proof.
  induction xs as [|x xs IH]; intros Hbody s s' Hs Hrun; cbn in Hrun.
  - now inversion Hrun; subst.
  - destruct (body s x) as [s1|e] eqn:Hstep; [|discriminate].
    apply (IH (fun s x s' H => Hbody s x s' (or_intror H)) s1 s'); [|exact Hrun].
    apply (Hbody s x s1); [now left|exact Hs|exact Hstep].
Qed.

Lemma collect_primitive_valid (found : list quadruplet)
    (acc : list quadruplet * list quadruplet) :
  Forall valid_quadruplet found ->
  Forall valid_quadruplet (fst acc) /\ Forall valid_quadruplet (snd acc) ->
  Forall valid_quadruplet (fst (fold_left collect_primitive found acc))
  /\ Forall valid_quadruplet (snd (fold_left collect_primitive found acc)).
Proof.
  intros Hfound. rewrite Forall_forall in Hfound.
  apply (fold_left_invariant collect_primitive
           (fun acc => Forall valid_quadruplet (fst acc)
                       /\ Forall valid_quadruplet (snd acc))).
  intros [all prims] [[[a b] c] d] Hin [Hall Hprims]. cbn [fst snd] in *.
  unfold collect_primitive.
  destruct (is_primitive_solution a b c d && _); cbn [fst snd]; [|auto].
  split; apply Forall_app; (split; [assumption|]);
    constructor; auto.
Qed.

(** X14.  Every quadruplet [find_cube_quadruplets_range_with_factors]
    returns is a valid quadruplet (equation, ordering, distinctness), in
    both modes and for every candidate generator. *)
Lemma range_search_sound (cbrt_round : Z -> Z)
    (a_start a_end n_start n_end max_iterations_per_combo : Py.value)
    (focus_on_primitives : bool) (max_factor : Py.value)
    (txt : text) (quads : list quadruplet) :
  find_cube_quadruplets_range_with_factors cbrt_round a_start a_end n_start n_end
    max_iterations_per_combo focus_on_primitives max_factor
  = Py.Return (txt, quads) ->
  Forall valid_quadruplet quads.
Proof.
  unfold find_cube_quadruplets_range_with_factors.
  destruct (convert_range_parameters _ _ _ _ _ _)
    as [[[[[[a0 a1] n0] n1] mi] mf]|e].
  2:{ destruct (Py.is_value_or_type_error e); [|discriminate].
      intros H. inversion H. constructor. }
  destruct (Z.leb_spec a0 0), (Z.leb_spec a1 0), (Z.leb_spec n0 0),
           (Z.leb_spec n1 0); cbn [orb];
    try (intros Hret; inversion Hret; constructor).
  set (ar := if a0 >? a1 then (a1, a0) else (a0, a1)).
  set (nr := if n0 >? n1 then (n1, n0) else (n0, n1)).
  assert (Har : 0 < fst ar) by (subst ar; destruct (a0 >? a1); cbn; lia).
  assert (Hnr : 0 < fst nr) by (subst nr; destruct (n0 >? n1); cbn; lia).
  destruct ar as [a_lo a_hi], nr as [n_lo n_hi]. cbn [fst] in Har, Hnr.
  destruct focus_on_primitives.
  - destruct (range_phase1 _ _ _ _ _ _) as [[all prims]|e] eqn:Hphase1;
      [|discriminate].
    intros Hret. inversion Hret; subst. clear Hret.
    set (P := fun acc : list quadruplet * list quadruplet =>
                Forall valid_quadruplet (fst acc)
                /\ Forall valid_quadruplet (snd acc)).
    assert (Hvalid : P (all, prims)).
    { unfold range_phase1 in Hphase1.
      refine (for_each_invariant P _ _ _ _ _ _ Hphase1);
        [|split; constructor].
      intros acc a acc' Ha Hacc Hinner. apply in_range in Ha.
      refine (for_each_invariant P _ _ _ _ _ Hacc Hinner).
      intros acc1 n acc2 Hn Hacc1 Hbody. apply in_range in Hn.
      destruct (find_cube_quadruplets_with_factors _ _ _ _ _ _)
        as [[txt' found]|e] eqn:Hsearch; [|discriminate].
      inversion Hbody; subst.
      apply collect_primitive_valid; [|exact Hacc1].
      eapply find_cube_quadruplets_with_factors_valid;
        [| |exact Hsearch]; lia. }
    destruct Hvalid as [Hall Hprims]. cbn [fst snd] in Hall, Hprims.
    apply range_phase2_preserves; auto. exact scale_valid_from_2.
  - destruct (range_standard _ _ _ _ _ _ _) as [all|e] eqn:Hstandard;
      [|discriminate].
    intros Hret. inversion Hret; subst. clear Hret.
    unfold range_standard in Hstandard.
    refine (for_each_invariant (Forall valid_quadruplet) _ _ _ _ _ _ Hstandard);
      [|constructor].
    intros acc a acc' Ha Hacc Hinner. apply in_range in Ha.
    refine (for_each_invariant (Forall valid_quadruplet) _ _ _ _ _ Hacc Hinner).
    intros acc1 n acc2 Hn Hacc1 Hbody. apply in_range in Hn.
    destruct (find_cube_quadruplets_with_factors _ _ _ _ _ _)
      as [[txt' found]|e] eqn:Hsearch; [|discriminate].
    inversion Hbody; subst.
    apply Forall_app. split; [exact Hacc1|].
    eapply find_cube_quadruplets_with_factors_valid;
      [| |exact Hsearch]; lia.
Qed.

(** * Further properties of the code *)

(** ** What a returning loop has done *)

Lemma range_down_sorted (start stop : Z) :
  StronglySorted (fun x y => x > y) (Py.range_down start stop).
Proof.
  remember (Z.to_nat (start - stop)) as k eqn:Hk.
  revert start Hk. induction k as [|k IH]; intros start Hk.
  - rewrite range_down_nil by lia. constructor.
  - rewrite range_down_cons by lia. constructor.
    + apply IH. lia.
    + apply Forall_forall. intros x Hx. apply in_range_down in Hx. lia.
Qed.

Lemma in_firstn {A : Type} (k : nat) (xs : list A) (x : A) :
  In x (firstn k xs) -> In x xs.
Proof.
  intros H. rewrite <- (firstn_skipn k xs). apply in_or_app. now left.
Qed.

Lemma firstn_sorted {A : Type} (R : A -> A -> Prop) (k : nat) (xs : list A) :
  StronglySorted R xs -> StronglySorted R (firstn k xs).
Proof.
  intros Hs. revert k. induction Hs as [|x xs Hs IH Hall]; intros [|k]; cbn;
    try constructor.
  - apply IH.
  - rewrite Forall_forall in *. intros y Hy. apply Hall.
    now apply (in_firstn k).
Qed.

Section LoopOutcome.

Variable cbrt_round : Z -> Z.
Variables a d max_iterations : Z.

(** A candidate, when there is one, is (a, b, c, d) with c the exact cube
    root of d^3 - a^3 - b^3 and 0 < c < b < a, b < d. *)
Lemma candidate_shape (b : Z) (q : quadruplet) :
  In q (candidate cbrt_round a d b) ->
  exists c, q = (a, b, c, d) /\ b < a /\ b < d /\ 0 < c < b
            /\ c ^ 3 = d ^ 3 - a ^ 3 - b ^ 3.
Proof.
  unfold candidate.
  set (c := cbrt_round (d ^ 3 - a ^ 3 - b ^ 3)).
  destruct (_ && _) eqn:Htest; [|intros []].
  intros [<-|[]]. exists c.
  repeat (apply andb_true_iff in Htest; destruct Htest as [Htest ?]).
  repeat split; lia.
Qed.

Lemma candidate_component_b (b : Z) (q : quadruplet) :
  In q (candidate cbrt_round a d b) -> component_b q = b.
Proof.
  intros Hq. apply candidate_shape in Hq. destruct Hq as (c & -> & _).
  reflexivity.
Qed.

Lemma in_accepted (bs : list Z) (q : quadruplet) :
  In q (accepted cbrt_round a d bs) ->
  exists b c, In b bs /\ q = (a, b, c, d) /\ b < a /\ b < d /\ 0 < c < b
              /\ c ^ 3 = d ^ 3 - a ^ 3 - b ^ 3.
Proof.
  unfold accepted. rewrite in_flat_map. intros (b & Hb & Hq).
  apply candidate_shape in Hq. destruct Hq as (c & H).
  exists b, c. tauto.
Qed.

Lemma accepted_descending (bs : list Z) :
  StronglySorted (fun x y => x > y) bs ->
  descending_b (accepted cbrt_round a d bs).
Proof.
  unfold descending_b.
  induction 1 as [|b bs Hs IH Hall]; [constructor|].
  cbn [accepted flat_map]. fold (accepted cbrt_round a d bs).
  assert (Hbelow : Forall (fun q => b > component_b q)
                          (accepted cbrt_round a d bs)).
  { rewrite Forall_forall in *. intros q Hq.
    apply in_accepted in Hq. destruct Hq as (b' & c & Hb' & -> & _).
    cbn. now apply Hall. }
  pose proof (candidate_component_b b) as Hcomp.
  destruct (candidate cbrt_round a d b) as [|q [|q' rest]] eqn:Hcand.
  - exact IH.
  - cbn. constructor; [exact IH|].
    rewrite (Hcomp q) by now left. exact Hbelow.
  - exfalso. unfold candidate in Hcand.
    destruct (_ && _); discriminate Hcand.
Qed.

(** A value of b that the guards skip. *)
Lemma improved_loop_skip (b : Z) (bs : list Z) (st : search_state) :
  st.(iterations) + 1 <= max_iterations ->
  b >= a \/ b >= d \/ d ^ 3 - a ^ 3 - b ^ 3 <= 0 ->
  improved_loop cbrt_round a d (d ^ 3 - a ^ 3) max_iterations (b :: bs) st
  = improved_loop cbrt_round a d (d ^ 3 - a ^ 3) max_iterations bs
      {| quadruplets := st.(quadruplets);
         iterations := st.(iterations) + 1;
         stopped := st.(stopped) |}
  /\ candidate cbrt_round a d b = [].
Proof.
  intros Hbudget Hskip. split.
  - cbn [improved_loop].
    destruct (Z.gtb_spec (iterations st + 1) max_iterations) as [?|_]; [lia|].
    destruct (Z.geb_spec b a), (Z.geb_spec b d); cbn [orb]; try reflexivity.
    destruct (Z.leb_spec (d ^ 3 - a ^ 3 - b ^ 3) 0); [reflexivity|lia].
  - unfold candidate.
    destruct (Z.ltb_spec b a), (Z.ltb_spec b d),
             (Z.ltb_spec 0 (d ^ 3 - a ^ 3 - b ^ 3)); cbn [andb];
      try reflexivity; lia.
Qed.

(** If the loop returns, it has examined a prefix of the values of b and
    appended their candidates; it either ran to the end within the budget
    or broke when the counter passed the budget. *)
Lemma improved_loop_returns (bs : list Z) :
  forall st st' : search_state,
    st.(iterations) <= max_iterations ->
    improved_loop cbrt_round a d (d ^ 3 - a ^ 3) max_iterations bs st
    = Py.Return st' ->
    exists k : nat,
      st'.(quadruplets)
      = st.(quadruplets) ++ accepted cbrt_round a d (firstn k bs)
      /\ ((k = List.length bs
           /\ st'.(iterations) = st.(iterations) + Z.of_nat (List.length bs)
           /\ st'.(iterations) <= max_iterations
           /\ st'.(stopped) = st.(stopped))
          \/ ((k < List.length bs)%nat
              /\ st.(iterations) + Z.of_nat k = max_iterations
              /\ st'.(iterations) = max_iterations + 1
              /\ st'.(stopped) = true)).
Proof.
  induction bs as [|b bs IH]; intros st st' Hst Hrun.
  - cbn in Hrun. inversion Hrun; subst. exists O. cbn.
    rewrite app_nil_r. split; [reflexivity|]. left. repeat split; lia.
  - destruct (Z.gtb_spec (iterations st + 1) max_iterations) as [Hcap|Hroom].
    + cbn [improved_loop] in Hrun.
      destruct (Z.gtb_spec (iterations st + 1) max_iterations); [|lia].
      inversion Hrun; subst. exists O. cbn [firstn accepted flat_map].
      rewrite app_nil_r. cbn [quadruplets iterations stopped List.length].
      split; [reflexivity|]. right. repeat split; lia.
    + assert (Hnext : improved_loop cbrt_round a d (d ^ 3 - a ^ 3)
                        max_iterations bs
                        {| quadruplets :=
                             st.(quadruplets) ++ candidate cbrt_round a d b;
                           iterations := st.(iterations) + 1;
                           stopped := st.(stopped) |} = Py.Return st').
      { destruct (Z_lt_le_dec b a) as [Hba|Hba];
          [|destruct (improved_loop_skip b bs st Hroom) as [Heq Hnil];
            [lia|rewrite Hnil, app_nil_r, <- Heq; exact Hrun]].
        destruct (Z_lt_le_dec b d) as [Hbd|Hbd];
          [|destruct (improved_loop_skip b bs st Hroom) as [Heq Hnil];
            [lia|rewrite Hnil, app_nil_r, <- Heq; exact Hrun]].
        destruct (Z_lt_le_dec (d ^ 3 - a ^ 3 - b ^ 3) Py.float_overflow_bound)
          as [Hfloat|Hfloat].
        - rewrite <- improved_loop_step by assumption. exact Hrun.
        - rewrite improved_loop_overflow in Hrun by assumption.
          discriminate Hrun. }
      apply IH in Hnext; [|cbn [iterations]; lia].
      destruct Hnext as (k & Hquads & Hcase).
      cbn [quadruplets iterations stopped] in Hquads, Hcase.
      exists (S k). cbn [firstn accepted flat_map List.length].
      fold (accepted cbrt_round a d (firstn k bs)).
      split; [rewrite Hquads; now rewrite <- app_assoc|].
      destruct Hcase as [(Hk & Hit & Hle & Hstop)|(Hk & Hit & Hit' & Hstop)].
      * left. repeat split; try assumption; lia.
      * right. repeat split; try assumption; lia.
Qed.

End LoopOutcome.

(** ** The result of find_cube_quadruplets_improved *)

Lemma descending_b_nodup (quads : list quadruplet) :
  descending_b quads -> NoDup quads.
Proof.
  unfold descending_b. induction 1 as [|q quads Hs IH Hall]; constructor.
  - intros Hin. rewrite Forall_forall in Hall. specialize (Hall q Hin). lia.
  - exact IH.
Qed.

Section ImprovedOutcome.

Variable cbrt_round : Z -> Z.

(** A returning search has examined a prefix of b = a - 1, ..., 1. *)
Lemma find_cube_quadruplets_improved_returns (a n m : Z) (txt : text)
    (quads : list quadruplet) :
  0 < a -> 0 < n ->
  find_cube_quadruplets_improved cbrt_round (Py.Int a) (Py.Int n) (Py.Int m)
  = Py.Return (txt, quads) ->
  let budget := if m >? 0 then m else 10000 in
  exists k : nat,
    quads = accepted cbrt_round a (a + n) (firstn k (Py.range_down (a - 1) 0))
    /\ ((Z.of_nat k = a - 1 /\ a - 1 <= budget
         /\ txt = SearchText (a - 1) false)
        \/ (Z.of_nat k = budget /\ budget < a - 1
            /\ txt = SearchText (budget + 1) (stop_notice_shown quads true))).
Proof.
  intros Ha Hn Hrun budget.
  rewrite find_cube_quadruplets_improved_eq in Hrun by assumption.
  fold budget in Hrun.
  assert (Hbudget : 0 < budget).
  { subst budget. destruct (Z.gtb_spec m 0); lia. }
  destruct (improved_loop _ _ _ _ _ _ _) as [st|e] eqn:Hloop; [|discriminate].
  inversion Hrun; subst txt quads. clear Hrun.
  apply improved_loop_returns in Hloop; [|cbn; lia].
  destruct Hloop as (k & Hquads & Hcase). cbn [quadruplets iterations stopped] in *.
  pose proof (range_down_length (a - 1) 0) as Hlen.
  exists k. split; [exact Hquads|].
  destruct Hcase as [(Hk & Hit & Hle & Hstop)|(Hk & Hit & Hit' & Hstop)].
  - left. rewrite Hit, Hstop, stop_notice_shown_false. subst k.
    replace (0 + Z.of_nat (List.length (Py.range_down (a - 1) 0))) with (a - 1)
      in * by lia.
    repeat split; lia.
  - right. rewrite Hit', Hstop. repeat split; lia.
Qed.

Lemma find_cube_quadruplets_improved_shape (a n : Z) (max_iterations : Py.value)
    (txt : text) (quads : list quadruplet) :
  0 < a -> 0 < n ->
  find_cube_quadruplets_improved cbrt_round (Py.Int a) (Py.Int n) max_iterations
  = Py.Return (txt, quads) ->
  (forall q, In q quads ->
             exists b c, q = (a, b, c, a + n) /\ 0 < c < b /\ b < a
                         /\ b ^ 3 + c ^ 3 = (a + n) ^ 3 - a ^ 3)
  /\ descending_b quads.
Proof.
  intros Ha Hn Hrun. destruct max_iterations as [m|].
  2:{ cbn in Hrun. inversion Hrun; subst. split; [intros q []|constructor]. }
  apply find_cube_quadruplets_improved_returns in Hrun; try assumption.
  destruct Hrun as (k & -> & _). split.
  - intros q Hq. apply in_accepted in Hq.
    destruct Hq as (b & c & _ & -> & Hba & _ & Hc & Hcube).
    exists b, c. repeat split; lia.
  - apply accepted_descending, firstn_sorted, range_down_sorted.
Qed.

End ImprovedOutcome.

(** X1.  Every quadruplet [find_cube_quadruplets_improved] returns for
    positive a and n is anchored at its input, (a, b, c, a + n), and the
    list is in strictly descending b; hence it has no duplicates. *)
Theorem improved_anchored_descending (cbrt_round : Z -> Z) (a n : Z)
    (max_iterations : Py.value) (txt : text) (quads : list quadruplet) :
  0 < a -> 0 < n ->
  find_cube_quadruplets_improved cbrt_round (Py.Int a) (Py.Int n) max_iterations
  = Py.Return (txt, quads) ->
  Forall (anchored a n) quads /\ descending_b quads /\ NoDup quads.
Proof.
  intros Ha Hn Hrun.
  destruct (find_cube_quadruplets_improved_shape _ _ _ _ _ _ Ha Hn Hrun)
    as [Hshape Hdesc].
  split; [|split; [exact Hdesc|now apply descending_b_nodup]].
  apply Forall_forall. intros q Hq.
  destruct (Hshape q Hq) as (b & c & -> & _). now split.
Qed.

Lemma improved_anchored_descending_witness :
  Forall (anchored 37 9) [(37, 36, 3, 46); (37, 30, 27, 46)]
  /\ descending_b [(37, 36, 3, 46); (37, 30, 27, 46)]
  /\ NoDup [(37, 36, 3, 46); (37, 30, 27, 46)].
Proof.
  apply (improved_anchored_descending nearest_cbrt 37 9 (Py.Int 100)
           (SearchText 36 false)); [lia|lia|].
  vm_compute. reflexivity.
Defined.

(** X2.  When [find_cube_quadruplets_improved] returns for positive a and n
    and an integer max_iterations, its counter is min(a - 1, budget + 1),
    where budget is max_iterations, or 10000 when max_iterations is not
    positive; and the returned text holds the stop notice exactly when
    budget < a - 1 and the returned list is not empty: with an empty list
    the search details, where the notice was written, are left out. *)
Theorem improved_counter (cbrt_round : Z -> Z) (a n m : Z) (txt : text)
    (quads : list quadruplet) :
  0 < a -> 0 < n ->
  find_cube_quadruplets_improved cbrt_round (Py.Int a) (Py.Int n) (Py.Int m)
  = Py.Return (txt, quads) ->
  let budget := if m >? 0 then m else 10000 in
  txt = SearchText (Z.min (a - 1) (budget + 1))
          (match quads with [] => false | _ :: _ => budget <? a - 1 end).
Proof.
  intros Ha Hn Hrun budget.
  apply find_cube_quadruplets_improved_returns in Hrun; try assumption.
  fold budget in Hrun.
  destruct Hrun as (k & _ & [(_ & Hle & ->)|(_ & Hlt & ->)]).
  - destruct (Z.ltb_spec budget (a - 1)); [lia|].
    rewrite Z.min_l by lia. now destruct quads.
  - destruct (Z.ltb_spec budget (a - 1)); [|lia].
    rewrite Z.min_r by lia. reflexivity.
Qed.

Lemma improved_counter_witness :
  SearchText 4 true = SearchText (Z.min (37 - 1) (3 + 1)) (3 <? 37 - 1)
  /\ SearchText 3 false = SearchText (Z.min (6 - 1) (2 + 1)) false.
Proof.
  split; [|apply (improved_counter nearest_cbrt 6 3 2 (SearchText 3 false) []);
           [lia|lia|vm_compute; reflexivity]].
  apply (improved_counter nearest_cbrt 37 9 3 (SearchText 4 true)
           [(37, 36, 3, 46)]); [lia|lia|].
  vm_compute. reflexivity.
Defined.

(** X3.  Every quadruplet [find_cube_quadruplets_improved] returns is also
    returned by the brute-force [find_cube_quadruplets] for the same a and
    n. *)
Theorem improved_within_brute_force (cbrt_round : Z -> Z) (a n : Z)
    (max_iterations : Py.value) (txt : text) (quads : list quadruplet) :
  0 < a -> 0 < n ->
  find_cube_quadruplets_improved cbrt_round (Py.Int a) (Py.Int n) max_iterations
  = Py.Return (txt, quads) ->
  incl quads (find_cube_quadruplets a n).
Proof.
  intros Ha Hn Hrun q Hq.
  destruct (find_cube_quadruplets_improved_shape _ _ _ _ _ _ Ha Hn Hrun)
    as [Hshape _].
  apply in_find_cube_quadruplets. destruct (Hshape q Hq) as (b & c & H).
  exists b, c. tauto.
Qed.

Lemma improved_within_brute_force_witness :
  incl [(37, 36, 3, 46); (37, 30, 27, 46)] (find_cube_quadruplets 37 9).
Proof.
  apply (improved_within_brute_force nearest_cbrt 37 9 (Py.Int 100)
           (SearchText 36 false)); [lia|lia|].
  vm_compute. reflexivity.
Defined.

(** ** The improved search against the brute-force search *)

Lemma flat_map_nil {A B : Type} (f : A -> list B) (xs : list A) :
  (forall x, In x xs -> f x = []) -> flat_map f xs = [].
Proof.
  induction xs as [|x xs IH]; intros H; [reflexivity|].
  cbn. rewrite (H x) by now left. apply IH. intros y Hy. apply H. now right.
Qed.

Lemma flat_map_ext_in {A B : Type} (f g : A -> list B) (xs : list A) :
  (forall x, In x xs -> f x = g x) -> flat_map f xs = flat_map g xs.
Proof.
  induction xs as [|x xs IH]; intros H; [reflexivity|].
  cbn. rewrite (H x) by now left. f_equal. apply IH.
  intros y Hy. apply H. now right.
Qed.

Lemma cube_lt (x y : Z) : 0 <= x < y -> x ^ 3 < y ^ 3.
Proof. intros H. apply Z.pow_lt_mono_l; lia. Qed.

Section BruteForce.

Variable cbrt_round : Z -> Z.
Variables a n : Z.
Hypothesis n_positive : 0 < n.
Hypothesis exact_on_cubes : forall k, 0 < k < a -> cbrt_round (k ^ 3) = k.

(** The inner loop of the brute-force search, for one value of b, finds
    what the candidate generator proposes for that b. *)
Lemma brute_force_inner (b : Z) :
  b < a ->
  flat_map
    (fun c => if b ^ 3 + c ^ 3 =? (a + n) ^ 3 - a ^ 3
              then [(a, b, c, a + n)] else [])
    (Py.range_down (b - 1) 0)
  = candidate cbrt_round a (a + n) b.
Proof.
  intros Hb.
  set (needed := (a + n) ^ 3 - a ^ 3 - b ^ 3).
  set (c := cbrt_round needed).
  destruct (Z.eq_dec (c ^ 3) needed) as [Hcube|Hcube];
    [destruct (Z_lt_le_dec 0 c) as [Hc0|Hc0];
     [destruct (Z_lt_le_dec c b) as [Hcb|Hcb]|]|].
  - (* the generator's answer is the cube root: the loop meets it once *)
    assert (Hcand : candidate cbrt_round a (a + n) b = [(a, b, c, a + n)]).
    { unfold candidate. fold needed. fold c.
      assert (0 < c ^ 3) by (apply Z.pow_pos_nonneg; lia).
      destruct (Z.ltb_spec b a), (Z.ltb_spec b (a + n)), (Z.ltb_spec 0 needed),
               (Z.eqb_spec (c ^ 3) needed), (Z.ltb_spec 0 c), (Z.ltb_spec c b);
        try lia. reflexivity. }
    rewrite Hcand.
    rewrite (range_down_split (b - 1) c 0) by lia.
    rewrite (range_down_cons c 0) by lia.
    rewrite flat_map_app. cbn [flat_map].
    rewrite !flat_map_nil.
    + destruct (Z.eqb_spec (b ^ 3 + c ^ 3) ((a + n) ^ 3 - a ^ 3));
        [reflexivity|]. subst needed. lia.
    + intros x Hx. apply in_range_down in Hx.
      assert (x ^ 3 < c ^ 3) by (apply cube_lt; lia).
      destruct (Z.eqb_spec (b ^ 3 + x ^ 3) ((a + n) ^ 3 - a ^ 3));
        [|reflexivity]. subst needed. lia.
    + intros x Hx. apply in_range_down in Hx.
      assert (c ^ 3 < x ^ 3) by (apply cube_lt; lia).
      destruct (Z.eqb_spec (b ^ 3 + x ^ 3) ((a + n) ^ 3 - a ^ 3));
        [|reflexivity]. subst needed. lia.
  - (* every c of the loop is a cube root the generator would have found *)
    assert (Hcand : candidate cbrt_round a (a + n) b = []).
    { unfold candidate. fold needed. fold c.
      destruct (Z.ltb_spec c b); [lia|]. now rewrite andb_false_r. }
    rewrite Hcand. apply flat_map_nil. intros x Hx. apply in_range_down in Hx.
    destruct (Z.eqb_spec (b ^ 3 + x ^ 3) ((a + n) ^ 3 - a ^ 3)) as [Heq|];
      [|reflexivity].
    exfalso. assert (Hx3 : x ^ 3 = needed) by (subst needed; lia).
    assert (Hgen : c = x).
    { subst c. rewrite <- Hx3. apply exact_on_cubes. lia. }
    lia.
  - assert (Hcand : candidate cbrt_round a (a + n) b = []).
    { unfold candidate. fold needed. fold c.
      destruct (Z.ltb_spec 0 c); [lia|]. now rewrite andb_false_r, andb_false_l. }
    rewrite Hcand. apply flat_map_nil. intros x Hx. apply in_range_down in Hx.
    destruct (Z.eqb_spec (b ^ 3 + x ^ 3) ((a + n) ^ 3 - a ^ 3)) as [Heq|];
      [|reflexivity].
    exfalso. assert (Hx3 : x ^ 3 = needed) by (subst needed; lia).
    assert (Hgen : c = x).
    { subst c. rewrite <- Hx3. apply exact_on_cubes. lia. }
    lia.
  - assert (Hcand : candidate cbrt_round a (a + n) b = []).
    { unfold candidate. fold needed. fold c.
      destruct (Z.eqb_spec (c ^ 3) needed); [contradiction|].
      now rewrite andb_false_r, !andb_false_l. }
    rewrite Hcand. apply flat_map_nil. intros x Hx. apply in_range_down in Hx.
    destruct (Z.eqb_spec (b ^ 3 + x ^ 3) ((a + n) ^ 3 - a ^ 3)) as [Heq|];
      [|reflexivity].
    exfalso. assert (Hx3 : x ^ 3 = needed) by (subst needed; lia).
    assert (Hgen : c = x).
    { subst c. rewrite <- Hx3. apply exact_on_cubes. lia. }
    apply Hcube. rewrite Hgen. exact Hx3.
Qed.

(** b = 1 leaves no room for c. *)
Lemma candidate_at_one (d : Z) : candidate cbrt_round a d 1 = [].
Proof.
  unfold candidate.
  set (c := cbrt_round (d ^ 3 - a ^ 3 - 1 ^ 3)).
  destruct (Z.ltb_spec 0 c), (Z.ltb_spec c 1); try lia;
    now rewrite ?andb_false_r, ?andb_false_l.
Qed.

Lemma accepted_is_brute_force :
  accepted cbrt_round a (a + n) (Py.range_down (a - 1) 0)
  = find_cube_quadruplets a n.
Proof.
  unfold find_cube_quadruplets, accepted.
  destruct (Z_lt_le_dec (a - 1) 1) as [Hsmall|Hbig].
  - rewrite (range_down_nil (a - 1) 1) by lia.
    destruct (Z_lt_le_dec 0 (a - 1)) as [Hone|Hnone].
    + rewrite range_down_cons, range_down_nil by lia. cbn [flat_map].
      replace (a - 1) with 1 by lia. rewrite candidate_at_one. reflexivity.
    + rewrite range_down_nil by lia. reflexivity.
  - rewrite (range_down_split (a - 1) 1 0) by lia.
    rewrite (range_down_cons 1 0), (range_down_nil (1 - 1) 0) by lia.
    rewrite flat_map_app. cbn [flat_map].
    rewrite candidate_at_one, !app_nil_r.
    symmetry. apply flat_map_ext_in. intros b Hb. apply in_range_down in Hb.
    apply brute_force_inner. lia.
Qed.

End BruteForce.

(** X4.  With a budget of at least a - 1, every [needed] convertible to a
    double and a candidate generator that is exact on the cubes below a^3,
    [find_cube_quadruplets_improved] returns exactly the list of the
    brute-force [find_cube_quadruplets], in the same order, after a - 1
    iterations and without the stop notice. *)
Theorem improved_equals_brute_force (cbrt_round : Z -> Z) (a n m : Z) :
  0 < a -> 0 < n -> 0 < m -> a - 1 <= m ->
  (a + n) ^ 3 - a ^ 3 <= Py.float_overflow_bound ->
  (forall k, 0 < k < a -> cbrt_round (k ^ 3) = k) ->
  find_cube_quadruplets_improved cbrt_round (Py.Int a) (Py.Int n) (Py.Int m)
  = Py.Return (SearchText (a - 1) false, find_cube_quadruplets a n).
Proof.
  intros Ha Hn Hm Hbudget Hfloat Hexact.
  rewrite find_cube_quadruplets_improved_eq by assumption.
  destruct (Z.gtb_spec m 0); [|lia].
  rewrite improved_loop_run; cbn [quadruplets iterations stopped app].
  - rewrite range_down_length, accepted_is_brute_force by assumption.
    rewrite stop_notice_shown_false. do 3 f_equal. lia.
  - rewrite range_down_length. lia.
  - intros b Hb. apply in_range_down in Hb.
    assert (0 < b ^ 3) by (apply Z.pow_pos_nonneg; lia). lia.
Qed.

Lemma nearest_cbrt_exact_below_6 (k : Z) :
  0 < k < 5 -> nearest_cbrt (k ^ 3) = k.
Proof.
  intros Hk.
  assert (Hcases : k = 1 \/ k = 2 \/ k = 3 \/ k = 4) by lia.
  destruct Hcases as [->|[->|[->| ->]]]; reflexivity.
Qed.

Lemma improved_equals_brute_force_witness :
  find_cube_quadruplets_improved nearest_cbrt (Py.Int 5) (Py.Int 1) (Py.Int 4)
  = Py.Return (SearchText (5 - 1) false, find_cube_quadruplets 5 1).
Proof.
  apply (improved_equals_brute_force nearest_cbrt 5 1 4); try lia.
  - vm_compute. discriminate.
  - exact nearest_cbrt_exact_below_6.
Defined.

(** ** The result of find_cube_quadruplets_with_factors *)

Lemma nodup_snoc {A : Type} (xs : list A) (x : A) :
  NoDup xs -> ~ In x xs -> NoDup (xs ++ [x]).
Proof.
  intros Hnd Hx. induction Hnd as [|y ys Hy Hnd IH]; cbn.
  - constructor; [intros []|constructor].
  - constructor.
    + intros Hin. apply in_app_or in Hin. destruct Hin as [Hin|[->|[]]].
      * contradiction.
      * apply Hx. now left.
    + apply IH. intros Hin. apply Hx. now right.
Qed.

(** The family loop only appends, and never appends what is there. *)
Lemma generate_factor_families_appends (max_factor : Z)
    (primitives quads : list quadruplet) :
  exists rest,
    fst (generate_factor_families max_factor primitives quads) = quads ++ rest
    /\ (NoDup quads ->
        NoDup (fst (generate_factor_families max_factor primitives quads))).
Proof.
  unfold generate_factor_families.
  apply (fold_left_invariant _
           (fun acc => exists rest, fst acc = quads ++ rest
                                    /\ (NoDup quads -> NoDup (fst acc)))).
  2:{ exists []. cbn. rewrite app_nil_r. auto. }
  intros acc p _ Hacc.
  apply (fold_left_invariant _
           (fun acc => exists rest, fst acc = quads ++ rest
                                    /\ (NoDup quads -> NoDup (fst acc))));
    [|exact Hacc].
  intros [qs count] f _ (rest & Hrest & Hnd). cbn [fst] in *.
  rewrite scale_step_eq.
  destruct (quadruplet_in (scale f p) qs) eqn:Hin; cbn [fst].
  - exists rest. auto.
  - exists (rest ++ [scale f p]). split.
    + rewrite Hrest. now rewrite app_assoc.
    + intros H. apply nodup_snoc; [auto|].
      intros Hq. apply quadruplet_in_spec in Hq. congruence.
Qed.

Lemma range_2_2 : Py.range 2 (1 + 1) = [].
Proof. reflexivity. Qed.

Lemma generate_factor_families_one (primitives quads : list quadruplet) :
  fst (generate_factor_families 1 primitives quads) = quads.
Proof.
  unfold generate_factor_families. rewrite range_2_2.
  apply (fold_left_invariant _ (fun acc => fst acc = quads)); [|reflexivity].
  intros acc p _ H. exact H.
Qed.

Section FactorsOutcome.

Variable cbrt_round : Z -> Z.

(** Both entry points make the same checks on a, n and max_iterations. *)
Lemma with_factors_against_improved (a n max_iterations : Py.value) (mf : Z)
    (include_factors : bool) :
  match find_cube_quadruplets_improved cbrt_round a n max_iterations with
  | Py.Raise e =>
      find_cube_quadruplets_with_factors cbrt_round a n max_iterations
        include_factors (Py.Int mf) = Py.Raise e
  | Py.Return (txt, found) =>
      exists txt',
        find_cube_quadruplets_with_factors cbrt_round a n max_iterations
          include_factors (Py.Int mf)
        = Py.Return
            (txt',
             if include_factors
             then fst (generate_factor_families (if mf >? 0 then mf else 5)
                         (filter primitive found) found)
             else found)
  end.
Proof.
  destruct a as [a|]; [|destruct include_factors; eexists; reflexivity].
  destruct n as [n|]; [|destruct include_factors; eexists; reflexivity].
  destruct max_iterations as [m|];
    [|destruct include_factors; eexists; reflexivity].
  destruct (Z_lt_le_dec 0 a) as [Ha|Ha]; [destruct (Z_lt_le_dec 0 n) as [Hn|Hn]|].
  - rewrite find_cube_quadruplets_improved_eq by assumption.
    pose proof (find_cube_quadruplets_with_factors_eq cbrt_round a n m mf
                  include_factors Ha Hn) as Heq.
    destruct (improved_loop _ _ _ _ _ _ _) as [st|e]; [|exact Heq].
    destruct Heq as [families Heq]. eexists. exact Heq.
  - unfold find_cube_quadruplets_improved, find_cube_quadruplets_with_factors,
      convert_factor_parameters, convert_parameters, int_or_default.
    cbn [Py.int Py.gt0].
    assert (Hor : (a <=? 0) || (n <=? 0) = true).
    { apply orb_true_iff. right. now apply Z.leb_le. }
    destruct (m >? 0), (mf >? 0); cbn [Py.int]; rewrite Hor;
      destruct include_factors; eexists; reflexivity.
  - unfold find_cube_quadruplets_improved, find_cube_quadruplets_with_factors,
      convert_factor_parameters, convert_parameters, int_or_default.
    cbn [Py.int Py.gt0].
    assert (Hor : (a <=? 0) || (n <=? 0) = true).
    { apply orb_true_iff. left. now apply Z.leb_le. }
    destruct (m >? 0), (mf >? 0); cbn [Py.int]; rewrite Hor;
      destruct include_factors; eexists; reflexivity.
Qed.

End FactorsOutcome.

(** X5.  Without scaling, that is with factor analysis off and an integer
    max_factor, or with max_factor = 1,
    [find_cube_quadruplets_with_factors] returns the same quadruplet list
    as [find_cube_quadruplets_improved] on the same a, n and
    max_iterations, and raises when it raises; this for every a, n and
    max_iterations, rejected ones included.  A max_factor that is not an
    integer is different: [max_factor > 0] is evaluated whether or not
    factor analysis is on, so with max_factor = None
    [find_cube_quadruplets_with_factors] rejects every input with the
    message for invalid integers and an empty list, also where
    [find_cube_quadruplets_improved] finds a quadruplet, as for a = 5,
    n = 1. *)
Theorem with_factors_without_scaling (cbrt_round : Z -> Z)
    (a n max_iterations : Py.value) :
  (forall mf,
      result_map snd
        (find_cube_quadruplets_with_factors cbrt_round a n max_iterations
           false (Py.Int mf))
      = result_map snd
          (find_cube_quadruplets_improved cbrt_round a n max_iterations))
  /\ result_map snd
       (find_cube_quadruplets_with_factors cbrt_round a n max_iterations
          true (Py.Int 1))
     = result_map snd
         (find_cube_quadruplets_improved cbrt_round a n max_iterations)
  /\ (forall include_factors,
         find_cube_quadruplets_with_factors cbrt_round a n max_iterations
           include_factors Py.None
         = Py.Return (ErrorText "Error: Please enter valid integers", []))
  /\ (exists txt,
         find_cube_quadruplets_improved nearest_cbrt
           (Py.Int 5) (Py.Int 1) (Py.Int 10)
         = Py.Return (txt, [(5, 4, 3, 6)])).
Proof.
  split; [|split; [|split]].
  - intros mf.
    pose proof (with_factors_against_improved cbrt_round a n max_iterations mf
                  false) as H.
    destruct (find_cube_quadruplets_improved _ _ _ _) as [[txt found]|e].
    + destruct H as [txt' ->]. reflexivity.
    + rewrite H. reflexivity.
  - pose proof (with_factors_against_improved cbrt_round a n max_iterations 1
                  true) as H.
    destruct (find_cube_quadruplets_improved _ _ _ _) as [[txt found]|e].
    + destruct H as [txt' ->]. cbn [result_map snd].
      change (1 >? 0) with true. cbv iota.
      now rewrite generate_factor_families_one.
    + rewrite H. reflexivity.
  - intros incl. unfold find_cube_quadruplets_with_factors,
      convert_factor_parameters, convert_parameters, int_or_default.
    destruct a as [a|], n as [n|], max_iterations as [m|];
      try reflexivity.
    cbn [Py.int Py.gt0]. destruct (m >? 0); reflexivity.
  - eexists. vm_compute. reflexivity.
Qed.

(** X6.  With factor analysis on, the list
    [find_cube_quadruplets_with_factors] returns starts with the list
    [find_cube_quadruplets_improved] returns; its members are exactly the
    found quadruplets and the found primitive ones scaled by the factors
    2, ..., max_factor (5 when max_factor is not positive); and it has no
    duplicates. *)
Theorem with_factors_members (cbrt_round : Z -> Z) (a n m mf : Z)
    (txt : text) (found : list quadruplet) :
  0 < a -> 0 < n ->
  find_cube_quadruplets_improved cbrt_round (Py.Int a) (Py.Int n) (Py.Int m)
  = Py.Return (txt, found) ->
  exists txt' rest,
    find_cube_quadruplets_with_factors cbrt_round (Py.Int a) (Py.Int n)
      (Py.Int m) true (Py.Int mf) = Py.Return (txt', found ++ rest)
    /\ NoDup (found ++ rest)
    /\ forall q,
        In q (found ++ rest)
        <-> In q found
            \/ exists p f, In p found /\ primitive p = true
                           /\ 2 <= f <= (if mf >? 0 then mf else 5)
                           /\ q = scale f p.
Proof.
  intros Ha Hn Hrun.
  pose proof (with_factors_against_improved cbrt_round (Py.Int a) (Py.Int n)
                (Py.Int m) mf true) as H.
  rewrite Hrun in H. destruct H as [txt' Heq].
  destruct (generate_factor_families_appends (if mf >? 0 then mf else 5)
              (filter primitive found) found) as (rest & Hrest & Hnodup).
  exists txt', rest. rewrite <- Hrest. split; [exact Heq|]. split.
  - apply Hnodup.
    destruct (find_cube_quadruplets_improved_shape cbrt_round a n (Py.Int m) txt
                found Ha Hn Hrun) as [_ Hdesc].
    now apply descending_b_nodup.
  - intros q. split.
    + intros Hq. apply generate_factor_families_origin in Hq.
      destruct Hq as [Hq|(p & f & Hp & Hf & ->)]; [now left|].
      right. exists p, f. apply filter_In in Hp. tauto.
    + intros [Hq|(p & f & Hp & Hprim & Hf & ->)].
      * now apply generate_factor_families_keeps.
      * apply generate_factor_families_adds; [|exact Hf].
        apply filter_In. auto.
Qed.

Lemma with_factors_members_witness :
  exists txt' rest,
    find_cube_quadruplets_with_factors nearest_cbrt (Py.Int 5) (Py.Int 1)
      (Py.Int 10) true (Py.Int 3) = Py.Return (txt', [(5, 4, 3, 6)] ++ rest)
    /\ NoDup ([(5, 4, 3, 6)] ++ rest)
    /\ forall q,
        In q ([(5, 4, 3, 6)] ++ rest)
        <-> In q [(5, 4, 3, 6)]
            \/ exists p f, In p [(5, 4, 3, 6)] /\ primitive p = true
                           /\ 2 <= f <= (if 3 >? 0 then 3 else 5)
                           /\ q = scale f p.
Proof.
  apply (with_factors_members nearest_cbrt 5 1 10 3 (SearchText 4 false));
    [lia|lia|].
  vm_compute. reflexivity.
Defined.

(** ** Primitive forms *)

Lemma find_gcd_multiple_scale (f a b c d : Z) :
  0 <= f ->
  find_gcd_multiple (f * a) [f * b; f * c; f * d]
  = f * find_gcd_multiple a [b; c; d].
Proof.
  intros Hf. rewrite !find_gcd_multiple_four.
  now rewrite !Z.gcd_mul_mono_l_nonneg.
Qed.

(** The tuple divided by its greatest common divisor has greatest common
    divisor 1. *)
Lemma reduced_gcd_one (a b c d : Z) :
  let g := find_gcd_multiple a [b; c; d] in
  g <> 0 ->
  find_gcd_multiple (a / g) [b / g; c / g; d / g] = 1.
Proof.
  intros g Hg0.
  destruct (find_gcd_multiple_divides a b c d) as (Hga & Hgb & Hgc & Hgd).
  fold g in Hga, Hgb, Hgc, Hgd.
  assert (Hexact : forall x, (g | x) -> g * (x / g) = x).
  { intros x [k ->]. rewrite Z.div_mul by exact Hg0. ring. }
  set (h := find_gcd_multiple (a / g) [b / g; c / g; d / g]).
  destruct (find_gcd_multiple_divides (a / g) (b / g) (c / g) (d / g))
    as (Hha & Hhb & Hhc & Hhd).
  fold h in Hha, Hhb, Hhc, Hhd.
  assert (Hlift : forall x, (g | x) -> (h | x / g) -> (g * h | x)).
  { intros x Hgx Hhx. rewrite <- (Hexact x Hgx) at 1.
    now apply Z.mul_divide_mono_l. }
  assert (Hgh : (g * h | g)) by (apply find_gcd_multiple_greatest; auto).
  assert (Hh1 : (h | 1)).
  { apply (Z.mul_divide_cancel_l h 1 g Hg0). now rewrite Z.mul_1_r. }
  apply Z.divide_1_r_nonneg; [apply find_gcd_multiple_nonneg|exact Hh1].
Qed.

(** X7.  [get_primitive_form] raises ZeroDivisionError exactly on
    (0, 0, 0, 0); on every other tuple of integers it returns the tuple
    divided by its greatest common divisor, with that divisor. *)
Theorem get_primitive_form_zero_division (a b c d : Z) :
  (get_primitive_form a b c d = Py.Raise Py.ZeroDivisionError
   <-> a = 0 /\ b = 0 /\ c = 0 /\ d = 0)
  /\ (~ (a = 0 /\ b = 0 /\ c = 0 /\ d = 0) ->
      let g := find_gcd_multiple a [b; c; d] in
      get_primitive_form a b c d = Py.Return (a / g, b / g, c / g, d / g, g)).
Proof.
  split; [split|].
  - intros Hraise.
    destruct (Z.eq_dec (find_gcd_multiple a [b; c; d]) 0) as [H0|H0].
    + now apply find_gcd_multiple_zero.
    + rewrite get_primitive_form_returns in Hraise by exact H0.
      discriminate Hraise.
  - intros (-> & -> & -> & ->). reflexivity.
  - intros Hnz. apply get_primitive_form_returns.
    intros H0. apply Hnz. now apply find_gcd_multiple_zero.
Qed.

Lemma get_primitive_form_zero_division_witness :
  get_primitive_form (-4) 6 0 10 = Py.Return (-2, 3, 0, 5, 2).
Proof.
  apply (proj2 (get_primitive_form_zero_division (-4) 6 0 10)).
  intros (H & _). discriminate H.
Defined.

(** X8.  Scaling does not change the primitive form: for f > 0, if
    [get_primitive_form] of (a, b, c, d) returns (a', b', c', d', g), then
    on (f*a, f*b, f*c, f*d) it returns (a', b', c', d', f*g).  So a
    primitive quadruplet and its family members share one family key. *)
Theorem get_primitive_form_of_scaled (f a b c d a' b' c' d' g : Z) :
  0 < f ->
  get_primitive_form a b c d = Py.Return (a', b', c', d', g) ->
  get_primitive_form (f * a) (f * b) (f * c) (f * d)
  = Py.Return (a', b', c', d', f * g).
Proof.
  intros Hf Hform.
  destruct (Z.eq_dec (find_gcd_multiple a [b; c; d]) 0) as [H0|H0].
  { apply find_gcd_multiple_zero in H0. destruct H0 as (-> & -> & -> & ->).
    discriminate Hform. }
  rewrite get_primitive_form_returns in Hform by exact H0.
  cbv zeta in Hform. inversion Hform; subst. clear Hform.
  rewrite get_primitive_form_returns;
    rewrite find_gcd_multiple_scale by lia; [|lia].
  cbv zeta. rewrite !Z.div_mul_cancel_l by lia. reflexivity.
Qed.

Lemma get_primitive_form_of_scaled_witness :
  get_primitive_form (7 * 10) (7 * 8) (7 * 6) (7 * 12)
  = Py.Return (5, 4, 3, 6, 7 * 2).
Proof.
  apply (get_primitive_form_of_scaled 7 10 8 6 12); [lia|reflexivity].
Defined.

(** X9.  The primitive form is primitive and is its own primitive form:
    if [get_primitive_form] returns (a', b', c', d', g) then
    [is_primitive_solution] holds of (a', b', c', d') and
    [get_primitive_form] of (a', b', c', d') returns (a', b', c', d', 1). *)
Theorem get_primitive_form_idempotent (a b c d a' b' c' d' g : Z) :
  get_primitive_form a b c d = Py.Return (a', b', c', d', g) ->
  is_primitive_solution a' b' c' d' = true
  /\ get_primitive_form a' b' c' d' = Py.Return (a', b', c', d', 1).
Proof.
  intros Hform.
  destruct (Z.eq_dec (find_gcd_multiple a [b; c; d]) 0) as [H0|H0].
  { apply find_gcd_multiple_zero in H0. destruct H0 as (-> & -> & -> & ->).
    discriminate Hform. }
  rewrite get_primitive_form_returns in Hform by exact H0.
  cbv zeta in Hform. injection Hform as <- <- <- <- <-.
  pose proof (reduced_gcd_one a b c d H0) as Hone. cbv zeta in Hone.
  rewrite (find_gcd_multiple_four a b c d) in Hone.
  split.
  - unfold is_primitive_solution. rewrite Hone. reflexivity.
  - rewrite get_primitive_form_returns; rewrite Hone; [|discriminate].
    cbv zeta. now rewrite !Z.div_1_r.
Qed.

Lemma get_primitive_form_idempotent_witness :
  is_primitive_solution 5 4 3 6 = true
  /\ get_primitive_form 5 4 3 6 = Py.Return (5, 4, 3, 6, 1).
Proof.
  apply (get_primitive_form_idempotent 15 12 9 18 5 4 3 6 3). reflexivity.
Defined.

Lemma is_primitive_solution_units (a b c d : Z) :
  is_primitive_solution a b c d = true
  <-> forall k, (k | a) -> (k | b) -> (k | c) -> (k | d) -> k = 1 \/ k = -1.
Proof.
  unfold is_primitive_solution. rewrite Z.eqb_eq. split.
  - intros Hone k Ha Hb Hc Hd.
    apply Z.divide_1_r. rewrite <- Hone.
    now apply find_gcd_multiple_greatest.
  - intros Hunits.
    destruct (find_gcd_multiple_divides a b c d) as (Ha & Hb & Hc & Hd).
    pose proof (find_gcd_multiple_nonneg a b c d) as Hnonneg.
    destruct (Hunits _ Ha Hb Hc Hd) as [H|H]; lia.
Qed.

(** X10.  [is_primitive_solution] holds exactly when the four numbers have
    no common divisor other than 1 and -1; on (0, 0, 0, 0), whose greatest
    common divisor is 0, it fails. *)
Theorem is_primitive_solution_iff (a b c d : Z) :
  (is_primitive_solution a b c d = true
   <-> forall k, (k | a) -> (k | b) -> (k | c) -> (k | d) -> k = 1 \/ k = -1)
  /\ is_primitive_solution 0 0 0 0 = false.
Proof.
  split; [apply is_primitive_solution_units|reflexivity].
Qed.

Lemma scale_not_primitive (f : Z) (q : quadruplet) :
  f <> 1 -> f <> -1 -> primitive (scale f q) = false.
Proof.
  intros H1 Hm1. destruct q as [[[a b] c] d]. cbn [scale primitive].
  destruct (is_primitive_solution (f * a) (f * b) (f * c) (f * d)) eqn:Hprim;
    [|reflexivity].
  exfalso.
  pose proof (proj1 (is_primitive_solution_units (f * a) (f * b) (f * c)
                       (f * d)) Hprim f) as Hunits.
  destruct Hunits as [H|H]; try contradiction; apply Z.divide_factor_l.
Qed.

(** X11.  A scaled tuple is never primitive: for every factor other than 1
    and -1, [is_primitive_solution] fails on the tuple scaled by it.  The
    family members the searches append (factors from 2 on) are therefore
    never counted as primitive. *)
Theorem scaled_never_primitive (f : Z) (q : quadruplet) :
  f <> 1 -> f <> -1 -> primitive (scale f q) = false.
Proof. apply scale_not_primitive. Qed.

Lemma scaled_never_primitive_witness :
  primitive (scale 2 (5, 4, 3, 6)) = false.
Proof.
  apply (scaled_never_primitive 2 (5, 4, 3, 6)); lia.
Defined.

(** ** The range search of app-p.py *)

Section RangeSearch.

Variable cbrt_round : Z -> Z.

Lemma convert_range_parameters_int (a0 a1 n0 n1 : Z)
    (max_iterations_per_combo max_factor : Py.value) :
  convert_range_parameters (Py.Int a0) (Py.Int a1) (Py.Int n0) (Py.Int n1)
    max_iterations_per_combo max_factor
  = (mi <- int_or_default max_iterations_per_combo 5000 ;;
     mf <- int_or_default max_factor 3 ;;
     Py.Return (a0, a1, n0, n1, mi, mf)).
Proof. reflexivity. Qed.

(** The two ends of a range may come in either order. *)
Lemma range_search_swap_a (a0 a1 n0 n1 : Z)
    (max_iterations_per_combo max_factor : Py.value) (focus : bool) :
  find_cube_quadruplets_range_with_factors cbrt_round (Py.Int a0) (Py.Int a1)
    (Py.Int n0) (Py.Int n1) max_iterations_per_combo focus max_factor
  = find_cube_quadruplets_range_with_factors cbrt_round (Py.Int a1) (Py.Int a0)
      (Py.Int n0) (Py.Int n1) max_iterations_per_combo focus max_factor.
Proof.
  unfold find_cube_quadruplets_range_with_factors.
  rewrite !convert_range_parameters_int.
  destruct (int_or_default max_iterations_per_combo 5000) as [mi|e];
    [|reflexivity].
  destruct (int_or_default max_factor 3) as [mf|e]; [|reflexivity].
  destruct (Z.leb_spec a0 0), (Z.leb_spec a1 0); cbn [orb]; try reflexivity.
  destruct (Z.gtb_spec a0 a1), (Z.gtb_spec a1 a0); try lia; try reflexivity.
  replace a1 with a0 by lia. reflexivity.
Qed.

Lemma range_search_swap_n (a0 a1 n0 n1 : Z)
    (max_iterations_per_combo max_factor : Py.value) (focus : bool) :
  find_cube_quadruplets_range_with_factors cbrt_round (Py.Int a0) (Py.Int a1)
    (Py.Int n0) (Py.Int n1) max_iterations_per_combo focus max_factor
  = find_cube_quadruplets_range_with_factors cbrt_round (Py.Int a0) (Py.Int a1)
      (Py.Int n1) (Py.Int n0) max_iterations_per_combo focus max_factor.
Proof.
  unfold find_cube_quadruplets_range_with_factors.
  rewrite !convert_range_parameters_int.
  destruct (int_or_default max_iterations_per_combo 5000) as [mi|e];
    [|reflexivity].
  destruct (int_or_default max_factor 3) as [mf|e]; [|reflexivity].
  destruct (Z.leb_spec a0 0), (Z.leb_spec a1 0), (Z.leb_spec n0 0),
           (Z.leb_spec n1 0); cbn [orb]; try reflexivity.
  destruct (Z.gtb_spec n0 n1), (Z.gtb_spec n1 n0); try lia; try reflexivity.
  replace n1 with n0 by lia. reflexivity.
Qed.

Lemma range_search_rejects_bounds (a_start a_end n_start n_end : Py.value)
    (max_iterations_per_combo max_factor : Py.value) (focus : bool) :
  positive_integer a_start = false \/ positive_integer a_end = false
  \/ positive_integer n_start = false \/ positive_integer n_end = false
  \/ max_iterations_per_combo = Py.None \/ max_factor = Py.None ->
  rejected (find_cube_quadruplets_range_with_factors cbrt_round a_start a_end
              n_start n_end max_iterations_per_combo focus max_factor).
Proof.
  unfold rejected, find_cube_quadruplets_range_with_factors,
    convert_range_parameters, int_or_default.
  intros H.
  destruct a_start as [a0|]; [|eexists; reflexivity].
  destruct a_end as [a1|]; [|eexists; reflexivity].
  destruct n_start as [n0|]; [|eexists; reflexivity].
  destruct n_end as [n1|]; [|eexists; reflexivity].
  destruct max_iterations_per_combo as [mi|]; [|eexists; reflexivity].
  cbn [Py.int Py.gt0 positive_integer] in *.
  destruct max_factor as [mf|];
    [|destruct (mi >? 0); eexists; reflexivity].
  cbn [Py.gt0].
  assert (Hor : (a0 <=? 0) || (a1 <=? 0) || (n0 <=? 0) || (n1 <=? 0) = true).
  { destruct H as [H|[H|[H|[H|[H|H]]]]]; try discriminate;
      apply Z.ltb_ge in H;
      destruct (Z.leb_spec a0 0), (Z.leb_spec a1 0), (Z.leb_spec n0 0),
               (Z.leb_spec n1 0); try reflexivity; lia. }
  destruct (mi >? 0), (mf >? 0); cbn [Py.int]; rewrite Hor; eexists; reflexivity.
Qed.

End RangeSearch.

(** X12.  In [find_cube_quadruplets_range_with_factors] a range given with
    its ends reversed is normalised: swapping a_start with a_end, or
    n_start with n_end, changes nothing in the result (text data, list,
    exception), in both modes. *)
Theorem range_search_normalizes (cbrt_round : Z -> Z) (a0 a1 n0 n1 : Z)
    (max_iterations_per_combo max_factor : Py.value) (focus : bool) :
  find_cube_quadruplets_range_with_factors cbrt_round (Py.Int a0) (Py.Int a1)
    (Py.Int n0) (Py.Int n1) max_iterations_per_combo focus max_factor
  = find_cube_quadruplets_range_with_factors cbrt_round (Py.Int a1) (Py.Int a0)
      (Py.Int n0) (Py.Int n1) max_iterations_per_combo focus max_factor
  /\ find_cube_quadruplets_range_with_factors cbrt_round (Py.Int a0) (Py.Int a1)
       (Py.Int n0) (Py.Int n1) max_iterations_per_combo focus max_factor
     = find_cube_quadruplets_range_with_factors cbrt_round (Py.Int a0) (Py.Int a1)
         (Py.Int n1) (Py.Int n0) max_iterations_per_combo focus max_factor.
Proof.
  split; [apply range_search_swap_a|apply range_search_swap_n].
Qed.

(** X13.  [find_cube_quadruplets_range_with_factors] rejects, with an error
    message and an empty list, every input where one of the four bounds is
    not a positive integer, or where max_iterations_per_combo or max_factor
    is not an integer. *)
Theorem range_search_rejects (cbrt_round : Z -> Z)
    (a_start a_end n_start n_end : Py.value)
    (max_iterations_per_combo max_factor : Py.value) (focus : bool) :
  positive_integer a_start = false \/ positive_integer a_end = false
  \/ positive_integer n_start = false \/ positive_integer n_end = false
  \/ max_iterations_per_combo = Py.None \/ max_factor = Py.None ->
  rejected (find_cube_quadruplets_range_with_factors cbrt_round a_start a_end
              n_start n_end max_iterations_per_combo focus max_factor).
Proof. apply range_search_rejects_bounds. Qed.

Lemma range_search_rejects_witness :
  rejected (find_cube_quadruplets_range_with_factors nearest_cbrt
              (Py.Int 1) (Py.Int 8) (Py.Int 0) (Py.Int 5) (Py.Int 3000)
              true (Py.Int 4)).
Proof.
  apply (range_search_rejects nearest_cbrt (Py.Int 1) (Py.Int 8) (Py.Int 0)
           (Py.Int 5) (Py.Int 3000) (Py.Int 4) true).
  right. right. left. reflexivity.
Defined.

Lemma range_search_sound_witness :
  Forall valid_quadruplet
    [(5, 4, 3, 6); (10, 8, 6, 12); (15, 12, 9, 18); (8, 6, 1, 9);
     (16, 12, 2, 18); (24, 18, 3, 27); (10, 8, 6, 12)].
Proof.
  apply (range_search_sound nearest_cbrt (Py.Int 1) (Py.Int 12) (Py.Int 1)
           (Py.Int 3) (Py.Int 100) false (Py.Int 3) (RangeText [])).
  vm_compute. reflexivity.
Defined.

(** ** The primitive-first mode of the range search *)

Section FocusMode.

Variable cbrt_round : Z -> Z.
Variables a_start a_end n_start n_end : Z.

(** With max_factor = 1 the factor search returns anchored quadruplets
    only. *)
Lemma with_factors_one_anchored (a n m : Z) (txt : text)
    (found : list quadruplet) :
  0 < a -> 0 < n ->
  find_cube_quadruplets_with_factors cbrt_round (Py.Int a) (Py.Int n) (Py.Int m)
    true (Py.Int 1) = Py.Return (txt, found) ->
  Forall (anchored a n) found.
Proof.
  intros Ha Hn Hrun.
  pose proof (with_factors_against_improved cbrt_round (Py.Int a) (Py.Int n)
                (Py.Int m) 1 true) as H.
  destruct (find_cube_quadruplets_improved _ _ _ _) as [[txt0 found0]|e]
    eqn:Himproved.
  - destruct H as [txt' H]. rewrite H in Hrun.
    change (1 >? 0) with true in Hrun. cbv iota in Hrun.
    rewrite generate_factor_families_one in Hrun.
    injection Hrun as _ <-.
    destruct (find_cube_quadruplets_improved_shape _ _ _ _ _ _ Ha Hn Himproved)
      as [Hshape _].
    apply Forall_forall. intros q Hq.
    destruct (Hshape q Hq) as (b & c & -> & _). now split.
  - rewrite H in Hrun. discriminate Hrun.
Qed.

(** Phase 1 keeps the two lists equal, inside the window, primitive and
    free of duplicates. *)
Lemma collect_primitive_window (found : list quadruplet)
    (acc : list quadruplet * list quadruplet) :
  Forall (in_window a_start a_end n_start n_end) found ->
  fst acc = snd acc /\ Forall (in_window a_start a_end n_start n_end) (fst acc) /\ NoDup (fst acc)
  /\ Forall (fun q => primitive q = true) (fst acc) ->
  let acc' := fold_left collect_primitive found acc in
  fst acc' = snd acc' /\ Forall (in_window a_start a_end n_start n_end) (fst acc') /\ NoDup (fst acc')
  /\ Forall (fun q => primitive q = true) (fst acc').
Proof.
  intros Hfound. rewrite Forall_forall in Hfound. cbv zeta.
  apply (fold_left_invariant collect_primitive
           (fun acc => fst acc = snd acc /\ Forall (in_window a_start a_end n_start n_end) (fst acc)
                       /\ NoDup (fst acc)
                       /\ Forall (fun q => primitive q = true) (fst acc))).
  intros [all prims] [[[a b] c] d] Hin (Heq & Hwin & Hnd & Hprim).
  cbn [fst snd] in *. unfold collect_primitive.
  destruct (is_primitive_solution a b c d) eqn:Hp; cbn [andb];
    [|now repeat split].
  destruct (quadruplet_in (a, b, c, d) all) eqn:Hdup; cbn [negb fst snd];
    [now repeat split|].
  subst prims. repeat split.
  - apply Forall_app. split; [exact Hwin|]. constructor; [|constructor].
    now apply Hfound.
  - apply nodup_snoc; [exact Hnd|].
    intros Hq. apply quadruplet_in_spec in Hq. congruence.
  - apply Forall_app. split; [exact Hprim|]. constructor; [|constructor].
    exact Hp.
Qed.

Lemma range_phase1_window (m : Z) (all prims : list quadruplet) :
  0 < a_start -> 0 < n_start ->
  range_phase1 cbrt_round a_start a_end n_start n_end m
  = Py.Return (all, prims) ->
  all = prims /\ Forall (in_window a_start a_end n_start n_end) all /\ NoDup all
  /\ Forall (fun q => primitive q = true) all.
Proof.
  intros Ha Hn Hrun. unfold range_phase1 in Hrun.
  set (P := fun acc : list quadruplet * list quadruplet =>
              fst acc = snd acc /\ Forall (in_window a_start a_end n_start n_end) (fst acc) /\ NoDup (fst acc)
              /\ Forall (fun q => primitive q = true) (fst acc)).
  change (P (all, prims)).
  refine (for_each_invariant P _ _ _ _ _ _ Hrun);
    [|repeat split; constructor].
  intros acc a acc' Hin Hacc Hinner. apply in_range in Hin.
  refine (for_each_invariant P _ _ _ _ _ Hacc Hinner).
  intros acc1 n acc2 Hin' Hacc1 Hbody. apply in_range in Hin'.
  destruct (find_cube_quadruplets_with_factors _ _ _ _ _ _)
    as [[txt' found]|e] eqn:Hsearch; [|discriminate].
  injection Hbody as <-.
  apply collect_primitive_window; [|exact Hacc1].
  apply with_factors_one_anchored in Hsearch; [|lia|lia].
  rewrite Forall_forall in *. intros [[[a' b'] c'] d'] Hq.
  destruct (Hsearch _ Hq) as [-> ->]. unfold in_window. lia.
Qed.

(** Phase 2 appends scaled members only, inside the window and without
    duplicates. *)
Lemma range_phase2_window (max_factor : Z) (prims all : list quadruplet) :
  Forall (in_window a_start a_end n_start n_end) all -> NoDup all ->
  exists scaled,
    range_phase2 a_start a_end n_start n_end max_factor prims all
    = all ++ scaled
    /\ Forall (in_window a_start a_end n_start n_end) (all ++ scaled) /\ NoDup (all ++ scaled)
    /\ Forall (fun q => primitive q = false) scaled.
Proof.
  intros Hwin Hnd. unfold range_phase2.
  set (Q := fun acc : list quadruplet =>
              exists scaled, acc = all ++ scaled /\ Forall (in_window a_start a_end n_start n_end) acc
                             /\ NoDup acc
                             /\ Forall (fun q => primitive q = false) scaled).
  assert (HQ : Q (fold_left
                    (fun acc p =>
                       fold_left (range_scale_step a_start a_end n_start n_end p)
                                 (Py.range 2 (max_factor + 1)) acc)
                    prims all)).
  { apply (fold_left_invariant _ Q).
    2:{ exists []. rewrite app_nil_r. repeat split; auto. }
    intros acc p _ Hacc. apply (fold_left_invariant _ Q); [|exact Hacc].
    intros acc' f Hf (scaled & -> & Hw & Hn & Hs). apply in_range in Hf.
    unfold range_scale_step.
    destruct (scale f p) as [[[sa sb] sc] sd] eqn:Hscale.
    destruct (Z.leb_spec a_start sa), (Z.leb_spec sa a_end),
             (Z.leb_spec n_start (sd - sa)), (Z.leb_spec (sd - sa) n_end);
      cbn [andb]; try (exists scaled; now repeat split).
    destruct (quadruplet_in (sa, sb, sc, sd) (all ++ scaled)) eqn:Hdup;
      cbn [negb]; [exists scaled; now repeat split|].
    exists (scaled ++ [(sa, sb, sc, sd)]). repeat split.
    - now rewrite app_assoc.
    - apply Forall_app. split; [exact Hw|]. constructor; [|constructor].
      unfold in_window. lia.
    - apply nodup_snoc; [exact Hn|].
      intros Hq. apply quadruplet_in_spec in Hq. congruence.
    - apply Forall_app. split; [exact Hs|]. constructor; [|constructor].
      rewrite <- Hscale. apply scale_not_primitive; lia. }
  destruct HQ as (scaled & Heq & Hw & Hn & Hs). exists scaled.
  rewrite <- Heq. auto.
Qed.

End FocusMode.

(** X15.  In its primitive-first mode
    [find_cube_quadruplets_range_with_factors] returns the primitive
    quadruplets it found followed by scaled, non-primitive ones; every
    member lies in the normalised search window (a' within the a range,
    d' - a' within the n range) and the list has no duplicates. *)
Theorem range_focus_window (cbrt_round : Z -> Z) (a0 a1 n0 n1 : Z)
    (max_iterations_per_combo max_factor : Py.value)
    (prims quads : list quadruplet) :
  find_cube_quadruplets_range_with_factors cbrt_round (Py.Int a0) (Py.Int a1)
    (Py.Int n0) (Py.Int n1) max_iterations_per_combo true max_factor
  = Py.Return (RangeText prims, quads) ->
  Forall (in_window (Z.min a0 a1) (Z.max a0 a1) (Z.min n0 n1) (Z.max n0 n1))
         quads
  /\ NoDup quads
  /\ exists scaled,
      quads = prims ++ scaled
      /\ Forall (fun q => primitive q = true) prims
      /\ Forall (fun q => primitive q = false) scaled.
Proof.
  unfold find_cube_quadruplets_range_with_factors.
  rewrite convert_range_parameters_int.
  destruct (int_or_default max_iterations_per_combo 5000) as [mi|e];
    [|destruct (Py.is_value_or_type_error e); discriminate].
  destruct (int_or_default max_factor 3) as [mf|e];
    [|destruct (Py.is_value_or_type_error e); discriminate].
  destruct (Z.leb_spec a0 0), (Z.leb_spec a1 0), (Z.leb_spec n0 0),
           (Z.leb_spec n1 0); cbn [orb]; try discriminate.
  assert (Ha : (if a0 >? a1 then (a1, a0) else (a0, a1))
               = (Z.min a0 a1, Z.max a0 a1)).
  { destruct (Z.gtb_spec a0 a1); f_equal; lia. }
  assert (Hn : (if n0 >? n1 then (n1, n0) else (n0, n1))
               = (Z.min n0 n1, Z.max n0 n1)).
  { destruct (Z.gtb_spec n0 n1); f_equal; lia. }
  rewrite Ha, Hn.
  destruct (range_phase1 _ _ _ _ _ _) as [[all prims']|e] eqn:Hphase1;
    [|discriminate].
  intros Hret. injection Hret as -> <-.
  apply range_phase1_window in Hphase1; [|lia|lia].
  destruct Hphase1 as (-> & Hwin & Hnd & Hprim).
  destruct (range_phase2_window (Z.min a0 a1) (Z.max a0 a1) (Z.min n0 n1)
              (Z.max n0 n1) mf prims prims Hwin Hnd)
    as (scaled & -> & Hw & Hn' & Hs).
  split; [exact Hw|]. split; [exact Hn'|]. exists scaled. auto.
Qed.

Lemma range_focus_window_witness :
  Forall (in_window (Z.min 12 1) (Z.max 12 1) (Z.min 1 3) (Z.max 1 3))
         [(5, 4, 3, 6); (8, 6, 1, 9); (10, 8, 6, 12)]
  /\ NoDup [(5, 4, 3, 6); (8, 6, 1, 9); (10, 8, 6, 12)]
  /\ exists scaled,
      [(5, 4, 3, 6); (8, 6, 1, 9); (10, 8, 6, 12)]
      = [(5, 4, 3, 6); (8, 6, 1, 9)] ++ scaled
      /\ Forall (fun q => primitive q = true) [(5, 4, 3, 6); (8, 6, 1, 9)]
      /\ Forall (fun q => primitive q = false) scaled.
Proof.
  apply (range_focus_window nearest_cbrt 12 1 1 3 (Py.Int 100) (Py.Int 3)).
  vm_compute. reflexivity.
Defined.

(** ** The range search of app.py *)

Lemma range_length (start stop : Z) :
  Z.of_nat (List.length (Py.range start stop)) = Z.max 0 (stop - start).
Proof.
  unfold Py.range. rewrite List.length_map, List.length_seq. lia.
Qed.

(** Two loops that go through the same values in step. *)
Lemma for_each_simulation {A S T : Type} (R : S -> T -> Prop) (xs : list A)
    (body1 : S -> A -> Py.result S) (body2 : T -> A -> Py.result T) :
  (forall x s t, In x xs -> R s t ->
      match body2 t x with
      | Py.Return t' => exists s', body1 s x = Py.Return s' /\ R s' t'
      | Py.Raise e => body1 s x = Py.Raise e
      end) ->
  forall s t, R s t ->
    match for_each xs body2 t with
    | Py.Return t' => exists s', for_each xs body1 s = Py.Return s' /\ R s' t'
    | Py.Raise e => for_each xs body1 s = Py.Raise e
    end.
Proof.
  induction xs as [|x xs IH]; intros Hbody s t Hst; cbn [for_each].
  - exists s. auto.
  - pose proof (Hbody x s t (or_introl eq_refl) Hst) as Hx.
    destruct (body2 t x) as [t1|e].
    + destruct Hx as (s1 & -> & Hs1). apply IH; [|exact Hs1].
      intros y s' t' Hy. apply Hbody. now right.
    + now rewrite Hx.
Qed.

(** A counter that every round of a loop advances by the same amount. *)
Lemma for_each_count {A S : Type} (count : S -> Z) (k : Z) (xs : list A)
    (body : S -> A -> Py.result S) :
  (forall s x s', In x xs -> body s x = Py.Return s' -> count s' = count s + k) ->
  forall s s', for_each xs body s = Py.Return s' ->
    count s' = count s + k * Z.of_nat (List.length xs).
Proof.
  induction xs as [|x xs IH]; intros Hbody s s' Hrun; cbn in Hrun.
  - injection Hrun as <-. cbn. lia.
  - destruct (body s x) as [s1|e] eqn:Hstep; [|discriminate].
    apply IH in Hrun; [|intros s2 y s3 Hy; apply Hbody; now right].
    rewrite Hrun, (Hbody s x s1 (or_introl eq_refl) Hstep).
    cbn [List.length]. lia.
Qed.

Lemma combo_body_tested (cbrt_round : Z -> Z) (m total a n : Z)
    (s s' : list quadruplet * Z * Z) :
  combo_body cbrt_round m total a s n = Py.Return s' ->
  snd (fst s') = snd (fst s) + 1.
Proof.
  destruct s as [[all tested] w]. unfold combo_body.
  destruct (_ && _); [discriminate|].
  destruct (combo_loop _ _ _ _ _ _ _); [|discriminate].
  intros H. injection H as <-. reflexivity.
Qed.

Section RangeSearchAppFacts.

Variable cbrt_round : Z -> Z.

(** The loop of one combination is the loop of
    [find_cube_quadruplets_improved]; what it finds goes to the end of
    [all_quadruplets] as well. *)
Lemma combo_loop_view (a d target_sum m : Z) (base : list quadruplet)
    (bs : list Z) :
  forall (st : combo_state) (stop : bool),
    st.(c_all_quadruplets) = base ++ st.(c_found_for_this_combo) ->
    match combo_loop cbrt_round a d target_sum m bs st with
    | Py.Return st' =>
        (exists stop',
            improved_loop cbrt_round a d target_sum m bs
              {| quadruplets := st.(c_found_for_this_combo);
                 iterations := st.(c_iterations);
                 stopped := stop |}
            = Py.Return {| quadruplets := st'.(c_found_for_this_combo);
                           iterations := st'.(c_iterations);
                           stopped := stop' |})
        /\ st'.(c_all_quadruplets) = base ++ st'.(c_found_for_this_combo)
    | Py.Raise e =>
        improved_loop cbrt_round a d target_sum m bs
          {| quadruplets := st.(c_found_for_this_combo);
             iterations := st.(c_iterations);
             stopped := stop |}
        = Py.Raise e
    end.
Proof.
  induction bs as [|b bs IH]; intros st stop Hall.
  - cbn. split; [exists stop; reflexivity|exact Hall].
  - cbn [combo_loop improved_loop quadruplets iterations stopped
         c_found_for_this_combo c_all_quadruplets c_iterations].
    destruct (c_iterations st + 1 >? m).
    { split; [exists true; reflexivity|exact Hall]. }
    pose proof (IH {| c_found_for_this_combo := c_found_for_this_combo st;
                      c_all_quadruplets := c_all_quadruplets st;
                      c_iterations := c_iterations st + 1 |} stop Hall)
      as Hskip.
    cbn [c_found_for_this_combo c_all_quadruplets c_iterations] in Hskip.
    destruct ((b >=? a) || (b >=? d)); [exact Hskip|].
    destruct (target_sum - b ^ 3 <=? 0); [exact Hskip|].
    unfold float_cbrt_round.
    destruct (Py.float_overflow_bound <=? target_sum - b ^ 3); [reflexivity|].
    set (c := cbrt_round (target_sum - b ^ 3)).
    destruct (Py.int_lt_float (Z.abs (c ^ 3 - (target_sum - b ^ 3)))
                              Py.float_1e_10); [|exact Hskip].
    destruct ((c >? 0) && (c <? b) && (c <? a) && (c <? d) && negb (c =? a)
              && negb (c =? b) && negb (c =? d)); [|exact Hskip].
    destruct (Py.int_lt_float (Z.abs (a ^ 3 + b ^ 3 + c ^ 3 - d ^ 3))
                              Py.float_1e_10); [|exact Hskip].
    apply (IH {| c_found_for_this_combo :=
                   c_found_for_this_combo st ++ [(a, b, c, d)];
                 c_all_quadruplets := c_all_quadruplets st ++ [(a, b, c, d)];
                 c_iterations := c_iterations st + 1 |} stop).
    cbn [c_found_for_this_combo c_all_quadruplets].
    rewrite Hall. now rewrite app_assoc.
Qed.

(** One combination of the range search against one single-point search. *)
Lemma combo_body_view (m total a n : Z) (all : list quadruplet) (tested w : Z) :
  0 < m -> total <> 0 -> 0 < a -> 0 < n ->
  match find_cube_quadruplets_improved cbrt_round
          (Py.Int a) (Py.Int n) (Py.Int m) with
  | Py.Return (_, found) =>
      exists w',
        combo_body cbrt_round m total a (all, tested, w) n
        = Py.Return (all ++ found, tested + 1, w')
        /\ w <= w' <= w + 1
  | Py.Raise e =>
      combo_body cbrt_round m total a (all, tested, w) n = Py.Raise e
  end.
Proof.
  intros Hm Htotal Ha Hn.
  rewrite find_cube_quadruplets_improved_eq by assumption.
  destruct (Z.gtb_spec m 0); [|lia].
  unfold combo_body.
  destruct (Z.eqb_spec total 0); [contradiction|]. rewrite andb_false_r.
  pose proof (combo_loop_view a (a + n) ((a + n) ^ 3 - a ^ 3) m all
                (Py.range_down (a - 1) 0)
                {| c_found_for_this_combo := [];
                   c_all_quadruplets := all;
                   c_iterations := 0 |} false) as Hview.
  cbn [c_found_for_this_combo c_all_quadruplets c_iterations] in Hview.
  specialize (Hview (eq_sym (app_nil_r all))).
  destruct (combo_loop _ _ _ _ _ _ _) as [st'|e].
  - destruct Hview as [[stop' ->] Hall]. cbn [quadruplets].
    rewrite Hall.
    destruct (c_found_for_this_combo st'); eexists; (split; [reflexivity|lia]).
  - now rewrite Hview.
Qed.

(** The whole range search against the grid of single-point searches. *)
Lemma find_cube_quadruplets_range_grid (a0 a1 n0 n1 m : Z) :
  0 < a0 -> 0 < a1 -> 0 < n0 -> 0 < n1 ->
  let total := (Z.max a0 a1 - Z.min a0 a1 + 1) * (Z.max n0 n1 - Z.min n0 n1 + 1) in
  match grid_of_searches cbrt_round (Z.min a0 a1) (Z.max a0 a1)
          (Z.min n0 n1) (Z.max n0 n1) (if m >? 0 then m else 5000) with
  | Py.Return quads =>
      exists w,
        find_cube_quadruplets_range cbrt_round (Py.Int a0) (Py.Int a1)
          (Py.Int n0) (Py.Int n1) (Py.Int m)
        = Py.Return (RangeSummary total w, quads)
        /\ 0 <= w <= total
  | Py.Raise e =>
      find_cube_quadruplets_range cbrt_round (Py.Int a0) (Py.Int a1)
        (Py.Int n0) (Py.Int n1) (Py.Int m) = Py.Raise e
  end.
Proof.
  intros Ha0 Ha1 Hn0 Hn1 total.
  set (budget := if m >? 0 then m else 5000).
  assert (Hbudget : 0 < budget) by (subst budget; destruct (Z.gtb_spec m 0); lia).
  assert (Htotal : 0 < total) by (subst total; nia).
  unfold find_cube_quadruplets_range, convert_app_range_parameters,
    int_or_default. cbn [Py.int Py.gt0].
  assert (Hconv : (if m >? 0 then Py.Return m else Py.Return 5000)
                  = Py.Return budget)
    by (subst budget; destruct (m >? 0); reflexivity).
  rewrite Hconv.
  destruct (Z.leb_spec a0 0), (Z.leb_spec a1 0), (Z.leb_spec n0 0),
           (Z.leb_spec n1 0); try lia. cbn [orb].
  assert (Hsa : (if a0 >? a1 then (a1, a0) else (a0, a1))
                = (Z.min a0 a1, Z.max a0 a1))
    by (destruct (Z.gtb_spec a0 a1); f_equal; lia).
  assert (Hsn : (if n0 >? n1 then (n1, n0) else (n0, n1))
                = (Z.min n0 n1, Z.max n0 n1))
    by (destruct (Z.gtb_spec n0 n1); f_equal; lia).
  rewrite Hsa, Hsn. fold total.
  set (lo_a := Z.min a0 a1) in *. set (hi_a := Z.max a0 a1) in *.
  set (lo_n := Z.min n0 n1) in *. set (hi_n := Z.max n0 n1) in *.
  set (outer := fun (acc : list quadruplet * Z * Z) (a : Z) =>
                  for_each (Py.range lo_n (hi_n + 1))
                           (combo_body cbrt_round budget total a) acc).
  (* the two loops agree on the list; the counters keep w <= tested *)
  set (R := fun (s : list quadruplet * Z * Z) (t : list quadruplet) =>
              fst (fst s) = t /\ 0 <= snd s <= snd (fst s)).
  assert (Hsim :
    match grid_of_searches cbrt_round lo_a hi_a lo_n hi_n budget with
    | Py.Return t' =>
        exists s', for_each (Py.range lo_a (hi_a + 1)) outer ([], 0, 0)
                   = Py.Return s' /\ R s' t'
    | Py.Raise e =>
        for_each (Py.range lo_a (hi_a + 1)) outer ([], 0, 0) = Py.Raise e
    end).
  { unfold grid_of_searches. apply (for_each_simulation R).
    2:{ subst R. cbn. split; [reflexivity|lia]. }
    intros a s t Hina Hst. apply in_range in Hina.
    apply (for_each_simulation R); [|exact Hst].
    intros n [[all tested] w] t' Hinn [Hall Hw]. apply in_range in Hinn.
    cbn [fst snd] in Hall, Hw. subst t'.
    pose proof (combo_body_view budget total a n all tested w Hbudget
                  ltac:(lia) ltac:(lia) ltac:(lia)) as Hbody.
    destruct (find_cube_quadruplets_improved _ _ _ _) as [[txt found]|e].
    - destruct Hbody as (w' & -> & Hw'). eexists. split; [reflexivity|].
      subst R. cbn. split; [reflexivity|lia].
    - exact Hbody. }
  destruct (grid_of_searches _ _ _ _ _ _) as [quads|e].
  - destruct Hsim as ([[all tested] w] & Hrun & Hall & Hw).
    cbn [fst snd] in Hall, Hw. subst all.
    fold outer. rewrite Hrun.
    assert (Htested : tested = total).
    { assert (Hinner : forall a (s s' : list quadruplet * Z * Z),
                 outer s a = Py.Return s' ->
                 snd (fst s') = snd (fst s) + (hi_n - lo_n + 1)).
      { intros a s s' Hrun'. unfold outer in Hrun'.
        apply (for_each_count (fun s : list quadruplet * Z * Z => snd (fst s)) 1)
          in Hrun'.
        - rewrite Hrun', range_length. subst lo_n hi_n. lia.
        - intros s1 n s2 _ Hb. eapply combo_body_tested. exact Hb. }
      pose proof Hrun as Hcount.
      apply (for_each_count (fun s : list quadruplet * Z * Z => snd (fst s))
               (hi_n - lo_n + 1)) in Hcount.
      - cbn [fst snd] in Hcount. rewrite range_length in Hcount.
        subst total lo_a hi_a. lia.
      - intros s a s' _. apply Hinner. }
    subst tested.
    destruct (Z.eqb_spec total 0); [lia|].
    exists w. split; [reflexivity|lia].
  - fold outer. now rewrite Hsim.
Qed.

End RangeSearchAppFacts.

(** X16.  For positive integer bounds, [find_cube_quadruplets_range] of
    app.py, whose loop is written out a second time in the source, is the
    single-point search [find_cube_quadruplets_improved] run over the
    normalised grid (a ascending, n ascending within a) with the lists
    concatenated: it returns that list, with [combinations_tested] equal to
    the size of the grid and [combinations_with_solutions] between 0 and
    that size, and it raises exactly when one of the single searches
    raises.  The budget is max_iterations_per_combo, or 5000 when that is
    not positive. *)
Theorem range_search_is_grid (cbrt_round : Z -> Z) (a0 a1 n0 n1 m : Z) :
  0 < a0 -> 0 < a1 -> 0 < n0 -> 0 < n1 ->
  let total := (Z.max a0 a1 - Z.min a0 a1 + 1) * (Z.max n0 n1 - Z.min n0 n1 + 1) in
  match grid_of_searches cbrt_round (Z.min a0 a1) (Z.max a0 a1)
          (Z.min n0 n1) (Z.max n0 n1) (if m >? 0 then m else 5000) with
  | Py.Return quads =>
      exists w,
        find_cube_quadruplets_range cbrt_round (Py.Int a0) (Py.Int a1)
          (Py.Int n0) (Py.Int n1) (Py.Int m)
        = Py.Return (RangeSummary total w, quads)
        /\ 0 <= w <= total
  | Py.Raise e =>
      find_cube_quadruplets_range cbrt_round (Py.Int a0) (Py.Int a1)
        (Py.Int n0) (Py.Int n1) (Py.Int m) = Py.Raise e
  end.
Proof. apply find_cube_quadruplets_range_grid. Qed.

Lemma range_search_is_grid_witness :
  exists w,
    find_cube_quadruplets_range nearest_cbrt (Py.Int 12) (Py.Int 1)
      (Py.Int 1) (Py.Int 3) (Py.Int 100)
    = Py.Return (RangeSummary 36 w, [(5, 4, 3, 6); (8, 6, 1, 9); (10, 8, 6, 12)])
    /\ 0 <= w <= 36.
Proof.
  exact (range_search_is_grid nearest_cbrt 12 1 1 3 100
           ltac:(lia) ltac:(lia) ltac:(lia) ltac:(lia)).
Defined.

Section RangeSearchAppSound.

Variable cbrt_round : Z -> Z.

Lemma grid_of_searches_sound (a_start a_end n_start n_end m : Z)
    (quads : list quadruplet) :
  0 < a_start -> 0 < n_start ->
  grid_of_searches cbrt_round a_start a_end n_start n_end m = Py.Return quads ->
  Forall valid_quadruplet quads
  /\ Forall (in_window a_start a_end n_start n_end) quads.
Proof.
  intros Ha Hn Hrun. unfold grid_of_searches in Hrun.
  set (P := fun all : list quadruplet =>
              Forall valid_quadruplet all
              /\ Forall (in_window a_start a_end n_start n_end) all).
  change (P quads).
  refine (for_each_invariant P _ _ _ _ _ _ Hrun); [|split; constructor].
  intros all a all' Hina Hall Hinner. apply in_range in Hina.
  refine (for_each_invariant P _ _ _ _ _ Hall Hinner).
  intros all1 n all2 Hinn [Hvalid Hwin] Hbody. apply in_range in Hinn.
  destruct (find_cube_quadruplets_improved _ _ _ _) as [[txt found]|e]
    eqn:Hsearch; [|discriminate].
  injection Hbody as <-.
  split; apply Forall_app; (split; [assumption|]).
  - eapply find_cube_quadruplets_improved_valid; [| |exact Hsearch]; lia.
  - destruct (find_cube_quadruplets_improved_shape cbrt_round a n _ _ _
                ltac:(lia) ltac:(lia) Hsearch) as [Hshape _].
    apply Forall_forall. intros q Hq.
    destruct (Hshape q Hq) as (b & c & -> & _). unfold in_window. lia.
Qed.

End RangeSearchAppSound.

(** A bound that is not positive: the range search returns no
    quadruplet. *)
Lemma app_range_rejected_empty (cbrt_round : Z -> Z) (a0 a1 n0 n1 m : Z)
    (txt : range_text) (quads : list quadruplet) :
  a0 <= 0 \/ a1 <= 0 \/ n0 <= 0 \/ n1 <= 0 ->
  find_cube_quadruplets_range cbrt_round (Py.Int a0) (Py.Int a1) (Py.Int n0)
    (Py.Int n1) (Py.Int m) = Py.Return (txt, quads) ->
  quads = [].
Proof.
  intros Hbad.
  unfold find_cube_quadruplets_range, convert_app_range_parameters,
    int_or_default. cbn [Py.int Py.gt0].
  destruct (m >? 0); cbn [Py.int];
    destruct (Z.leb_spec a0 0), (Z.leb_spec a1 0), (Z.leb_spec n0 0),
             (Z.leb_spec n1 0); try lia; cbn [orb];
    intros Hret; now injection Hret.
Qed.

(** X17.  Every quadruplet [find_cube_quadruplets_range] returns is a valid
    quadruplet and lies in the normalised search window: its a is within
    the a range and its d - a within the n range. *)
Theorem range_search_app_sound (cbrt_round : Z -> Z) (a0 a1 n0 n1 : Z)
    (max_iterations_per_combo : Py.value) (txt : range_text)
    (quads : list quadruplet) :
  find_cube_quadruplets_range cbrt_round (Py.Int a0) (Py.Int a1) (Py.Int n0)
    (Py.Int n1) max_iterations_per_combo = Py.Return (txt, quads) ->
  Forall valid_quadruplet quads
  /\ Forall (in_window (Z.min a0 a1) (Z.max a0 a1) (Z.min n0 n1) (Z.max n0 n1))
            quads.
Proof.
  intros Hrun.
  assert (Hnil : quads = [] ->
                 Forall valid_quadruplet quads
                 /\ Forall (in_window (Z.min a0 a1) (Z.max a0 a1)
                                      (Z.min n0 n1) (Z.max n0 n1)) quads).
  { intros ->. split; constructor. }
  destruct max_iterations_per_combo as [m|].
  2:{ cbn in Hrun. injection Hrun as _ <-. now apply Hnil. }
  destruct (Z_lt_le_dec 0 a0) as [Ha0|Ha0];
    [destruct (Z_lt_le_dec 0 a1) as [Ha1|Ha1];
     [destruct (Z_lt_le_dec 0 n0) as [Hn0|Hn0];
      [destruct (Z_lt_le_dec 0 n1) as [Hn1|Hn1]|]|]|].
  - pose proof (find_cube_quadruplets_range_grid cbrt_round a0 a1 n0 n1 m
                  Ha0 Ha1 Hn0 Hn1) as Hgrid.
    cbv zeta in Hgrid.
    destruct (grid_of_searches _ _ _ _ _ _) as [quads'|e] eqn:Hsearch.
    + destruct Hgrid as (w & Heq & _). rewrite Heq in Hrun.
      injection Hrun as _ <-.
      eapply grid_of_searches_sound; [| |exact Hsearch]; lia.
    + rewrite Hgrid in Hrun. discriminate Hrun.
  - apply Hnil. now apply (app_range_rejected_empty cbrt_round a0 a1 n0 n1 m txt);
      [right; right; right|].
  - apply Hnil. now apply (app_range_rejected_empty cbrt_round a0 a1 n0 n1 m txt);
      [right; right; left|].
  - apply Hnil. now apply (app_range_rejected_empty cbrt_round a0 a1 n0 n1 m txt);
      [right; left|].
  - apply Hnil. now apply (app_range_rejected_empty cbrt_round a0 a1 n0 n1 m txt);
      [left|].
Qed.

Lemma range_search_app_sound_witness :
  Forall valid_quadruplet [(5, 4, 3, 6); (8, 6, 1, 9); (10, 8, 6, 12)]
  /\ Forall (in_window (Z.min 12 1) (Z.max 12 1) (Z.min 1 3) (Z.max 1 3))
            [(5, 4, 3, 6); (8, 6, 1, 9); (10, 8, 6, 12)].
Proof.
  apply (range_search_app_sound nearest_cbrt 12 1 1 3 (Py.Int 100)
           (RangeSummary 36 3)).
  vm_compute. reflexivity.
Defined.

(** ** The results table and the data frame *)

(** A valid quadruplet divided by a positive common divisor of its
    components is valid. *)
Lemma unscale_valid (g : Z) (p : quadruplet) :
  0 < g -> valid_quadruplet (scale g p) -> valid_quadruplet p.
Proof.
  destruct p as [[[a b] c] d].
  unfold valid_quadruplet, cube_equation, ordered, pairwise_distinct, scale.
  intros Hg (Heq & Hord & Hdis).
  rewrite !Z.pow_mul_l, <- !Z.mul_add_distr_l in Heq.
  assert (Hg3 : g ^ 3 <> 0) by (apply Z.pow_nonzero; lia).
  apply Z.mul_reg_l in Heq; [|exact Hg3].
  split; [exact Heq|]. split; nia.
Qed.

Lemma frame_row_of_valid (a b c d : Z) :
  valid_quadruplet (a, b, c, d) ->
  let g := find_gcd_multiple a [b; c; d] in
  exists p,
    (if g =? 1 then Py.Return (a, b, c, d)
     else
       '(prim_a, prim_b, prim_c, prim_d, _) <- get_primitive_form a b c d ;;
       Py.Return (prim_a, prim_b, prim_c, prim_d)) = Py.Return p
    /\ 1 <= g /\ scale g p = (a, b, c, d) /\ primitive p = true
    /\ valid_quadruplet p.
Proof.
  intros Hvalid g.
  assert (Hpos : 0 < a /\ 0 < b /\ 0 < c /\ 0 < d).
  { destruct Hvalid as (_ & Hord & _). cbn in Hord. lia. }
  destruct Hpos as (Ha & Hb & Hc & Hd).
  assert (Hg0 : g <> 0).
  { intros H0. apply find_gcd_multiple_zero in H0. lia. }
  assert (Hg : 1 <= g).
  { pose proof (find_gcd_multiple_nonneg a b c d). fold g in H. lia. }
  destruct (Z.eqb_spec g 1) as [Hone|Hmany].
  - exists (a, b, c, d). split; [reflexivity|]. split; [exact Hg|].
    split; [unfold scale; now rewrite Hone, !Z.mul_1_l|].
    split; [|exact Hvalid].
    cbn [primitive]. unfold is_primitive_solution. fold g. now rewrite Hone.
  - rewrite get_primitive_form_returns by exact Hg0. cbv zeta. fold g.
    exists (a / g, b / g, c / g, d / g). split; [reflexivity|].
    split; [exact Hg|].
    destruct (find_gcd_multiple_divides a b c d) as (Hga & Hgb & Hgc & Hgd).
    fold g in Hga, Hgb, Hgc, Hgd.
    assert (Hexact : forall x, (g | x) -> g * (x / g) = x).
    { intros x [k ->]. rewrite Z.div_mul by exact Hg0. ring. }
    assert (Hscale : scale g (a / g, b / g, c / g, d / g) = (a, b, c, d)).
    { unfold scale. now rewrite !Hexact. }
    split; [exact Hscale|]. split.
    + cbn [primitive]. unfold is_primitive_solution.
      pose proof (reduced_gcd_one a b c d Hg0) as Hone. cbv zeta in Hone.
      fold g in Hone. rewrite Hone. reflexivity.
    + apply (unscale_valid g); [lia|]. now rewrite Hscale.
Qed.

Lemma frame_rows_of_valid (quads : list quadruplet) :
  Forall valid_quadruplet quads ->
  forall i,
    exists rows,
      frame_rows i quads = Py.Return rows
      /\ Forall2 row_describes quads rows
      /\ map Solution_No rows
         = Py.range i (i + Z.of_nat (List.length quads)).
Proof.
  induction 1 as [|[[[a b] c] d] quads Hq Hrest IH]; intros i.
  - exists []. split; [reflexivity|]. split; [constructor|].
    cbn. unfold Py.range. now replace (i + 0 - i) with 0 by lia.
  - destruct (frame_row_of_valid a b c d Hq) as (p & Hp & Hg & Hscale & Hprim & Hpv).
    destruct (IH (i + 1)) as (rows & Hrows & Hdesc & Hnos).
    cbn [frame_rows]. rewrite Hp, Hrows.
    eexists. split; [reflexivity|]. split.
    + constructor; [|exact Hdesc].
      unfold row_describes.
      cbn [col_a col_b col_c col_d col_n Common_Factor Type_is_primitive
           Primitive_Form Equation_Check_valid primitive].
      destruct Hq as (Heq & Hord & _).
      unfold cube_equation, ordered in Heq, Hord.
      split; [reflexivity|]. split; [lia|]. split; [lia|].
      split; [exact Hg|]. split; [reflexivity|]. split; [exact Hscale|].
      split; [exact Hprim|]. split; [exact Hpv|].
      apply Z.eqb_eq. lia.
    + cbn [map Solution_No List.length]. rewrite Hnos.
      unfold Py.range.
      replace (Z.to_nat (i + Z.of_nat (S (List.length quads)) - i))
        with (S (List.length quads)) by lia.
      replace (Z.to_nat (i + 1 + Z.of_nat (List.length quads) - (i + 1)))
        with (List.length quads) by lia.
      rewrite <- cons_seq, <- seq_shift, map_cons, map_map.
      f_equal; [lia|]. apply map_ext. intros k. lia.
Qed.

Lemma table_rows_of_frame_rows (quads : list quadruplet) :
  forall i,
    table_rows i quads = result_map (map table_of_frame) (frame_rows i quads).
Proof.
  induction quads as [|[[[a b] c] d] quads IH]; intros i; [reflexivity|].
  cbn [table_rows frame_rows]. rewrite IH.
  destruct (find_gcd_multiple a [b; c; d] =? 1).
  - destruct (frame_rows (i + 1) quads); reflexivity.
  - destruct (get_primitive_form a b c d) as [[[[[pa pb] pc] pd] g]|e];
      [|reflexivity].
    destruct (frame_rows (i + 1) quads); reflexivity.
Qed.

(** X18.  For a list of valid quadruplets, such as the searches return,
    [create_results_dataframe] returns one row per quadruplet, numbered
    from 1, and each row describes its quadruplet: n = d - a > 0, the
    common factor is at least 1, the type is 'Primitive' exactly when the
    quadruplet is primitive, the primitive form scaled by the common factor
    is the quadruplet, the primitive form is primitive and is itself a
    valid quadruplet, and the equation check is 'Valid'. *)
Theorem dataframe_of_valid_quadruplets (quads : list quadruplet) :
  Forall valid_quadruplet quads ->
  exists rows,
    create_results_dataframe quads = Py.Return rows
    /\ Forall2 row_describes quads rows
    /\ map Solution_No rows = Py.range 1 (1 + Z.of_nat (List.length quads)).
Proof.
  intros Hvalid. destruct (frame_rows_of_valid quads Hvalid 1) as (rows & H).
  exists rows. destruct quads; [|exact H].
  cbn in H. destruct H as (Hrows & Hrest). injection Hrows as <-.
  split; [reflexivity|exact Hrest].
Qed.

Lemma dataframe_of_valid_quadruplets_witness :
  exists rows,
    create_results_dataframe [(5, 4, 3, 6); (10, 8, 6, 12)] = Py.Return rows
    /\ Forall2 row_describes [(5, 4, 3, 6); (10, 8, 6, 12)] rows
    /\ map Solution_No rows = Py.range 1 (1 + 2).
Proof.
  apply (dataframe_of_valid_quadruplets [(5, 4, 3, 6); (10, 8, 6, 12)]).
  repeat constructor; cbn; lia.
Defined.

(** X19.  The table of [update_results_table] is the frame of
    [create_results_dataframe] restricted to its columns: on every list
    both raise the same exception or the rows of the table are the rows of
    the frame, column for column. *)
Theorem table_agrees_with_dataframe (quads : list quadruplet) :
  update_results_table quads
  = result_map (map table_of_frame) (create_results_dataframe quads).
Proof.
  destruct quads as [|q quads]; [reflexivity|].
  apply (table_rows_of_frame_rows (q :: quads) 1).
Qed.

(** ** Verification against the data model *)

Lemma verify_positive (a b c d : Z) :
  0 < a -> 0 < b -> 0 < c -> 0 < d ->
  verify_equation_step_by_step (Py.Int a) (Py.Int b) (Py.Int c) (Py.Int d)
  = if d ^ 3 - a ^ 3 =? b ^ 3 + c ^ 3
    then EquationSatisfied true
           {| d_gt_a := d >? a; a_gt_b := a >? b; b_gt_c := b >? c;
              c_gt_0 := true |}
           ((d >? a) && (a >? b) && (b >? c))
    else EquationNotSatisfied (Z.abs (d ^ 3 - a ^ 3 - (b ^ 3 + c ^ 3))).
Proof.
  intros Ha Hb Hc Hd. unfold verify_equation_step_by_step.
  cbn [Py.int existsb].
  destruct (Z.leb_spec a 0), (Z.leb_spec b 0), (Z.leb_spec c 0),
           (Z.leb_spec d 0); try lia. cbn [orb].
  destruct (Z.eqb_spec (d ^ 3 - a ^ 3) (b ^ 3 + c ^ 3)) as [Heq|Hne];
    [|reflexivity].
  destruct (Z.eqb_spec (a ^ 3 + b ^ 3 + c ^ 3) (d ^ 3)); [|lia].
  destruct (Z.gtb_spec c 0); [|lia].
  cbn [fold_left].
  destruct (d >? a), (a >? b), (b >? c); reflexivity.
Qed.

Lemma verify_not_positive (a b c d : Z) :
  a <= 0 \/ b <= 0 \/ c <= 0 \/ d <= 0 ->
  verify_equation_step_by_step (Py.Int a) (Py.Int b) (Py.Int c) (Py.Int d)
  = NotPositive.
Proof.
  intros H. unfold verify_equation_step_by_step. cbn [Py.int existsb].
  destruct (Z.leb_spec a 0), (Z.leb_spec b 0), (Z.leb_spec c 0),
           (Z.leb_spec d 0); try reflexivity; lia.
Qed.

(** X20.  [verify_equation_step_by_step] decides the data model: on
    integers it reports the equation satisfied with all constraints
    satisfied exactly when (a, b, c, d) is a valid quadruplet.  Whenever it
    reports the equation satisfied, the alternative-form check matches and
    the check c > 0 is true: those two lines can never show a failure. *)
Theorem verify_decides_validity (a b c d : Z) :
  ((exists alt_match constraints,
       verify_equation_step_by_step (Py.Int a) (Py.Int b) (Py.Int c) (Py.Int d)
       = EquationSatisfied alt_match constraints true)
   <-> valid_quadruplet (a, b, c, d))
  /\ (forall alt_match constraints all_satisfied,
         verify_equation_step_by_step (Py.Int a) (Py.Int b) (Py.Int c) (Py.Int d)
         = EquationSatisfied alt_match constraints all_satisfied ->
         alt_match = true /\ constraints.(c_gt_0) = true).
Proof.
  destruct (Z_lt_le_dec 0 a) as [Ha|Ha];
    [destruct (Z_lt_le_dec 0 b) as [Hb|Hb];
     [destruct (Z_lt_le_dec 0 c) as [Hc|Hc];
      [destruct (Z_lt_le_dec 0 d) as [Hd|Hd]|]|]|].
  2-5: rewrite verify_not_positive by lia;
       (split; [split|]);
       [intros (alt & cs & H); discriminate H
       |intros (_ & Hord & _); cbn in Hord; lia
       |intros alt cs all H; discriminate H].
  rewrite verify_positive by assumption. split; [split|].
  - intros (alt & cs & H).
    destruct (Z.eqb_spec (d ^ 3 - a ^ 3) (b ^ 3 + c ^ 3)) as [Heq|];
      [|discriminate H].
    injection H as _ _ Hall.
    apply ordered_valid; try lia;
      repeat (apply andb_true_iff in Hall; destruct Hall as [Hall ?]); lia.
  - intros (Heq & Hord & _). unfold cube_equation, ordered in Heq, Hord.
    destruct (Z.eqb_spec (d ^ 3 - a ^ 3) (b ^ 3 + c ^ 3)); [|lia].
    destruct (Z.gtb_spec d a), (Z.gtb_spec a b), (Z.gtb_spec b c); try lia.
    eexists. eexists. reflexivity.
  - intros alt cs all H.
    destruct (Z.eqb_spec (d ^ 3 - a ^ 3) (b ^ 3 + c ^ 3)); [|discriminate H].
    injection H as <- <- _. split; reflexivity.
Qed.

(** ** The brute-force search *)

Lemma flat_map_descending (f : Z -> list quadruplet) (bs : list Z) :
  (forall b, In b bs ->
             f b = [] \/ exists q, f b = [q] /\ component_b q = b) ->
  StronglySorted (fun x y => x > y) bs ->
  descending_b (flat_map f bs).
Proof.
  unfold descending_b. intros Hf Hs.
  induction Hs as [|b bs Hs IH Hall]; [constructor|].
  cbn [flat_map].
  assert (Hrest : StronglySorted
                    (fun p q => component_b p > component_b q)
                    (flat_map f bs)).
  { apply IH. intros b' Hb'. apply Hf. now right. }
  destruct (Hf b (or_introl eq_refl)) as [->|(q & -> & Hq)]; [exact Hrest|].
  cbn. constructor; [exact Hrest|].
  apply Forall_forall. intros q' Hq'. apply in_flat_map in Hq'.
  destruct Hq' as (b' & Hb' & Hq').
  destruct (Hf b' (or_intror Hb')) as [Hnil|(q'' & Hone & Hcomp)].
  - rewrite Hnil in Hq'. destruct Hq'.
  - rewrite Hone in Hq'. destruct Hq' as [<-|[]].
    rewrite Hq, Hcomp. rewrite Forall_forall in Hall. now apply Hall.
Qed.

(** For one b the inner loop finds at most one c: cubes of distinct
    positive integers differ. *)
Lemma brute_force_inner_at_most_one (a d target b : Z) (cs : list Z) :
  StronglySorted (fun x y => x > y) cs ->
  Forall (fun c => 0 < c) cs ->
  let inner :=
    flat_map (fun c => if b ^ 3 + c ^ 3 =? target then [(a, b, c, d)] else [])
             cs in
  inner = [] \/ exists q, inner = [q] /\ component_b q = b.
Proof.
  cbv zeta. induction 1 as [|c cs Hs IH Hall]; intros Hpos; [now left|].
  cbn [flat_map]. inversion Hpos as [|? ? Hc Hpos']; subst.
  destruct (Z.eqb_spec (b ^ 3 + c ^ 3) target) as [Heq|Hne].
  - right. exists (a, b, c, d). split; [|reflexivity].
    rewrite flat_map_nil; [reflexivity|].
    intros c' Hc'. rewrite Forall_forall in Hall, Hpos'.
    specialize (Hall c' Hc'). specialize (Hpos' c' Hc').
    assert (c' ^ 3 < c ^ 3) by (apply cube_lt; lia).
    destruct (Z.eqb_spec (b ^ 3 + c' ^ 3) target); [lia|reflexivity].
  - cbn [app]. now apply IH.
Qed.

Lemma cube_le (x y : Z) : x <= y -> x ^ 3 <= y ^ 3.
Proof.
  intros H. replace (x ^ 3) with (x * x * x) by ring.
  replace (y ^ 3) with (y * y * y) by ring.
  assert (Hid : 2 * (y * y * y - x * x * x)
                = (y - x) * ((x + y) * (x + y) + x * x + y * y)) by ring.
  assert (0 <= (y - x) * ((x + y) * (x + y) + x * x + y * y)).
  { apply Z.mul_nonneg_nonneg; [lia|].
    pose proof (Z.square_nonneg (x + y)). pose proof (Z.square_nonneg x).
    pose proof (Z.square_nonneg y). lia. }
  lia.
Qed.

(** X21.  The brute-force [find_cube_quadruplets] returns its quadruplets
    in strictly descending b, at most one for each b, so without
    duplicates; and it returns the empty list when a <= 2 or n <= 0. *)
Theorem brute_force_descending (a n : Z) :
  descending_b (find_cube_quadruplets a n)
  /\ NoDup (find_cube_quadruplets a n)
  /\ (a <= 2 \/ n <= 0 -> find_cube_quadruplets a n = []).
Proof.
  assert (Hdesc : descending_b (find_cube_quadruplets a n)).
  { unfold find_cube_quadruplets. apply flat_map_descending.
    - intros b _. apply brute_force_inner_at_most_one.
      + apply range_down_sorted.
      + apply Forall_forall. intros c Hc. apply in_range_down in Hc. lia.
    - apply range_down_sorted. }
  split; [exact Hdesc|]. split; [now apply descending_b_nodup|].
  intros [Ha|Hn]; unfold find_cube_quadruplets.
  - now rewrite range_down_nil by lia.
  - apply flat_map_nil. intros b Hb. apply in_range_down in Hb.
    apply flat_map_nil. intros c Hc. apply in_range_down in Hc.
    assert (0 < b ^ 3) by (apply Z.pow_pos_nonneg; lia).
    assert (0 < c ^ 3) by (apply Z.pow_pos_nonneg; lia).
    assert ((a + n) ^ 3 <= a ^ 3) by (apply cube_le; lia).
    destruct (Z.eqb_spec (b ^ 3 + c ^ 3) ((a + n) ^ 3 - a ^ 3));
      [lia|reflexivity].
Qed.

Lemma brute_force_descending_witness : find_cube_quadruplets 2 7 = [].
Proof.
  apply (proj2 (proj2 (brute_force_descending 2 7))). left. lia.
Defined.

(** ** The families of find_cube_quadruplets_with_factors *)

Lemma families_of_snoc (quads : list quadruplet) (q : quadruplet) :
  families_of (quads ++ [q])
  = family_append (primitive_key q) (q, common_factor_of q) (families_of quads).
Proof. unfold families_of. now rewrite fold_left_app. Qed.

Section FamiliesLoop.

Variable cbrt_round : Z -> Z.
Variables a d target_sum max_iterations : Z.

(** With factor analysis on, the dict records the quadruplets found, in
    the order found. *)
Lemma factors_loop_families (bs : list Z) :
  forall st st' : factor_state,
    factors_loop cbrt_round a d target_sum max_iterations true bs st
    = Py.Return st' ->
    st.(f_factor_families) = families_of st.(f_quadruplets) ->
    st'.(f_factor_families) = families_of st'.(f_quadruplets).
Proof.
  induction bs as [|b bs IH]; intros st st' Hrun Hst.
  - cbn in Hrun. now injection Hrun as <-.
  - cbn [factors_loop] in Hrun.
    destruct (f_iterations st + 1 >? max_iterations).
    { injection Hrun as <-. exact Hst. }
    destruct ((b >=? a) || (b >=? d)); [eapply IH; [exact Hrun|exact Hst]|].
    destruct (target_sum - b ^ 3 <=? 0); [eapply IH; [exact Hrun|exact Hst]|].
    unfold float_cbrt_round in Hrun.
    destruct (Py.float_overflow_bound <=? target_sum - b ^ 3); [discriminate|].
    set (c := cbrt_round (target_sum - b ^ 3)) in *.
    destruct (Py.int_lt_float (Z.abs (c ^ 3 - (target_sum - b ^ 3)))
                              Py.float_1e_10);
      [|eapply IH; [exact Hrun|exact Hst]].
    destruct ((c >? 0) && (c <? b) && (c <? a) && (c <? d) && negb (c =? a)
              && negb (c =? b) && negb (c =? d)) eqn:Hc;
      [|eapply IH; [exact Hrun|exact Hst]].
    destruct (Py.int_lt_float (Z.abs (a ^ 3 + b ^ 3 + c ^ 3 - d ^ 3))
                              Py.float_1e_10);
      [|eapply IH; [exact Hrun|exact Hst]].
    assert (Hcpos : 0 < c).
    { repeat (apply andb_true_iff in Hc; destruct Hc as [Hc ?]). lia. }
    destruct (Z.eqb_spec (find_gcd_multiple a [b; c; d]) 1) as [Hone|Hmany].
    + eapply IH; [exact Hrun|].
      cbn [f_factor_families f_quadruplets].
      rewrite families_of_snoc, Hst.
      cbn [primitive_key common_factor_of]. rewrite Hone.
      now rewrite !Z.div_1_r.
    + rewrite get_primitive_form_returns in Hrun.
      2:{ intros H0. apply find_gcd_multiple_zero in H0. lia. }
      cbv zeta in Hrun. eapply IH; [exact Hrun|].
      cbn [f_factor_families f_quadruplets].
      now rewrite families_of_snoc, Hst.
Qed.

End FamiliesLoop.

Lemma family_append_new (key : quadruplet) (member : quadruplet * Z)
    (families : list (quadruplet * list (quadruplet * Z))) :
  (forall k members, In (k, members) families -> k <> key) ->
  family_append key member families = families ++ [(key, [member])].
Proof.
  induction families as [|[k members] families IH]; intros Hnew;
    [reflexivity|].
  cbn [family_append app].
  destruct (quadruplet_eqb key k) eqn:Heq.
  - apply quadruplet_eqb_eq in Heq. exfalso.
    apply (Hnew k members); [now left|now symmetry].
  - f_equal. apply IH. intros k' ms Hin. apply (Hnew k' ms). now right.
Qed.

(** A tuple is its key scaled by its common factor. *)
Lemma scale_primitive_key (q : quadruplet) :
  scale (common_factor_of q) (primitive_key q) = q.
Proof.
  destruct q as [[[a b] c] d]. cbn [scale common_factor_of primitive_key].
  set (g := find_gcd_multiple a [b; c; d]).
  destruct (find_gcd_multiple_divides a b c d) as (Hga & Hgb & Hgc & Hgd).
  fold g in Hga, Hgb, Hgc, Hgd.
  destruct (Z.eq_dec g 0) as [H0|H0].
  - apply find_gcd_multiple_zero in H0. destruct H0 as (-> & -> & -> & ->).
    reflexivity.
  - assert (Hexact : forall x, (g | x) -> g * (x / g) = x).
    { intros x [k ->]. rewrite Z.div_mul by exact H0. ring. }
    now rewrite !Hexact.
Qed.

(** Two quadruplets with the same positive a and the same key are equal. *)
Lemma primitive_key_anchored (a n : Z) (p q : quadruplet) :
  0 < a -> anchored a n p -> anchored a n q ->
  primitive_key p = primitive_key q -> p = q.
Proof.
  intros Ha Hp Hq Hkey.
  pose proof (scale_primitive_key p) as Hsp.
  pose proof (scale_primitive_key q) as Hsq.
  rewrite Hkey in Hsp.
  destruct p as [[[pa pb] pc] pd], q as [[[qa qb] qc] qd].
  destruct Hp as [-> ->], Hq as [-> ->].
  destruct (primitive_key (a, qb, qc, a + n)) as [[[ka kb] kc] kd].
  set (g := common_factor_of (a, pb, pc, a + n)) in *.
  set (g' := common_factor_of (a, qb, qc, a + n)) in *.
  clearbody g g'. cbn [scale] in Hsp, Hsq.
  injection Hsp as Ha1 Hb1 Hc1 Hd1. injection Hsq as Ha2 Hb2 Hc2 Hd2.
  assert (Hka : ka <> 0) by (intros ->; lia).
  assert (Hg : g = g').
  { apply (Z.mul_cancel_r g g' ka Hka). lia. }
  subst g'. congruence.
Qed.

(** For anchored quadruplets without duplicates the dict has one family
    for each, with that quadruplet as its only member. *)
Lemma families_of_anchored (a n : Z) (quads : list quadruplet) :
  0 < a -> Forall (anchored a n) quads -> NoDup quads ->
  families_of quads
  = map (fun q => (primitive_key q, [(q, common_factor_of q)])) quads.
Proof.
  intros Ha. induction quads as [|q quads IH] using rev_ind;
    intros Hanch Hnd; [reflexivity|].
  apply Forall_app in Hanch. destruct Hanch as [Hanch Hq].
  inversion Hq as [|? ? Hq' _]; subst.
  assert (Hnd' : NoDup quads /\ ~ In q quads).
  { apply NoDup_remove in Hnd. rewrite app_nil_r in Hnd. exact Hnd. }
  destruct Hnd' as [Hnd' Hnotin].
  rewrite families_of_snoc, IH by assumption.
  rewrite family_append_new; [now rewrite map_app|].
  intros k members Hin Hk. apply in_map_iff in Hin.
  destruct Hin as (q' & Heq & Hq'in). injection Heq as <- _.
  apply Hnotin. rewrite Forall_forall in Hanch.
  rewrite <- (primitive_key_anchored a n q' q Ha (Hanch q' Hq'in) Hq' Hk).
  exact Hq'in.
Qed.

(** X22.  In [find_cube_quadruplets_with_factors] with factor analysis on,
    the families dict has one entry for every quadruplet the loop found, in
    the order found, keyed by the quadruplet's primitive form and holding
    that quadruplet with its common factor as its only member: no family
    ever has two members, and the scaled quadruplets generated afterwards
    are in no family.  The primitive solutions listed are the primitive
    ones among those found. *)
Theorem with_factors_families (cbrt_round : Z -> Z) (a n m mf : Z)
    (its : Z) (stop : bool) (prims : list quadruplet)
    (families : list (quadruplet * list (quadruplet * Z)))
    (quads : list quadruplet) :
  0 < a -> 0 < n ->
  find_cube_quadruplets_with_factors cbrt_round (Py.Int a) (Py.Int n) (Py.Int m)
    true (Py.Int mf)
  = Py.Return (FactorText its stop prims families, quads) ->
  exists found rest,
    quads = found ++ rest
    /\ find_cube_quadruplets_improved cbrt_round (Py.Int a) (Py.Int n) (Py.Int m)
       = Py.Return (SearchText its stop, found)
    /\ prims = filter primitive found
    /\ families
       = map (fun q => (primitive_key q, [(q, common_factor_of q)])) found
    /\ Forall (fun q => scale (common_factor_of q) (primitive_key q) = q) found.
Proof.
  intros Ha Hn Hrun.
  pose proof (factors_loop_view cbrt_round a (a + n) ((a + n) ^ 3 - a ^ 3)
                (if m >? 0 then m else 10000) true
                (Py.range_down (a - 1) 0)
                {| f_quadruplets := []; f_primitive_solutions := [];
                   f_factor_families := []; f_iterations := 0;
                   f_stopped := false |}) as Hview.
  pose proof (factors_loop_families cbrt_round a (a + n) ((a + n) ^ 3 - a ^ 3)
                (if m >? 0 then m else 10000)
                (Py.range_down (a - 1) 0)
                {| f_quadruplets := []; f_primitive_solutions := [];
                   f_factor_families := []; f_iterations := 0;
                   f_stopped := false |}) as Hfams.
  change (search_view
            {| f_quadruplets := []; f_primitive_solutions := [];
               f_factor_families := []; f_iterations := 0;
               f_stopped := false |})
    with {| quadruplets := []; iterations := 0; stopped := false |} in Hview.
  revert Hrun.
  unfold find_cube_quadruplets_with_factors, convert_factor_parameters,
    convert_parameters, int_or_default. cbn [Py.int Py.gt0].
  assert (Hconv : (if m >? 0 then Py.Return m else Py.Return 10000)
                  = Py.Return (if m >? 0 then m else 10000))
    by (destruct (m >? 0); reflexivity).
  assert (Hconv' : (if mf >? 0 then Py.Return mf else Py.Return 5)
                   = Py.Return (if mf >? 0 then mf else 5))
    by (destruct (mf >? 0); reflexivity).
  rewrite Hconv, Hconv'.
  destruct (Z.leb_spec a 0), (Z.leb_spec n 0); try lia. cbn [orb].
  destruct (factors_loop _ _ _ _ _ _ _ _) as [st'|e]; [|discriminate].
  destruct Hview as [Hloop Hinv].
  specialize (Hfams st' eq_refl eq_refl).
  assert (Hprims : primitives_recorded true st') by (apply Hinv; reflexivity).
  unfold primitives_recorded in Hprims.
  assert (Himproved :
    find_cube_quadruplets_improved cbrt_round (Py.Int a) (Py.Int n) (Py.Int m)
    = Py.Return (SearchText (f_iterations st')
                   (stop_notice_shown (f_quadruplets st') (f_stopped st')),
                 f_quadruplets st')).
  { rewrite find_cube_quadruplets_improved_eq by assumption.
    rewrite Hloop. reflexivity. }
  destruct (find_cube_quadruplets_improved_shape cbrt_round a n (Py.Int m) _ _
              ltac:(lia) ltac:(lia) Himproved) as [Hshape Hdesc].
  destruct (generate_factor_families_appends (if mf >? 0 then mf else 5)
              (f_primitive_solutions st') (f_quadruplets st'))
    as (rest & Hrest & _).
  intros Hret. cbv zeta in Hret.
  assert (Hquads : exists rest',
             quads = f_quadruplets st' ++ rest'
             /\ stop = stop_notice_shown (f_quadruplets st') (f_stopped st')).
  { destruct (f_primitive_solutions st') as [|p ps] eqn:Hp.
    - exists []. rewrite app_nil_r. injection Hret as _ Hstop _ _ Hq.
      now subst.
    - exists rest. injection Hret as _ Hstop _ _ Hq. subst quads stop.
      split; [exact Hrest|].
      assert (Hin : In p (f_quadruplets st')).
      { apply (proj1 (proj1 (filter_In primitive p (f_quadruplets st'))
                        ltac:(rewrite <- Hprims; now left))). }
      apply (stop_notice_shown_nonempty p); [|exact Hin].
      now apply generate_factor_families_keeps. }
  destruct Hquads as (rest' & Hquads & Hstop).
  injection Hret as <- _ <- <- _. subst stop.
  exists (f_quadruplets st'), rest'.
  split; [exact Hquads|].
  split; [exact Himproved|]. split; [exact Hprims|]. split.
  - rewrite Hfams. apply (families_of_anchored a n); [lia| |].
    + apply Forall_forall. intros q Hq.
      destruct (Hshape q Hq) as (b & c & -> & _). now split.
    + now apply descending_b_nodup.
  - apply Forall_forall. intros q _. apply scale_primitive_key.
Qed.

Lemma with_factors_families_witness :
  exists found rest,
    [(5, 4, 3, 6); (10, 8, 6, 12); (15, 12, 9, 18)] = found ++ rest
    /\ find_cube_quadruplets_improved nearest_cbrt (Py.Int 5) (Py.Int 1)
         (Py.Int 1) = Py.Return (SearchText 2 true, found)
    /\ [(5, 4, 3, 6)] = filter primitive found
    /\ [((5, 4, 3, 6), [((5, 4, 3, 6), 1)])]
       = map (fun q => (primitive_key q, [(q, common_factor_of q)])) found
    /\ Forall (fun q => scale (common_factor_of q) (primitive_key q) = q) found.
Proof.
  apply (with_factors_families nearest_cbrt 5 1 1 3); [lia|lia|].
  vm_compute. reflexivity.
Defined.
